(** * stonescriptphp-files: the gateway core, embedded and verified

    A shallow embedding of the gateway of the files service:

    - [JwksClient] (jwks-client.js): issuer selection, the key-set cache and
      its refetch discipline;
    - [createAuthMiddleware] / [createJwksAuthMiddleware] (auth.js): bearer
      token verification and the identity attached to the request;
    - [createAuthorizationMiddleware] (authorization.js): the oracle call and
      its fail-closed handling;
    - [AzureStorageClient] (azure-storage.js): prefixes, lookup by file id and
      the ownership test;
    - the routers and the middleware stack of [createFilesServer] (index.js).

    JavaScript values are modelled by [value]; objects are finite maps from
    property names to values.  Asynchronous functions become computations in
    a state-and-exception monad [M] over an explicit [state] (the key cache,
    the blob container, the log of effects); everything the process cannot
    decide by itself (clock, network, random ids, the rate-limit library) is
    read from a [world].  Libraries the repository only calls (jsonwebtoken,
    node:crypto, express routing, parseInt) are an interface record [libs]. *)

From Stdlib Require Import ZArith String Ascii List Bool Lia.
From stdpp Require Import gmap strings list fin_maps pretty.

Set Warnings "-register-all".

Open Scope string_scope.
Open Scope Z_scope.

(** ** JavaScript values *)

Module Js.

Inductive value : Type :=
| VUndefined
| VNull
| VBool (b : bool)
| VNum (n : Z)
| VStr (s : string)
| VArr (xs : list value)
| VObj (o : gmap string value).

Abbreviation obj := (gmap string value).

(** [!!v] of JavaScript: which values pass an [if], [||] or [?:] test.
  Numbers are the integers, so [NaN] is not among them. *)
Definition truthy (v : value) : bool :=
match v with
| VUndefined | VNull => false
| VBool b => b
| VNum n => negb (n =? 0)
| VStr s => negb (s =? "")%string
| VArr _ | VObj _ => true
end.

(** [a || b] *)
Definition or (a b : value) : value := if truthy a then a else b.

(** [o.k] on an object: a missing property reads as [undefined]. *)
Definition get (o : obj) (k : string) : value := default VUndefined (o !! k).

(** [a === b].  Two objects or two arrays reached through different
  expressions are different references, hence never strictly equal. *)
Definition strict_eq (a b : value) : bool :=
match a, b with
| VUndefined, VUndefined => true
| VNull, VNull => true
| VBool x, VBool y => Bool.eqb x y
| VNum x, VNum y => x =? y
| VStr x, VStr y => (x =? y)%string
| _, _ => false
end.

(** [`${v}`]: the string a template literal inserts for [v]. *)
Fixpoint to_string (v : value) : string :=
match v with
| VUndefined => "undefined"
| VNull => "null"
| VBool true => "true"
| VBool false => "false"
| VNum n => pretty n
| VStr s => s
| VArr xs =>
    String.concat ","
      (map (fun x => match x with
                     | VUndefined | VNull => ""
                     | _ => to_string x
                     end) xs)
| VObj _ => "[object Object]"
end.

(** [s.startsWith(p)] and [s.substring(n)] *)
Definition startsWith (s p : string) : bool := String.prefix p s.
Definition substring_from (n : nat) (s : string) : string :=
String.substring n (String.length s - n) s.

End Js.
Import Js.

(** ** Effects: errors, the world, the state, the monad *)

(** A thrown [Error]: its [name], its [message] and the [statusCode] the
    storage client sets on some of them. *)
Record error := MkError {
  err_name : string;
  err_message : string;
  err_statusCode : option Z
}.

Definition Error (msg : string) : error := MkError "Error" msg None.
Definition TypeError (msg : string) : error := MkError "TypeError" msg None.
Definition AbortError : error :=
  MkError "AbortError" "This operation was aborted" None.

(** An HTTP response as [fetch] resolves it: the status line and what
    [response.json()] gives ([None] when reading or parsing the body fails). *)
Record response := MkResponse {
  resp_status : Z;
  resp_json : option value
}.

(** [response.ok] *)
Definition resp_ok (r : response) : bool :=
  (200 <=? resp_status r) && (resp_status r <=? 299).

(** How one call of [fetch], and the reading of the body that follows it,
    go.  [await fetch(...)] resolves as soon as the status line and the
    headers of the response are there; the body is read by a second await,
    [await response.json()].
    [Settles r]: the response arrives and its body is read at once, as
    [resp_json r].
    [Rejects e]: the call fails at the transport level.
    [Pending]: neither a response nor a transport error arrives (before the
    caller's timer, when it has one).
    [SettlesLate r]: the status line arrives (before the caller's timer,
    when it has one), the body only once the delay of that timer has
    passed; it is then read as [resp_json r].
    [Stalls status]: the status line arrives, the body never does. *)
Inductive fetch_outcome :=
| Settles (r : response)
| Rejects (e : error)
| Pending
| SettlesLate (r : response)
| Stalls (status : Z).

(** What [await fetch(...)] resolves to, a [Response] whose body is still
    to be read: [Body r] when reading it will give [resp_json r], [NoBody]
    when the body never arrives. *)
Inductive answered :=
| Body (r : response)
| NoBody (status : Z).

(** [response.status] and [response.ok], known once [fetch] has resolved. *)
Definition status_of (a : answered) : Z :=
  match a with
  | Body r => resp_status r
  | NoBody status => status
  end.
Definition ok_of (a : answered) : bool :=
  (200 <=? status_of a) && (status_of a <=? 299).

(** A blob of the container listing: [blob.name], [blob.metadata] (absent
    when the blob carries none) and [blob.properties.contentLength]. *)
Record blob := MkBlob {
  blob_name : string;
  blob_metadata : option (gmap string string);
  blob_contentLength : Z
}.

(** What the process did to the outside, oldest first. *)
Inductive event :=
| EvFetchJwks (url : string)
| EvFetchOracle (url : string) (authorization : option string) (body : obj)
| EvSetTimeout (ms : Z)
| EvClearTimeout
| EvAbort
| EvConsole (level : string) (tag : string)
| EvListBlobs (pfx : string)
| EvUpload (name : string) (metadata : gmap string string)
| EvDownload (name : string)
| EvDeleteBlob (name : string).

(** Everything decided outside the process.  The argument [n : nat] is the
    number of questions the process has asked the world so far, so that the
    world may answer the same question differently each time. *)
Record world := MkWorld {
  clock : nat -> Z;                         (* Date.now(), in ms *)
  network : nat -> string -> fetch_outcome; (* fetch(url, ...) *)
  uuidv4 : nat -> string;                   (* uuid's v4() *)
  limiter_passes : nat -> string -> value -> bool
    (* express-rate-limit: does the limiter of this class let this key in *)
}.

(** One entry of [JwksClient.cache]: [{jwks, fetchedAt}]. *)
Record cache_entry := MkEntry {
  jwks : value;
  fetchedAt : Z
}.

Record state := MkState {
  cache : gmap string cache_entry;  (* JwksClient.cache, by issuer key *)
  container : list blob;            (* the blob container, in listing order *)
  asked : nat;                      (* questions asked to the world *)
  log : list event                  (* effects, oldest first *)
}.

Definition set_cache (c : gmap string cache_entry) (s : state) : state :=
  MkState c (container s) (asked s) (log s).
Definition set_container (b : list blob) (s : state) : state :=
  MkState (cache s) b (asked s) (log s).

(** How a computation ends: normally, by throwing, or never. *)
Inductive completion (A : Type) :=
| Return (a : A)
| Throw (e : error)
| Hang.
Arguments Return {A} a.
Arguments Throw {A} e.
Arguments Hang {A}.

Definition M (A : Type) : Type := world -> state -> completion A * state.

Definition ret {A} (a : A) : M A := fun _ s => (Return a, s).
Definition throw {A} (e : error) : M A := fun _ s => (Throw e, s).
Definition hang {A} : M A := fun _ s => (Hang, s).

Definition bind {A B} (c : M A) (k : A -> M B) : M B :=
  fun w s =>
    match c w s with
    | (Return a, s') => k a w s'
    | (Throw e, s') => (Throw e, s')
    | (Hang, s') => (Hang, s')
    end.

(** [try { c } catch (error) { h error }] *)
Definition try_catch {A} (c : M A) (h : error -> M A) : M A :=
  fun w s =>
    match c w s with
    | (Throw e, s') => h e w s'
    | r => r
    end.

Notation "'let*' x ':=' c 'in' k" := (bind c (fun x => k))
  (at level 10, x pattern, c at level 100, k at level 200).
Notation "c1 ';;' c2" := (bind c1 (fun _ => c2))
  (at level 100, c2 at level 200, right associativity).

(** Primitive effects. *)
Definition emit (e : event) : M unit :=
  fun _ s => (Return tt, MkState (cache s) (container s) (asked s) (log s ++ [e])).

Definition ask {A} (q : world -> nat -> A) : M A :=
  fun w s => (Return (q w (asked s)),
              MkState (cache s) (container s) (S (asked s)) (log s)).

Definition Date_now : M Z := ask clock.

Definition get_state : M state := fun _ s => (Return s, s).
Definition put_cache (c : gmap string cache_entry) : M unit :=
  fun _ s => (Return tt, set_cache c s).
Definition put_container (b : list blob) : M unit :=
  fun _ s => (Return tt, set_container b s).

(** [console.log/warn/error]: the level and a tag naming the message. *)
Definition console (level tag : string) : M unit := emit (EvConsole level tag).

(** [v.k] on any value: reading a property of [undefined] or [null] throws. *)
Definition prop (v : value) (k : string) : M value :=
  match v with
  | VObj o => ret (get o k)
  | VUndefined | VNull =>
      throw (TypeError ("Cannot read properties of " ++ to_string v))
  | _ => ret VUndefined
  end.

(** Waiting for the body of a response: an await that no timer guards.  It
    ends when the body has arrived, and not at all when it never does. *)
Definition arrives (a : answered) : M response :=
  match a with
  | Body r => ret r
  | NoBody _ => hang
  end.

(** [await response.json()]: the parsed body, a [SyntaxError] when what
    arrived is no JSON. *)
Definition json (a : answered) : M value :=
  let* r := arrives a in
  match resp_json r with
  | Some v => ret v
  | None => throw (MkError "SyntaxError" "Unexpected token" None)
  end.

(** ** Libraries the repository calls *)

(** A decoded token, [jwt.decode(token, {complete: true})]. *)
Record jwt := MkJwt {
  header : obj;
  payload : obj
}.

(** A verification key: the string handed to [createAuthMiddleware] (a PEM
    or a shared secret) or the [KeyObject] made from a JWK. *)
Inductive key :=
| KeyString (s : string)
| KeyObject (jwk : obj).

Record libs := MkLibs {
  (* jsonwebtoken: decode without verifying; [None] for what is no token *)
  jwt_decode : string -> option jwt;
  (* jws: is the token's signature valid for this algorithm under this key
     (false as well when the key does not fit the algorithm) *)
  jws_verify : string -> string -> key -> bool;
  (* node:crypto createPublicKey({key: jwk, format: 'jwk'}) accepts the JWK *)
  jwk_accepted : obj -> bool;
  (* parseInt on a string; [None] is NaN *)
  parseInt : string -> option Z;
  (* express: does [path] match the route [pattern]; [Some p] when it does,
     with [p] what [req.params.id] then is *)
  route_match : string -> string -> option (option string)
}.

(** ** jsonwebtoken's [verify], as the middlewares rely on it *)

Definition JsonWebTokenError (msg : string) : error :=
  MkError "JsonWebTokenError" msg None.
Definition TokenExpiredError : error :=
  MkError "TokenExpiredError" "jwt expired" None.
Definition NotBeforeError : error :=
  MkError "NotBeforeError" "jwt not active" None.

(** [options.algorithms.indexOf(header.alg) !== -1] *)
Definition alg_listed (algorithms : list value) (alg : value) : bool :=
  existsb (strict_eq alg) algorithms.

(** The [nbf] and [exp] claims (seconds) against the clock. *)
Definition checkValidity (payload : obj) (clockTimestamp : Z) : M obj :=
  let checkExp : M obj :=
    match get payload "exp" with
    | VUndefined => ret payload
    | VNum e =>
        if e <=? clockTimestamp then throw TokenExpiredError else ret payload
    | _ => throw (JsonWebTokenError "invalid exp value")
    end in
  match get payload "nbf" with
  | VUndefined => checkExp
  | VNum nbf => if clockTimestamp <? nbf then throw NotBeforeError else checkExp
  | _ => throw (JsonWebTokenError "invalid nbf value")
  end.

Section Jsonwebtoken.
Variable L : libs.

(** [jwt.verify(token, key, {algorithms})] of the jsonwebtoken library,
    which is not part of this repository: the token must decode, its
    declared algorithm must be one of [algorithms], the signature must be
    valid for that algorithm under the key, and [nbf]/[exp] are compared
    with the clock.  The result is the payload. *)
Definition jwt_verify (token : string) (k : key) (algorithms : list value)
  : M obj :=
  let* now := Date_now in
  let clockTimestamp := now / 1000 in
  match jwt_decode L token with
  | None => throw (JsonWebTokenError "jwt malformed")
  | Some d =>
      let alg := get (header d) "alg" in
      if negb (alg_listed algorithms alg) then
        throw (JsonWebTokenError "invalid algorithm")
      else
        match alg with
        | VStr a =>
            if negb (jws_verify L token a k) then
              throw (JsonWebTokenError "invalid signature")
            else checkValidity (payload d) clockTimestamp
        | _ => throw (TypeError "header.alg.startsWith is not a function")
        end
  end.
End Jsonwebtoken.

(** ** jwks-client.js *)

(** One configured auth server, [{issuer, jwksUrl, cacheTtl?}]; [cacheTtl]
    is in seconds and may be left out. *)
Record auth_server := MkServer {
  issuer : string;
  jwksUrl : string;
  cacheTtl : option Z
}.

Module JwksClient.

(** [this.defaultCacheTtl = 3600 * 1000] *)
Definition defaultCacheTtl : Z := 3600 * 1000.

(** [(serverConfig.cacheTtl || this.defaultCacheTtl / 1000) * 1000] *)
Definition cacheTtlMs (serverConfig : auth_server) : Z :=
  match cacheTtl serverConfig with
  | Some t => if t =? 0 then defaultCacheTtl / 1000 else t
  | None => defaultCacheTtl / 1000
  end * 1000.

(** [s => s.issuer === iss || s.issuer === '*'] *)
Definition accepts (iss : value) (s : auth_server) : bool :=
  strict_eq (VStr (issuer s)) iss || (issuer s =? "*")%string.

(** [this.authServers.find(...) || this.authServers[0]] *)
Definition selectServer (authServers : list auth_server) (iss : value)
  : option auth_server :=
  match List.find (accepts iss) authServers with
  | Some s => Some s
  | None => head authServers
  end.

(** [await fetch(serverConfig.jwksUrl)]: no timer guards this call. *)
Definition fetch (url : string) : M answered :=
  emit (EvFetchJwks url);;
  let* o := ask (fun w n => network w n url) in
  match o with
  | Settles r | SettlesLate r => ret (Body r)
  | Stalls status => ret (NoBody status)
  | Rejects e => throw e
  | Pending => hang
  end.

Definition fetchJwks (issuerKey : string) (serverConfig : auth_server)
  : M value :=
  let cacheTtl := cacheTtlMs serverConfig in
  let refetch : M value :=
    let* response := fetch (jwksUrl serverConfig) in
    if negb (ok_of response) then
      throw (Error ("Failed to fetch JWKS from " ++ jwksUrl serverConfig
                    ++ ": " ++ pretty (status_of response)))
    else
      let* jwks := json response in
      let* now := Date_now in
      let* st := get_state in
      put_cache (<[issuerKey := MkEntry jwks now]> (cache st));;
      ret jwks in
  let* st := get_state in
  match cache st !! issuerKey with
  | Some cached =>
      let* now := Date_now in
      if now - fetchedAt cached <? cacheTtl then ret (jwks cached)
      else refetch
  | None => refetch
  end.

(** [keys.find(k => k.kid === kid)]; reading [k.kid] of a [null] entry
    throws. *)
Fixpoint findKey (kid : value) (keys : list value) : M value :=
  match keys with
  | [] => ret VUndefined
  | k :: rest =>
      let* kkid := prop k "kid" in
      if strict_eq kkid kid then ret k else findKey kid rest
  end.

Section WithLibs.
Variable L : libs.

(** [crypto.createPublicKey({ key: jwk, format: 'jwk' })] *)
Definition jwkToPem (jwk : value) : M key :=
  match jwk with
  | VObj o =>
      if jwk_accepted L o then ret (KeyObject o)
      else throw (TypeError "Invalid JWK data")
  | _ => throw (TypeError "The key.key property must be of type object")
  end.

(** Steps 4 and 5 of [getSigningKey]: find the key by [kid] in the key set,
    convert it, and pair it with [alg || 'RS256']. *)
Definition signingKeyFrom (jwks kid alg : value) : M (key * value) :=
  let* keys := prop jwks "keys" in
  match keys with
  | VArr ks =>
      let* jwk := findKey kid ks in
      if negb (truthy jwk) then
        throw (Error ("Signing key not found for kid: " ++ to_string kid))
      else
        let* key := jwkToPem jwk in
        ret (key, or alg (VStr "RS256"))
  | _ => throw (TypeError "jwks.keys.find is not a function")
  end.

Definition getSigningKey (authServers : list auth_server) (token : string)
  : M (key * value) :=
  match jwt_decode L token with
  | None => throw (Error "Invalid token")
  | Some decoded =>
      let kid := get (header decoded) "kid" in
      let alg := get (header decoded) "alg" in
      let iss := get (payload decoded) "iss" in
      match selectServer authServers iss with
      | None =>
          throw (Error ("No auth server configured for issuer: "
                        ++ to_string iss))
      | Some server =>
          let* jwks := fetchJwks (issuer server) server in
          signingKeyFrom jwks kid alg
      end
  end.
End WithLibs.

End JwksClient.

(** ** Requests, replies, middleware *)

(** [req.file] as multer leaves it. *)
Record uploaded := MkUploaded {
  originalname : string;
  mimetype : string;
  size : Z
}.

Record request := MkRequest {
  method : string;                (* req.method *)
  path : string;                  (* req.path *)
  authorization : option string;  (* req.headers.authorization *)
  body : value;                   (* req.body *)
  ip : string;                    (* req.ip *)
  file : option uploaded;         (* req.file *)
  params_id : option string;      (* req.params.id *)
  user : option obj;              (* req.user *)
  fileScope : value               (* req.fileScope *)
}.

Definition set_user (u : obj) (r : request) : request :=
  MkRequest (method r) (path r) (authorization r) (body r) (ip r) (file r)
            (params_id r) (Some u) (fileScope r).
Definition set_fileScope (v : value) (r : request) : request :=
  MkRequest (method r) (path r) (authorization r) (body r) (ip r) (file r)
            (params_id r) (user r) v.
Definition set_params_id (p : option string) (r : request) : request :=
  MkRequest (method r) (path r) (authorization r) (body r) (ip r) (file r)
            p (user r) (fileScope r).

(** What was sent: [res.status(code).json(body)], or a blob piped to the
    response with its headers. *)
Inductive reply :=
| Json (status : Z) (body : obj)
| Streamed (blobName : string) (contentType fileName : value) (length : Z).

(** A middleware either passes the (possibly updated) request on with
    [next()] or answers it. *)
Inductive outcome :=
| Next (req : request)
| Respond (r : reply).

Definition middleware : Type := request -> M outcome.

(** [res.status(code).json({error, message})] *)
Definition refuse (code : Z) (err msg : string) : outcome :=
  Respond (Json code {[ "error" := VStr err; "message" := VStr msg ]}).

(** ** auth.js *)

Module Auth.

(** [decoded.sub || decoded.user_id || decoded.userId || decoded.id] *)
Definition userIdOf (decoded : obj) : value :=
  or (or (or (get decoded "sub") (get decoded "user_id"))
         (get decoded "userId"))
     (get decoded "id").

(** [decoded.tenant_id || decoded.tid || decoded.tenant_uuid || null] *)
Definition tenantIdOf (decoded : obj) : value :=
  or (or (or (get decoded "tenant_id") (get decoded "tid"))
         (get decoded "tenant_uuid"))
     VNull.

(** [{ id: userId, tenantId, email: decoded.email,
       roles: decoded.roles || [], ...decoded }]:
    the spread comes last, so a property of [decoded] replaces the one
    written before it under the same name. *)
Definition userObject (userId tenantId : value) (decoded : obj) : obj :=
  decoded ∪
    <["id" := userId]>
    (<["tenantId" := tenantId]>
    (<["email" := get decoded "email"]>
    (<["roles" := or (get decoded "roles") (VArr [])]> ∅))).

(** The [catch] block shared by both middlewares, after its
    [console.error]. *)
Definition onError (error : error) : outcome :=
  if (err_name error =? "TokenExpiredError")%string then
    refuse 401 "Unauthorized" "Token expired"
  else if (err_name error =? "JsonWebTokenError")%string then
    refuse 401 "Unauthorized" "Invalid token"
  else
    refuse 401 "Unauthorized" "Token validation failed".

(** [!authHeader || !authHeader.startsWith('Bearer ')] *)
Definition badHeader (authHeader : option string) : bool :=
  match authHeader with
  | None => true
  | Some h => negb (truthy (VStr h)) || negb (startsWith h "Bearer ")
  end.

Definition tokenOf (authHeader : option string) : string :=
  substring_from 7 (default "" authHeader).

Section WithLibs.
Variable L : libs.

Definition authenticateJWT (publicKey : string) : middleware :=
  fun req =>
    let authHeader := authorization req in
    if badHeader authHeader then
      ret (refuse 401 "Unauthorized"
             "Missing or invalid authorization header")
    else
      let token := tokenOf authHeader in
      try_catch
        (let* decoded :=
           jwt_verify L token (KeyString publicKey)
             [VStr "RS256"; VStr "ES256"; VStr "HS256"] in
         let userId := userIdOf decoded in
         if negb (truthy userId) then
           ret (refuse 401 "Unauthorized" "Token missing user identifier")
         else
           let tenantId := tenantIdOf decoded in
           ret (Next (set_user (userObject userId tenantId decoded) req)))
        (fun error =>
           console "error" "JWT validation error";;
           ret (onError error)).

(** [createAuthMiddleware(publicKey)]: throws without a key. *)
Definition createAuthMiddleware (publicKey : option string)
  : error + middleware :=
  match publicKey with
  | Some k =>
      if truthy (VStr k) then inr (authenticateJWT k)
      else inl (Error "JWT public key is required")
  | None => inl (Error "JWT public key is required")
  end.

Definition authenticateJwks (authServers : list auth_server) : middleware :=
  fun req =>
    let authHeader := authorization req in
    if badHeader authHeader then
      ret (refuse 401 "Unauthorized"
             "Missing or invalid authorization header")
    else
      let token := tokenOf authHeader in
      try_catch
        (let* (key, algorithm) :=
           JwksClient.getSigningKey L authServers token in
         let* decoded := jwt_verify L token key [algorithm] in
         let userId := userIdOf decoded in
         if negb (truthy userId) then
           ret (refuse 401 "Unauthorized" "Token missing user identifier")
         else
           let tenantId := tenantIdOf decoded in
           ret (Next (set_user (userObject userId tenantId decoded) req)))
        (fun error =>
           console "error" "JWKS JWT validation error";;
           ret (onError error)).

(** [createJwksAuthMiddleware(jwksClient)]: throws without a client. *)
Definition createJwksAuthMiddleware (jwksClient : option (list auth_server))
  : error + middleware :=
  match jwksClient with
  | Some authServers => inr (authenticateJwks authServers)
  | None => inl (Error "JWKS client is required")
  end.
End WithLibs.

End Auth.

(** ** authorization.js *)

Module Authorization.

(** The action a request stands for, from its method and path; [None] for
    what is not a file operation. *)
Definition actionOf (req : request) : option string :=
  if (method req =? "POST")%string && (path req =? "/upload")%string then
    Some "upload"
  else if (method req =? "GET")%string && startsWith (path req) "/files/" then
    Some "download"
  else if (method req =? "DELETE")%string && startsWith (path req) "/files/" then
    Some "delete"
  else None.

(** [v?.k] *)
Definition opt_prop (v : value) (k : string) : value :=
  match v with
  | VObj o => get o k
  | _ => VUndefined
  end.

(** [req.user?.id] *)
Definition user_id (req : request) : value :=
  match user req with
  | Some u => get u "id"
  | None => VUndefined
  end.

(** [res.status(code).json({error, message})] with any value as message *)
Definition refuse_with (code : Z) (err : string) (msg : value) : outcome :=
  Respond (Json code {[ "error" := VStr err; "message" := msg ]}).

Section WithLibs.
Variable L : libs.

(** The decision request: [{action, file_id?, resource_type?,
    resource_id?}], as [JSON.stringify] sends it (a [NaN] from
    [parseInt] goes out as [null]). *)
Definition requestBody (action : string) (req : request) : obj :=
  let reqBody := body req in
  let body : obj := {[ "action" := VStr action ]} in
  let body :=
    if ((action =? "download")%string || (action =? "delete")%string)
       && truthy (from_option VStr VUndefined (params_id req))
    then <["file_id" := from_option VStr VUndefined (params_id req)]> body
    else body in
  if (action =? "upload")%string then
    <["resource_id" :=
        if truthy (opt_prop (reqBody) "resource_id") then
          match parseInt L (to_string (opt_prop (reqBody) "resource_id")) with
          | Some n => VNum n
          | None => VNull
          end
        else VNull]>
    (<["resource_type" := or (opt_prop (reqBody) "resource_type") VNull]>
       body)
  else body.

(** The oracle call, guarded by a timer that aborts it:
    [setTimeout(() => controller.abort(), timeout)], then
    [await fetch(url, {..., signal})], then [clearTimeout].  The timer is
    cleared as soon as [fetch] has resolved, that is on the status line:
    the body is awaited and read after that, in [decide]. *)
Definition callOracle (authorizationUrl : string) (timeout : Z)
           (authHeader : option string) (body : obj) : M answered :=
  emit (EvSetTimeout timeout);;
  emit (EvFetchOracle authorizationUrl
          (match authHeader with
           | Some h => if truthy (VStr h) then Some h else None
           | None => None
           end) body);;
  let* o := ask (fun w n => network w n authorizationUrl) in
  match o with
  | Settles r | SettlesLate r => emit EvClearTimeout;; ret (Body r)
  | Stalls status => emit EvClearTimeout;; ret (NoBody status)
  | Rejects e => throw e
  | Pending => emit EvAbort;; throw AbortError
  end.

(** What the middleware makes of the oracle's response once its body has
    arrived ([resp_json] is what [response.json()] then gives): everything
    from [if (!response.ok)] to the end of the [try] block.  Either branch
    starts by awaiting [response.json()]; that wait is [arrives], in
    [decide] below. *)
Definition interpret (req : request) (response : response) : M outcome :=
  if negb (resp_ok response) then
    let errorRaw := default (VObj ∅) (resp_json response) in
    let* data := prop errorRaw "data" in
    let errorBody := or data errorRaw in
    if resp_status response =? 403 then
      let* reason := prop errorBody "reason" in
      let* message := prop errorRaw "message" in
      console "warn" "Authorization denied";;
      ret (refuse_with 403 "Forbidden"
             (or (or reason message) (VStr "Access denied")))
    else
      console "error" "Authorization service error";;
      ret (refuse 503 "Service Unavailable"
             "Authorization service returned an error")
  else
    match resp_json response with
    | None => throw (MkError "SyntaxError" "Unexpected token" None)
    | Some raw =>
        let* data := prop raw "data" in
        let authResult := or data raw in
        let* allowed := prop authResult "allowed" in
        if negb (truthy allowed) then
          let* reason := prop authResult "reason" in
          console "warn" "Authorization denied";;
          ret (refuse_with 403 "Forbidden" (or reason (VStr "Access denied")))
        else
          let* scope := prop authResult "scope" in
          ret (Next (set_fileScope (or scope (VStr "user")) req))
    end.

(** The [catch] block: fail closed. *)
Definition unavailable (error : error) : M outcome :=
  (if (err_name error =? "AbortError")%string then
     console "error" "Authorization timeout"
   else
     console "error" "Authorization error");;
  ret (refuse 503 "Service Unavailable" "Authorization service unavailable").

(** From the resolved [fetch] to the decision: the body is awaited, with
    the timer already cleared, and then read. *)
Definition decide (req : request) (response : answered) : M outcome :=
  let* read := arrives response in
  interpret req read.

(** The middleware returned when an oracle URL is configured. *)
Definition authorizeWith (authorizationUrl : string) (timeout : Z)
  : middleware :=
  fun req =>
    try_catch
      (match actionOf req with
       | None => ret (Next (set_fileScope (VStr "user") req))
       | Some action =>
           let body := requestBody action req in
           let authHeader := authorization req in
           let* response :=
             callOracle authorizationUrl timeout authHeader body in
           decide req response
       end)
      unavailable.

(** [createAuthorizationMiddleware(authorizationUrl, timeout = 3000)] *)
Definition createAuthorizationMiddleware
           (authorizationUrl : option string) (timeout : Z) : middleware :=
  match authorizationUrl with
  | Some url =>
      if truthy (VStr url) then authorizeWith url timeout
      else fun req => ret (Next (set_fileScope (VStr "user") req))
  | None => fun req => ret (Next (set_fileScope (VStr "user") req))
  end.
End WithLibs.

End Authorization.

(** ** azure-storage.js *)

Module AzureStorageClient.

(** The client object: [isConfigured] and whether [initialize()] has set
    [containerClient]. *)
Record client := MkClient {
  isConfigured : bool;
  containerClient : bool
}.

(** The two guards every operation starts with. *)
Definition ready (this : client) : M unit :=
  if negb (isConfigured this) then
    throw (MkError "Error" "Storage not configured" (Some 503))
  else if negb (containerClient this) then
    throw (Error "Azure Storage not initialized")
  else ret tt.

(** The scope-based prefix, written out alike in [uploadFile],
    [downloadFile], [listFiles] and [deleteFile]:
    [scope === 'tenant' ? (tenantId ? `${tenantId}/shared/` : 'shared/')
                        : (tenantId ? `${tenantId}/${userId}/` : `${userId}/`)] *)
Definition scopePrefix (scope tenantId userId : value) : string :=
  if strict_eq scope (VStr "tenant") then
    if truthy tenantId then to_string tenantId ++ "/shared/" else "shared/"
  else
    if truthy tenantId then
      to_string tenantId ++ "/" ++ to_string userId ++ "/"
    else to_string userId ++ "/".

(** [originalFilename.split('.').pop()]: what follows the last dot, the
    whole name when it has none. *)
Fixpoint lastSegment (acc s : string) : string :=
  match s with
  | EmptyString => acc
  | String c rest =>
      if Ascii.eqb c "."%char then lastSegment "" rest
      else lastSegment (acc ++ String c "") rest
  end.
Definition extensionOf (originalFilename : string) : string :=
  lastSegment "" originalFilename.

(** [containerClient.listBlobsFlat({prefix, includeMetadata: true})]: the
    blobs whose name starts with the prefix, in listing order. *)
Definition listBlobsFlat (pfx : string) : M (list blob) :=
  emit (EvListBlobs pfx);;
  let* st := get_state in
  ret (filter (fun b => startsWith (blob_name b) pfx = true) (container st)).

(** [blob.metadata && blob.metadata.file_id === fileId] *)
Definition hasFileId (fileId : string) (b : blob) : bool :=
  match blob_metadata b with
  | Some m => bool_decide (m !! "file_id" = Some fileId)
  | None => false
  end.

(** [blob.metadata.k], a string or [undefined] *)
Definition meta (b : blob) (k : string) : value :=
  match blob_metadata b with
  | Some m => from_option VStr VUndefined (m !! k)
  | None => VUndefined
  end.

(** [scope === 'user' && blob.metadata.user_id !== userId] *)
Definition notOwner (scope userId : value) (b : blob) : bool :=
  strict_eq scope (VStr "user") && negb (strict_eq (meta b "user_id") userId).

Record file_metadata := MkFileMetadata {
  fm_fileId : string;
  fm_blobName : string;
  fm_tenantId : value;
  fm_userId : value;
  fm_originalFilename : string;
  fm_contentType : string;
  fm_size : Z;
  fm_uploadedAt : Z
}.

(** A [scope] parameter left [undefined] takes its default, ['user']. *)
Definition orUser (scope : value) : value :=
  match scope with
  | VUndefined => VStr "user"
  | _ => scope
  end.

(** The storage SDK sends blob metadata as header values and takes strings
    only: handed any other value, [upload] throws before anything is sent
    (an error of the SDK's own, without a [statusCode]). *)
Definition metadataValue (v : value) : M string :=
  match v with
  | VStr s => ret s
  | _ => throw (TypeError "metadata value is not a string")
  end.

(** [uploadFile(tenantId, userId, fileBuffer, originalFilename,
    contentType, scope = 'user')].  The metadata go to the SDK as they
    are: [tenantId || ''], [userId] and [scope] unconverted.  Timestamps
    stay clock readings. *)
Definition uploadFile (this : client) (tenantId userId : value)
           (fileSize : Z) (originalFilename contentType : string)
           (scope : value) : M file_metadata :=
  let scope := orUser scope in
  ready this;;
  let* fileId := ask uuidv4 in
  let extension := extensionOf originalFilename in
  let pfx := scopePrefix scope tenantId userId in
  let blobName := pfx ++ fileId ++ "." ++ extension in
  let* uploaded_at := Date_now in
  let* tenant_id := metadataValue (or tenantId (VStr "")) in
  let* user_id := metadataValue userId in
  let* scope_ := metadataValue scope in
  let metadata : gmap string string :=
    <["tenant_id" := tenant_id]>
    (<["user_id" := user_id]>
    (<["original_filename" := originalFilename]>
    (<["content_type" := contentType]>
    (<["uploaded_at" := pretty uploaded_at]>
    (<["file_id" := fileId]>
    (<["scope" := scope_]> ∅)))))) in
  emit (EvUpload blobName metadata);;
  let* st := get_state in
  put_container (container st ++ [MkBlob blobName (Some metadata) fileSize]);;
  let* uploadedAt := Date_now in
  ret (MkFileMetadata fileId blobName tenantId userId originalFilename
         contentType fileSize uploadedAt).

(** [downloadFile(fileId, tenantId, userId, scope = 'user')]: the first
    listed blob carrying the file id decides. *)
Definition downloadFile (this : client) (fileId : string)
           (tenantId userId scope : value) : M blob :=
  ready this;;
  let pfx := scopePrefix scope tenantId userId in
  let* blobs := listBlobsFlat pfx in
  match List.find (hasFileId fileId) blobs with
  | Some blob =>
      if notOwner scope userId blob then
        throw (Error "Unauthorized: File belongs to different user")
      else
        emit (EvDownload (blob_name blob));;
        ret blob
  | None => throw (Error "File not found")
  end.

(** [listFiles(tenantId, userId, scope = 'user')] *)
Definition listFiles (this : client) (tenantId userId scope : value)
  : M (list value) :=
  ready this;;
  let pfx := scopePrefix scope tenantId userId in
  let* blobs := listBlobsFlat pfx in
  ret (omap (fun b =>
               match blob_metadata b with
               | Some _ =>
                   Some (VObj
                     (<["fileId" := meta b "file_id"]>
                     (<["fileName" := meta b "original_filename"]>
                     (<["contentType" := meta b "content_type"]>
                     (<["size" := VNum (blob_contentLength b)]>
                     (<["uploadedAt" := meta b "uploaded_at"]> ∅))))))
               | None => None
               end) blobs).

(** [deleteFile(fileId, tenantId, userId, scope = 'user')] *)
Definition deleteFile (this : client) (fileId : string)
           (tenantId userId scope : value) : M unit :=
  ready this;;
  let pfx := scopePrefix scope tenantId userId in
  let* blobs := listBlobsFlat pfx in
  match List.find (hasFileId fileId) blobs with
  | Some blob =>
      if notOwner scope userId blob then
        throw (Error "Unauthorized: File belongs to different user")
      else
        emit (EvDeleteBlob (blob_name blob));;
        let* st := get_state in
        put_container
          (filter (fun b => blob_name b ≠ blob_name blob) (container st))
  | None => throw (Error "File not found")
  end.

End AzureStorageClient.

(** ** routes/*.js and rate-limit.js *)

Module Routes.
Import AzureStorageClient.

(** [/^[0-9a-f]{8}-[0-9a-f]{4}-[0-9a-f]{4}-[0-9a-f]{4}-[0-9a-f]{12}$/i] *)
Definition isHex (c : ascii) : bool :=
  let n := nat_of_ascii c in
  ((48 <=? n) && (n <=? 57) || (97 <=? n) && (n <=? 102)
   || (65 <=? n) && (n <=? 70))%nat.

(** Reads exactly [n] hexadecimal digits off the front of [s]. *)
Fixpoint hexRun (n : nat) (s : string) : option string :=
  match n with
  | O => Some s
  | S n' =>
      match s with
      | String c rest => if isHex c then hexRun n' rest else None
      | EmptyString => None
      end
  end.

Definition dash (s : string) : option string :=
  match s with
  | String c rest => if Ascii.eqb c "-"%char then Some rest else None
  | EmptyString => None
  end.

Definition uuidRegex_test (s : string) : bool :=
  match fold_left (fun o step => match o with
                                 | Some rest => step rest
                                 | None => None
                                 end)
          [hexRun 8; dash; hexRun 4; dash; hexRun 4; dash; hexRun 4; dash;
           hexRun 12] (Some s) with
  | Some EmptyString => true
  | _ => false
  end.

(** The [catch] blocks of the download and delete handlers. *)
Definition onStorageError (what : string) (error : error) : outcome :=
  if (err_message error =? "File not found")%string then
    refuse 404 "Not Found" "File not found"
  else if startsWith (err_message error) "Unauthorized:" then
    refuse 403 "Forbidden" (err_message error)
  else if bool_decide (err_statusCode error = Some 503) then
    refuse 503 "Service Unavailable" (err_message error)
  else
    refuse 500 "Internal Server Error" what.

(** [req.user.k]: throws when [req.user] is not there. *)
Definition userProp (req : request) (k : string) : M value :=
  match user req with
  | Some u => ret (get u k)
  | None => throw (TypeError "Cannot read properties of undefined")
  end.

(** [req.params.id] as the regular expression sees it. *)
Definition fileIdOf (req : request) : string :=
  from_option id "undefined" (params_id req).

(** Express's method test for a route: the route's own method, and for a
    route registered with [router.get] (and no [head] route beside it) the
    method HEAD as well. *)
Definition handles (verb m : string) : bool :=
  (m =? verb)%string || ((verb =? "GET")%string && (m =? "HEAD")%string).

Section WithStorage.
Variable L : libs.
Variable storage : client.

(** A router with one route: other requests go on to the next layer. *)
Definition route (verb pattern : string) (handler : request -> M outcome)
  : middleware :=
  fun req =>
    if handles verb (method req) then
      match route_match L pattern (path req) with
      | Some p => handler (set_params_id p req)
      | None => ret (Next req)
      end
    else ret (Next req).

(** delete.js: the handler of [DELETE /files/:id]. *)
Definition deleteHandler (req : request) : M outcome :=
  try_catch
    (let fileId := fileIdOf req in
     let* userId := userProp req "id" in
     let* tenantId := userProp req "tenantId" in
     let scope := or (fileScope req) (VStr "user") in
     if negb (uuidRegex_test fileId) then
       ret (refuse 400 "Bad Request" "Invalid file ID format")
     else
       deleteFile storage fileId tenantId userId scope;;
       ret (Respond (Json 200
              (<["success" := VBool true]>
              (<["message" := VStr "File deleted successfully"]> ∅)))))
    (fun error =>
       console "error" "Delete error";;
       ret (onStorageError "Failed to delete file" error)).

Definition createDeleteRouter : middleware :=
  route "DELETE" "/files/:id" deleteHandler.

(** download.js: the handler of [GET /files/:id]; it leaves the scope
    to [downloadFile]'s default, ['user']. *)
Definition downloadHandler (req : request) : M outcome :=
  try_catch
    (let fileId := fileIdOf req in
     let* userId := userProp req "id" in
     let* tenantId := userProp req "tenantId" in
     if negb (uuidRegex_test fileId) then
       ret (refuse 400 "Bad Request" "Invalid file ID format")
     else
       let* b := downloadFile storage fileId tenantId userId (VStr "user") in
       ret (Respond (Streamed (blob_name b) (meta b "content_type")
                       (meta b "original_filename")
                       (blob_contentLength b))))
    (fun error =>
       console "error" "Download error";;
       ret (onStorageError "Failed to download file" error)).

Definition createDownloadRouter : middleware :=
  route "GET" "/files/:id" downloadHandler.

(** upload.js: the handler of [POST /upload], after multer. *)
Definition uploadHandler (req : request) : M outcome :=
  try_catch
    (match file req with
     | None => ret (refuse 400 "Bad Request" "No file uploaded")
     | Some f =>
         let* userId := userProp req "id" in
         let* tenantId := userProp req "tenantId" in
         let* fm := uploadFile storage tenantId userId (size f)
                      (originalname f) (mimetype f) (VStr "user") in
         let fileResponse : obj :=
           <["id" := VStr (fm_fileId fm)]>
           (<["name" := VStr (fm_originalFilename fm)]>
           (<["contentType" := VStr (fm_contentType fm)]>
           (<["size" := VNum (fm_size fm)]>
           (<["uploadedAt" := VNum (fm_uploadedAt fm)]> ∅)))) in
         let fileResponse :=
           if truthy tenantId then <["tenantId" := tenantId]> fileResponse
           else fileResponse in
         ret (Respond (Json 201
                (<["success" := VBool true]>
                (<["file" := VObj fileResponse]> ∅))))
     end)
    (fun error =>
       console "error" "Upload error";;
       ret (if bool_decide (err_statusCode error = Some 503) then
              refuse 503 "Service Unavailable" (err_message error)
            else
              refuse 500 "Internal Server Error" "Failed to upload file")).

Definition createUploadRouter : middleware :=
  route "POST" "/upload" uploadHandler.

(** list.js: the handler of [GET /files]. *)
Definition listHandler (req : request) : M outcome :=
  try_catch
    (let* userId := userProp req "id" in
     let* tenantId := userProp req "tenantId" in
     let* files := listFiles storage tenantId userId (VStr "user") in
     ret (Respond (Json 200
            (<["success" := VBool true]>
            (<["count" := VNum (Z.of_nat (length files))]>
            (<["files" := VArr files]> ∅))))))
    (fun error =>
       console "error" "List files error";;
       ret (refuse 500 "Internal Server Error" "Failed to list files")).

Definition createListRouter : middleware :=
  route "GET" "/files" listHandler.

(** health.js *)
Definition createHealthRouter : middleware :=
  route "GET" "/health"
    (fun _ =>
       let* now := Date_now in
       ret (Respond (Json 200
              (<["status" := VStr "healthy"]>
              (<["service" := VStr "files-service"]>
              (<["timestamp" := VNum now]> ∅)))))).
End WithStorage.

(** rate-limit.js: a limiter of express-rate-limit keyed by
    [req.user?.id || req.ip]; the counting is the library's. *)
Definition keyGenerator (req : request) : value :=
  or (Authorization.user_id req) (VStr (ip req)).

Definition rateLimit (class message : string) : middleware :=
  fun req =>
    let* pass := ask (fun w n => limiter_passes w n class (keyGenerator req)) in
    if pass then ret (Next req)
    else ret (refuse 429 "Too Many Requests" message).

Definition uploadLimiter : middleware :=
  rateLimit "upload" "Upload rate limit exceeded. Try again later.".
Definition downloadLimiter : middleware :=
  rateLimit "download" "Rate limit exceeded. Try again later.".

End Routes.

(** ** index.js: [createFilesServer] *)

Module Server.
Import Routes.

(** The configuration, with the environment variables already merged in
    (each [config.x || process.env.X] is one field). *)
Record config := MkConfig {
  authServers : option (list auth_server);
  jwksUrl_ : option string;
  jwtPublicKey : option string;
  jwksCacheTtl : option Z;
  authorizationUrl : option string;
  authorizationTimeout : option Z;
  azureConnectionString : option string
}.

(** [x || fallback] on an optional number / string *)
Definition num_or (x : option Z) (fallback : Z) : Z :=
  match x with
  | Some n => if n =? 0 then fallback else n
  | None => fallback
  end.
Definition nonempty (x : option string) : option string :=
  match x with
  | Some s => if truthy (VStr s) then Some s else None
  | None => None
  end.

Section WithLibs.
Variable L : libs.

Definition orRethrow (m : error + middleware) : middleware :=
  match m with
  | inr mw => mw
  | inl e => fun _ => throw e
  end.

(** Priority: authServers > jwksUrl > jwtPublicKey; otherwise every
    request is answered 503. *)
Definition resolveAuthMiddleware (cfg : config) : middleware :=
  let cacheTtl := num_or (jwksCacheTtl cfg) 3600 in
  match authServers cfg with
  | Some servers =>
      orRethrow (Auth.createJwksAuthMiddleware L
        (Some (map (fun s => MkServer (issuer s) (jwksUrl s) (Some cacheTtl))
                   servers)))
  | None =>
      match nonempty (jwksUrl_ cfg) with
      | Some url =>
          orRethrow (Auth.createJwksAuthMiddleware L
            (Some [MkServer "*" url (Some cacheTtl)]))
      | None =>
          match nonempty (jwtPublicKey cfg) with
          | Some k => orRethrow (Auth.createAuthMiddleware L (Some k))
          | None =>
              fun _ => ret (refuse 503 "Service Unavailable"
                              "Authentication not configured")
          end
      end
  end.

(** The storage client once [listen()] has run [initialize()]. *)
Definition storageOf (cfg : config) : AzureStorageClient.client :=
  let configured := from_option (fun s => truthy (VStr s)) false
                      (azureConnectionString cfg) in
  AzureStorageClient.MkClient configured configured.

(** The layers [app.use] registers, in order, from the health router on.
    CORS, body parsing and request logging come before: the requests here
    are those they let through (CORS answers an OPTIONS request itself). *)
Definition layers (cfg : config) : list middleware :=
  let storage := storageOf cfg in
  let authenticate := resolveAuthMiddleware cfg in
  let authorize :=
    Authorization.createAuthorizationMiddleware L
      (nonempty (authorizationUrl cfg))
      (num_or (authorizationTimeout cfg) 3000) in
  [ createHealthRouter L;
    authenticate; authorize; uploadLimiter; createUploadRouter L storage;
    authenticate; authorize; downloadLimiter; createDownloadRouter L storage;
    authenticate; downloadLimiter; createListRouter L storage;
    authenticate; authorize; downloadLimiter; createDeleteRouter L storage ].

(** Express walking its stack: a layer answers or calls [next()]; an
    error escaping a layer reaches the error handler (500); a request no
    layer answers reaches the 404 handler. *)
Fixpoint handle (stack : list middleware) (req : request) : M reply :=
  match stack with
  | [] =>
      ret (Json 404 {[ "error" := VStr "Not Found";
                       "message" := VStr "The requested endpoint does not exist" ]})
  | layer :: rest =>
      let* o :=
        try_catch (layer req)
          (fun err =>
             console "error" "Unhandled error";;
             ret (refuse 500 "Internal Server Error"
                    "An unexpected error occurred")) in
      match o with
      | Next req' => handle rest req'
      | Respond r => ret r
      end
  end.

Definition createFilesServer (cfg : config) (req : request) : M reply :=
  handle (layers cfg) req.
End WithLibs.

End Server.

(** What a run leaves behind. *)
Definition run {A} (c : M A) (w : world) (s : state) : completion A * state :=
  c w s.

Definition fresh_state : state := MkState ∅ [] 0 [].

(** A computation that cannot end by calling [next()]. *)
Definition never_next (c : M outcome) : Prop :=
  forall w s req', fst (c w s) <> Return (Next req').

(** Did the key resolver, the oracle, the storage backend leave a trace? *)
Definition is_jwks_fetch (e : event) : bool :=
  match e with EvFetchJwks _ => true | _ => false end.
Definition is_oracle_call (e : event) : bool :=
  match e with EvFetchOracle _ _ _ => true | _ => false end.
Definition is_storage_call (e : event) : bool :=
  match e with
  | EvListBlobs _ | EvUpload _ _ | EvDownload _ | EvDeleteBlob _ => true
  | _ => false
  end.

(** The storage calls made so far. *)
Definition storage_trace (s : state) : list event :=
  List.filter is_storage_call (log s).

(** [keeps c Q]: running [c] adds no storage call and leaves the container
    alone, and a value it returns satisfies [Q]. *)
Definition keeps {A} (c : M A) (Q : A -> Prop) : Prop :=
  forall w s,
    storage_trace (snd (c w s)) = storage_trace s
    /\ container (snd (c w s)) = container s
    /\ (forall a, fst (c w s) = Return a -> Q a).

(** The request a layer passes on is for the same method and path. *)
Definition same_route (req : request) (o : outcome) : Prop :=
  match o with
  | Next req' => method req' = method req /\ path req' = path req
  | Respond _ => True
  end.

(** The layer answers the request itself. *)
Definition answers (o : outcome) : Prop :=
  match o with
  | Next _ => False
  | Respond _ => True
  end.

Definition reply_status (r : completion reply * state) : option Z :=
  match fst r with
  | Return (Json c _) => Some c
  | Return (Streamed _ _ _ _) => Some 200
  | _ => None
  end.

(** ** The specification's wording, for comparison *)

(** The specification on a malformed file id, for one run from a state with
    an empty log: the reply is 400, and neither the key resolver, nor the
    authorization gate, nor the storage backend was reached. *)
Definition rejectedUpFront (r : completion reply * state) : Prop :=
  reply_status r = Some 400
  /\ existsb is_jwks_fetch (log (snd r)) = false
  /\ existsb is_oracle_call (log (snd r)) = false
  /\ existsb is_storage_call (log (snd r)) = false.


(** Server selection as the specification words it: the entry whose issuer
    equals the token's issuer; only without one, a wildcard entry; only
    without that, the first configured entry. *)
Definition selectServer_spec (authServers : list auth_server) (iss : value)
  : option auth_server :=
  match List.find (fun s => strict_eq (VStr (issuer s)) iss) authServers with
  | Some s => Some s
  | None =>
      match List.find (fun s => (issuer s =? "*")%string) authServers with
      | Some s => Some s
      | None => head authServers
      end
  end.

(** ** Example data *)

(** Two configured servers: a wildcard entry and the entry of one issuer. *)
Definition wild : auth_server := MkServer "*" "https://any.example/jwks" None.
Definition exactA : auth_server :=
  MkServer "https://a.example" "https://a.example/jwks" None.

(** A container holding one file of user "u2" that sits under the prefix of
    user "u1" in tenant "t1". *)
Definition strayBlob : blob :=
  MkBlob "t1/u1/0b0e7a2c.pdf"
    (Some (<["file_id" := "0b0e7a2c"]> (<["user_id" := "u2"]> ∅))) 10.
Definition strayState : state := MkState ∅ [strayBlob] 0 [].
Definition readyClient : AzureStorageClient.client :=
  AzureStorageClient.MkClient true true.

(** A key set, a cache holding it for issuer "https://a.example" since time
    0, and two worlds: one whose key-set endpoint answers 200 with the key
    set, one whose endpoint answers 500. *)
Definition jwksA : value :=
  VObj {[ "keys" := VArr [VObj (<["kid" := VStr "k1"]> {[ "kty" := VStr "RSA" ]})] ]}.
Definition cachedState : state :=
  MkState {[ "https://a.example" := MkEntry jwksA 0 ]} [] 0 [].
Definition worldAt (now : Z) (answer : fetch_outcome) : world :=
  MkWorld (fun _ => now) (fun _ _ => answer) (fun _ => "") (fun _ _ _ => true).

(** Libraries for the examples.  Tokens are those of a table: each has its
    text, what it decodes to, and the key that signed it (named by the key id
    of its JWK, or by the shared secret).  A signature is valid for an
    algorithm under a key when the token is in the table, was signed under
    that algorithm (the one its header declares) and by that key.  Every
    JWK is accepted, [parseInt] knows no number, and a path matches
    [/files/:id] when it is [/files/] followed by a segment. *)
Record issued := MkIssued {
  text : string;
  decoded : jwt;
  signer : string
}.

Definition signedBy (sg : string) (k : key) : bool :=
  match k with
  | KeyString sec => (sec =? sg)%string
  | KeyObject o => strict_eq (get o "kid") (VStr sg)
  end.

Definition hasSlash (s : string) : bool :=
  existsb (Ascii.eqb "/"%char) (list_ascii_of_string s).

Definition demoLibs (tokens : list issued) : libs :=
  MkLibs
    (fun t => decoded <$> List.find (fun i => (text i =? t)%string) tokens)
    (fun t alg k =>
       existsb (fun i => (text i =? t)%string
                         && strict_eq (get (header (decoded i)) "alg") (VStr alg)
                         && signedBy (signer i) k) tokens)
    (fun _ => true)
    (fun _ => None)
    (fun pattern p =>
       if (pattern =? "/files/:id")%string then
         if startsWith p "/files/"
            && negb (substring_from 7 p =? "")%string
            && negb (hasSlash (substring_from 7 p))
         then Some (Some (substring_from 7 p)) else None
       else if (pattern =? p)%string then Some None
       else None).

(** A request of a given method and path carrying a given header. *)
Definition requestOf (m p : string) (auth : option string) : request :=
  MkRequest m p auth VUndefined "203.0.113.7" None None None VUndefined.

(** Two tokens of issuer "https://a.example", both signed by the key "k1"
    of [jwksA]: one under RS512, an algorithm outside the allow-list, with
    subject "u1"; one under RS256 whose payload carries both [sub: "u1"] and
    [id: "u2"]. *)
Definition rs512Token : issued :=
  MkIssued "t512"
    (MkJwt (<["alg" := VStr "RS512"]> {[ "kid" := VStr "k1" ]})
           (<["iss" := VStr "https://a.example"]> {[ "sub" := VStr "u1" ]}))
    "k1".
Definition twoIdsToken : issued :=
  MkIssued "t2ids"
    (MkJwt (<["alg" := VStr "RS256"]> {[ "kid" := VStr "k1" ]})
           (<["iss" := VStr "https://a.example"]>
              (<["sub" := VStr "u1"]> {[ "id" := VStr "u2" ]})))
    "k1".
Definition plainToken : issued :=
  MkIssued "t256"
    (MkJwt (<["alg" := VStr "RS256"]> {[ "kid" := VStr "k1" ]})
           (<["iss" := VStr "https://a.example"]> {[ "sub" := VStr "u1" ]}))
    "k1".
Definition issuedTokens : list issued := [rs512Token; twoIdsToken; plainToken].

(** A gateway with a key resolver for issuer "https://a.example", an oracle
    and storage, and the world around it: the key-set endpoint answers with
    [jwksA], the oracle allows everything with scope "user". *)
Definition gatewayConfig : Server.config :=
  Server.MkConfig (Some [exactA]) None None None
    (Some "http://api:9100/files/authorize") None (Some "UseDevelopmentStorage=true").
Definition gatewayWorld : world :=
  MkWorld (fun _ => 1000)
    (fun _ url =>
       if (url =? "https://a.example/jwks")%string then
         Settles (MkResponse 200 (Some jwksA))
       else
         Settles (MkResponse 200
                    (Some (VObj (<["allowed" := VBool true]>
                                   {[ "scope" := VStr "user" ]})))))
    (fun _ => "") (fun _ _ _ => true).

(** An oracle, what it answers when it allows, and two worlds: one in which
    the status line of every response arrives at once and the body only
    after the caller's timer would have fired, one in which the body never
    arrives. *)
Definition oracleUrl : string := "http://api:9100/files/authorize".
Definition allowBody : value :=
  VObj (<["allowed" := VBool true]> {[ "scope" := VStr "user" ]}).
Definition lateOracle : world :=
  worldAt 0 (SettlesLate (MkResponse 200 (Some allowBody))).
Definition stalledOracle : world := worldAt 0 (Stalls 200).

(** The world in which every fetch is answered 200 with [jwksA]. *)
Definition jwksWorld : world := worldAt 1000 (Settles (MkResponse 200 (Some jwksA))).

(** The allow-list of [createAuthMiddleware]. *)
Definition allowList : list value := [VStr "RS256"; VStr "ES256"; VStr "HS256"].

(** What [req.user.id] is once a middleware has let the request on. *)
Definition admittedAs (r : completion outcome * state) : option value :=
  match fst r with
  | Return (Next req') => Some (Authorization.user_id req')
  | _ => None
  end.

(** * Further definitions *)

(** ** auth.js: [requireRole] *)

Module Roles.

(** [userRoles.includes(role)]: membership for an array, the substring test
    for a string; any other value has no [includes]. *)
Definition includes (userRoles : value) (role : string) : M bool :=
  match userRoles with
  | VArr xs => ret (existsb (strict_eq (VStr role)) xs)
  | VStr s =>
      ret match String.index 0 role s with
          | Some _ => true
          | None => false
          end
  | _ => throw (TypeError "userRoles.includes is not a function")
  end.

(** [allowedRoles.some(role => userRoles.includes(role))] *)
Fixpoint someRole (userRoles : value) (allowedRoles : list string) : M bool :=
  match allowedRoles with
  | [] => ret false
  | role :: rest =>
      let* has := includes userRoles role in
      if has then ret true else someRole userRoles rest
  end.

(** [requireRole(...allowedRoles)] *)
Definition requireRole (allowedRoles : list string) : middleware :=
  fun req =>
    match user req with
    | None => ret (refuse 401 "Unauthorized" "Authentication required")
    | Some u =>
        let userRoles := or (get u "roles") (VArr []) in
        let* hasRole := someRole userRoles allowedRoles in
        if negb hasRole then
          ret (refuse 403 "Forbidden" "Insufficient permissions")
        else ret (Next req)
    end.

End Roles.

(** ** Ways a computation can end *)

(** A world in which the body of some response never arrives after its
    status line. *)
Definition body_stalls (w : world) : Prop :=
  exists n url status, network w n url = Stalls status.

(** A world in which some call of [fetch] neither resolves nor rejects, or
    resolves to a response whose body never arrives. *)
Definition stalls (w : world) : Prop :=
  exists n url,
    network w n url = Pending \/ exists status, network w n url = Stalls status.

(** [ends c Q E H]: a run of [c] returns a value satisfying [Q], or throws
    an error satisfying [E], or never ends, and this only in a world
    satisfying [H]. *)
Definition ends {A} (c : M A) (Q : A -> Prop) (E : error -> Prop)
           (H : world -> Prop) : Prop :=
  forall w s,
    match fst (c w s) with
    | Return a => Q a
    | Throw e => E e
    | Hang => H w
    end.

Definition never : world -> Prop := fun _ => False.

(** [preserves obs c]: a run of [c] leaves the observation [obs] of the
    state as it was. *)
Definition preserves {B A} (obs : state -> B) (c : M A) : Prop :=
  forall w s, obs (snd (c w s)) = obs s.

(** The events of one kind logged so far. *)
Definition logged (P : event -> bool) (s : state) : list event :=
  List.filter P (log s).

Definition is_network_call (e : event) : bool :=
  is_jwks_fetch e || is_oracle_call e.

(** What an authentication middleware may do with a request: pass it on
    with [req.user] set and nothing else changed, or answer 401. *)
Definition authenticated_shape (req : request) (o : outcome) : Prop :=
  match o with
  | Next req' => exists u, req' = set_user u req
  | Respond (Json c _) => c = 401
  | Respond (Streamed _ _ _ _) => False
  end.

(** What the authorization middleware may do with a request: pass it on
    with a truthy [fileScope] and nothing else changed, or answer 403 or
    503. *)
Definition authorized_shape (req : request) (o : outcome) : Prop :=
  match o with
  | Next req' => exists v, req' = set_fileScope v req /\ truthy v = true
  | Respond (Json c _) => c = 403 \/ c = 503
  | Respond (Streamed _ _ _ _) => False
  end.

(** The layer answers the request itself, with one of the given status
    codes (a streamed blob goes out with status 200). *)
Definition answers_among (codes : list Z) (o : outcome) : Prop :=
  match o with
  | Next _ => False
  | Respond (Json c _) => In c codes
  | Respond (Streamed _ _ _ _) => In 200 codes
  end.

(** The outcome is a reply. *)
Definition replied (r : completion outcome * state) : option reply :=
  match fst r with
  | Return (Respond x) => Some x
  | _ => None
  end.

(** All characters of a string are hexadecimal digits. *)
Definition allHex (s : string) : bool :=
  forallb Routes.isHex (list_ascii_of_string s).

(** The string has no dot. *)
Definition dotless (s : string) : bool :=
  forallb (fun c => negb (Ascii.eqb c "."%char)) (list_ascii_of_string s).

(** Express's error handler logging an error that escaped a layer. *)
Definition is_unhandled (e : event) : bool :=
  match e with
  | EvConsole level tag =>
      (level =? "error")%string && (tag =? "Unhandled error")%string
  | _ => false
  end.

(** A request that reaches the layers after the health router: CORS, which
    answers every OPTIONS request itself, lets it through, and the health
    route does not take it (the route takes GET and HEAD requests whose path
    it matches). *)
Definition past_health (L : libs) (req : request) : Prop :=
  method req <> "OPTIONS"
  /\ (Routes.handles "GET" (method req) = false
      \/ route_match L "/health" (path req) = None).

(** The status of the reply a layer sent. *)
Definition reply_status_of (r : completion outcome * state) : option Z :=
  match fst r with
  | Return (Respond (Json c _)) => Some c
  | Return (Respond (Streamed _ _ _ _)) => Some 200
  | _ => None
  end.

(** An oracle call whose decision request names a file. *)
Definition names_file (e : event) : bool :=
  match e with
  | EvFetchOracle _ _ body => bool_decide (is_Some (body !! "file_id"))
  | _ => false
  end.

(** What a layer hands to the next one keeps the invariant [Inv] of the
    request. *)
Definition hands_on (Inv : request -> Prop) (o : outcome) : Prop :=
  match o with
  | Next req' => Inv req'
  | Respond _ => True
  end.

(** Walking the stack: a layer that, given a request satisfying [Inv], ends
    without throwing, hands on a request satisfying [Inv] and logs no event
    of the kind [P]. *)
Definition settles (Inv : request -> Prop) (P : event -> bool)
           (H : world -> Prop) (layer : middleware) : Prop :=
  forall req, Inv req ->
    ends (layer req) (hands_on Inv) (fun _ => False) H
    /\ preserves (logged P) (layer req).

(** ** Example data for the further properties *)

(** A container holding one file of user "u1" under that user's prefix in
    tenant "t1", and the state once that file is deleted. *)
Definition ownBlob : blob :=
  MkBlob "t1/u1/0b0e7a2c.pdf"
    (Some (<["file_id" := "0b0e7a2c"]> (<["user_id" := "u1"]> ∅))) 10.
Definition ownState : state := MkState ∅ [ownBlob] 0 [].
Definition emptiedState : state :=
  MkState ∅ [] 0 [EvListBlobs "t1/u1/"; EvDeleteBlob "t1/u1/0b0e7a2c.pdf"].

(** A token of issuer "https://a.example" signed by a key "k9" that the
    key set [jwksA] does not hold. *)
Definition strangerToken : issued :=
  MkIssued "tk9"
    (MkJwt (<["alg" := VStr "RS256"]> {[ "kid" := VStr "k9" ]})
           (<["iss" := VStr "https://a.example"]> {[ "sub" := VStr "u1" ]}))
    "k9".

(** The one key of [jwksA]. *)
Definition keyK1 : obj := <["kid" := VStr "k1"]> {[ "kty" := VStr "RSA" ]}.

(** Requests of a user with two roles, and of a user whose [roles] is a
    number. *)
Definition editorRequest : request :=
  set_user {[ "roles" := VArr [VStr "admin"; VStr "editor"] ]}
    (requestOf "GET" "/files" None).
Definition oddRolesRequest : request :=
  set_user {[ "roles" := VNum 7 ]} (requestOf "GET" "/files" None).

(** A configuration without any authentication, and the server [exactA]
    with a [cacheTtl] of its own. *)
Definition bareConfig : Server.config :=
  Server.MkConfig None None None None None None None.
Definition exactA60 : auth_server :=
  MkServer "https://a.example" "https://a.example/jwks" (Some 60).

(** A world in which nothing answers and the clock stands at 0. *)
Definition stillWorld : world := worldAt 0 Pending.

(** * Properties *)

(** ** Facts about values *)

Section ValueFacts.

Lemma strict_eq_str s v : strict_eq v (VStr s) = true <-> v = VStr s.
Proof.
destruct v; simpl; try (split; [discriminate | congruence]).
rewrite String.eqb_eq. split; congruence.
Qed.

Lemma strict_eq_refl_str s : strict_eq (VStr s) (VStr s) = true.
Proof. simpl. apply String.eqb_refl. Qed.

Lemma truthy_str s : truthy (VStr s) = true <-> s <> "".
Proof.
simpl. rewrite negb_true_iff. split.
- intros H ->. discriminate.
- intros H. destruct (String.eqb_spec s ""); congruence.
Qed.

Lemma or_truthy_l a b : truthy a = true -> or a b = a.
Proof. unfold or. now intros ->. Qed.

Lemma or_falsy_l a b : truthy a = false -> or a b = b.
Proof. unfold or. now intros ->. Qed.

Lemma strict_eq_sym a b : strict_eq a b = strict_eq b a.
Proof.
destruct a, b; simpl; try reflexivity.
- destruct b, b0; reflexivity.
- apply Z.eqb_sym.
- apply String.eqb_sym.
Qed.

End ValueFacts.

(** Unfolds the monad down to functions on the state. *)
Ltac unfold_m :=
  unfold run, bind, ret, throw, hang, try_catch, emit, ask, Date_now,
         get_state, put_cache, put_container, console, set_cache,
         set_container in *.

(** ** The authorization gate without an oracle *)

Section Passthrough.
Variable L : libs.

(** C7.  When no oracle URL is configured (the URL is absent or the empty
    string), the authorization middleware of every request, whatever its
    identity, method or path, calls [next()] with [req.fileScope = 'user']
    and does nothing else: the state is untouched, so nothing was asked of
    the world and no call went out. *)
Theorem authorize_without_oracle_passes_through
        (timeout : Z) (req : request) (w : world) (s : state) :
  run (Authorization.createAuthorizationMiddleware L None timeout req) w s
    = (Return (Next (set_fileScope (VStr "user") req)), s)
  /\ run (Authorization.createAuthorizationMiddleware L (Some "") timeout req) w s
    = (Return (Next (set_fileScope (VStr "user") req)), s).
Proof. split; reflexivity. Qed.

(** The server hands the middleware its URL through [nonempty], so the
    same holds for the gate [createFilesServer] installs. *)
Lemma nonempty_None_iff (x : option string) :
  Server.nonempty x = None <-> x = None \/ x = Some "".
Proof.
  destruct x as [u|]; simpl.
  - destruct u; simpl; split; intros H; try discriminate; auto.
    destruct H as [H|H]; discriminate.
  - split; auto.
Qed.
End Passthrough.

(** ** Storage paths *)

Section Paths.
Import AzureStorageClient.

Lemma scopePrefix_tenant (tenantId userId : value) :
  scopePrefix (VStr "tenant") tenantId userId =
    if truthy tenantId then to_string tenantId ++ "/shared/" else "shared/".
Proof. reflexivity. Qed.

Lemma scopePrefix_user (tenantId userId : value) :
  scopePrefix (VStr "user") tenantId userId =
    if truthy tenantId then
      to_string tenantId ++ "/" ++ to_string userId ++ "/"
    else to_string userId ++ "/".
Proof. reflexivity. Qed.

(** An upload on a ready client, with ids and scope that are strings (the
    tenant id may be absent), stores the blob under the scope prefix,
    followed by the fresh file id, a dot and the extension. *)
Lemma uploadFile_blobName this tenantId ts u sz name ct sc w s :
  isConfigured this = true -> containerClient this = true ->
  or tenantId (VStr "") = VStr ts ->
  exists fm s',
    run (uploadFile this tenantId (VStr u) sz name ct (VStr sc)) w s
      = (Return fm, s')
    /\ fm_fileId fm = uuidv4 w (asked s)
    /\ fm_blobName fm =
         scopePrefix (VStr sc) tenantId (VStr u) ++ fm_fileId fm ++ "."
           ++ extensionOf name.
Proof.
  intros Hc Hi Ht. unfold uploadFile, ready. rewrite Hc, Hi, Ht. unfold_m. simpl.
  eexists _, _. split; [reflexivity|]. split; reflexivity.
Qed.

(** Download, list and delete look under the same prefix. *)
Lemma listBlobsFlat_run pfx w s :
  run (listBlobsFlat pfx) w s =
    (Return (filter (fun b => startsWith (blob_name b) pfx = true) (container s)),
     MkState (cache s) (container s) (asked s) (log s ++ [EvListBlobs pfx])).
Proof. reflexivity. Qed.

(** C8.  For every tenant id [t] (a non-empty string), subject id [u] and
    absent tenant id ([undefined] or [null]): scope "tenant" gives the
    prefix [t/shared/], or [shared/] without a tenant; scope "user" gives
    [t/u/], or [u/] without a tenant; an uploaded file is stored, for every
    scope the storage SDK takes as metadata (a string, or [undefined], which
    stands for "user"), at that prefix followed by [fileId.extension]; and
    identity [{subjectId: "u1", tenantId: "t1"}] gives [t1/u1/] under user
    scope and [t1/shared/] under tenant scope. *)
Theorem scope_prefix_construction (t u : string) (noTenant : value) :
  t <> "" ->
  noTenant = VUndefined \/ noTenant = VNull ->
  scopePrefix (VStr "tenant") (VStr t) (VStr u) = t ++ "/shared/"
  /\ scopePrefix (VStr "tenant") noTenant (VStr u) = "shared/"
  /\ scopePrefix (VStr "user") (VStr t) (VStr u) = t ++ "/" ++ u ++ "/"
  /\ scopePrefix (VStr "user") noTenant (VStr u) = u ++ "/"
  /\ (forall this sz name ct scope sc w s,
        isConfigured this = true -> containerClient this = true ->
        orUser scope = VStr sc ->
        exists fm s',
          run (uploadFile this (VStr t) (VStr u) sz name ct scope) w s
            = (Return fm, s')
          /\ fm_blobName fm =
               scopePrefix scope (VStr t) (VStr u) ++ fm_fileId fm ++ "."
                 ++ extensionOf name)
  /\ scopePrefix (VStr "user") (VStr "t1") (VStr "u1") = "t1/u1/"
  /\ scopePrefix (VStr "tenant") (VStr "t1") (VStr "u1") = "t1/shared/".
Proof.
  intros Ht Hno.
  assert (Htr : truthy (VStr t) = true) by (now apply truthy_str).
  assert (Hfa : truthy noTenant = false) by (destruct Hno; subst; reflexivity).
  rewrite !scopePrefix_tenant, !scopePrefix_user, Htr, Hfa. simpl to_string.
  repeat split; try reflexivity.
  intros this sz name ct scope sc w s Hc Hi Hsc.
  destruct (uploadFile_blobName this (VStr t) t u sz name ct sc w s Hc Hi
              (or_truthy_l _ _ Htr))
    as (fm & s' & Hrun & _ & Hname).
  exists fm, s'.
  destruct scope; cbn [orUser] in Hsc; try discriminate; injection Hsc as <-.
  - split; [exact Hrun | exact Hname].
  - split; [exact Hrun | exact Hname].
Qed.

Lemma scope_prefix_construction_witness :
  "t1" <> "" /\ (VNull = VUndefined \/ VNull = VNull)
  /\ scopePrefix (VStr "tenant") (VStr "t1") (VStr "u1") = "t1" ++ "/shared/"
  /\ scopePrefix (VStr "user") VNull (VStr "u1") = "u1" ++ "/".
Proof.
  assert (h1 : "t1" <> "") by discriminate.
  assert (h2 : VNull = VUndefined \/ VNull = VNull) by (right; reflexivity).
  pose proof (scope_prefix_construction "t1" "u1" VNull h1 h2) as H.
  split; [exact h1 | split; [exact h2 | split]].
  - exact (proj1 H).
  - exact (proj1 (proj2 (proj2 (proj2 H)))).
Defined.
End Paths.

(** ** Choosing the auth server *)

Section ServerSelection.
Import JwksClient.

Lemma accepts_iff (iss : value) (s : auth_server) :
  accepts iss s = true <-> iss = VStr (issuer s) \/ issuer s = "*".
Proof.
  unfold accepts. rewrite orb_true_iff, strict_eq_sym, strict_eq_str.
  now rewrite String.eqb_eq.
Qed.

Lemma find_none_all {A} (f : A -> bool) (l : list A) :
  List.find f l = None <-> Forall (fun x => f x = false) l.
Proof.
  induction l as [|a l IH]; simpl.
  - split; [constructor | reflexivity].
  - destruct (f a) eqn:E.
    + split; [discriminate|]. intros H. inversion H; congruence.
    + rewrite IH. split; intros H; [now constructor | now inversion H].
Qed.

Lemma find_first {A} (f : A -> bool) (pre : list A) (x : A) (post : list A) :
  Forall (fun y => f y = false) pre -> f x = true ->
  List.find f (pre ++ x :: post)%list = Some x.
Proof.
  induction 1 as [|y pre Hy _ IH]; simpl; intros Hx.
  - now rewrite Hx.
  - rewrite Hy. now apply IH.
Qed.

Lemma find_ext {A} (f g : A -> bool) (l : list A) :
  Forall (fun x => f x = g x) l -> List.find f l = List.find g l.
Proof.
  induction 1 as [|x l Hx _ IH]; simpl; [reflexivity|].
  rewrite Hx, IH. reflexivity.
Qed.

(** Against C5 as stated: with a wildcard entry configured before the
    entry of the token's own issuer, the code selects the wildcard entry although an exact match
    exists. *)
Lemma selectServer_earlier_wildcard_wins :
  selectServer [wild; exactA] (VStr "https://a.example") = Some wild
  /\ selectServer_spec [wild; exactA] (VStr "https://a.example") = Some exactA
  /\ selectServer [wild; exactA] (VStr "https://a.example")
      <> selectServer_spec [wild; exactA] (VStr "https://a.example").
Proof. repeat split. discriminate. Qed.

(** C5 (amended).  For every token issuer and every ordered configured
    set: an entry is eligible when its issuer equals the token's issuer
    claim or is the wildcard "*"; the server selected is the first
    eligible entry in configured order; without an eligible entry it is
    the first configured entry; nothing is selected, and key resolution
    throws, exactly when the set is empty.  The selection is the
    specification's (exact, then wildcard, then first) whenever no
    wildcard entry is configured or no entry matches exactly. *)
Theorem selectServer_first_eligible (authServers : list auth_server) (iss : value) :
  (forall s, accepts iss s = true <-> iss = VStr (issuer s) \/ issuer s = "*")
  /\ (forall pre s post,
        authServers = (pre ++ s :: post)%list ->
        Forall (fun x => accepts iss x = false) pre ->
        accepts iss s = true ->
        selectServer authServers iss = Some s)
  /\ (Forall (fun x => accepts iss x = false) authServers ->
      selectServer authServers iss = head authServers)
  /\ (selectServer authServers iss = None <-> authServers = [])
  /\ (forall L token d w s,
        jwt_decode L token = Some d ->
        iss = get (payload d) "iss" ->
        authServers = [] ->
        run (getSigningKey L authServers token) w s
          = (Throw (Error ("No auth server configured for issuer: "
                           ++ to_string iss)), s))
  /\ (Forall (fun x => issuer x <> "*") authServers
      \/ Forall (fun x => strict_eq (VStr (issuer x)) iss = false) authServers ->
      selectServer authServers iss = selectServer_spec authServers iss).
Proof.
  split; [intros s; apply accepts_iff|].
  split.
  { intros pre s post -> Hpre Hs. unfold selectServer.
    now rewrite (find_first _ pre s post Hpre Hs). }
  split.
  { intros Hall. unfold selectServer.
    now rewrite (proj2 (find_none_all _ _) Hall). }
  split.
  { unfold selectServer. split.
    - destruct (List.find (accepts iss) authServers) eqn:E; [discriminate|].
      destruct authServers; [reflexivity | discriminate].
    - now intros ->. }
  split.
  { intros L token d w s Hd -> ->. unfold getSigningKey. rewrite Hd.
    reflexivity. }
  intros [Hnw | Hne]; unfold selectServer, selectServer_spec.
  - rewrite (find_ext (accepts iss) (fun s => strict_eq (VStr (issuer s)) iss)).
    + destruct (List.find _ authServers); [reflexivity|].
      replace (List.find (fun s => (issuer s =? "*")%string) authServers)
        with (@None auth_server); [reflexivity|].
      symmetry. apply find_none_all.
      eapply Forall_impl; [exact Hnw|]. simpl. intros a Ha.
      destruct (String.eqb_spec (issuer a) "*"); congruence.
    + eapply Forall_impl; [exact Hnw|]. simpl. intros a Ha. unfold accepts.
      destruct (String.eqb_spec (issuer a) "*"); [congruence|].
      now rewrite orb_false_r.
  - rewrite (proj2 (find_none_all _ _) Hne).
    rewrite (find_ext (accepts iss) (fun s => (issuer s =? "*")%string));
      [reflexivity|].
    eapply Forall_impl; [exact Hne|]. cbv beta. intros a Ha. unfold accepts.
    now rewrite Ha.
Qed.

Lemma selectServer_first_eligible_witness :
  [wild; exactA] = ([] ++ wild :: [exactA])%list
  /\ Forall (fun x => accepts (VStr "https://a.example") x = false) []
  /\ accepts (VStr "https://a.example") wild = true
  /\ selectServer [wild; exactA] (VStr "https://a.example") = Some wild.
Proof.
  assert (h1 : [wild; exactA] = ([] ++ wild :: [exactA])%list) by reflexivity.
  assert (h2 : Forall (fun x => accepts (VStr "https://a.example") x = false) [])
    by constructor.
  assert (h3 : accepts (VStr "https://a.example") wild = true) by reflexivity.
  split; [exact h1 | split; [exact h2 | split; [exact h3 |]]].
  exact (proj1 (proj2 (selectServer_first_eligible
                         [wild; exactA] (VStr "https://a.example")))
           [] wild [exactA] h1 h2 h3).
Defined.
End ServerSelection.

(** ** Ownership *)

Section Ownership.
Import AzureStorageClient.

(** The blobs a lookup under a scope sees. *)
Abbreviation listed scope tenantId userId s :=
  (filter (fun x => startsWith (blob_name x) (scopePrefix scope tenantId userId) = true)
          (container s)).

Lemma notOwner_tenant userId b : notOwner (VStr "tenant") userId b = false.
Proof. reflexivity. Qed.

Lemma notOwner_user userId b :
  notOwner (VStr "user") userId b = negb (strict_eq (meta b "user_id") userId).
Proof. reflexivity. Qed.

Lemma deleteFile_run this fileId tenantId userId scope w s :
  isConfigured this = true -> containerClient this = true ->
  run (deleteFile this fileId tenantId userId scope) w s =
    let pfx := scopePrefix scope tenantId userId in
    let s1 := MkState (cache s) (container s) (asked s) (log s ++ [EvListBlobs pfx]) in
    match List.find (hasFileId fileId) (listed scope tenantId userId s) with
    | Some b =>
        if notOwner scope userId b then
          (Throw (Error "Unauthorized: File belongs to different user"), s1)
        else
          (Return tt,
           MkState (cache s)
             (filter (fun x => blob_name x ≠ blob_name b) (container s))
             (asked s)
             ((log s ++ [EvListBlobs pfx]) ++ [EvDeleteBlob (blob_name b)]))
    | None => (Throw (Error "File not found"), s1)
    end.
Proof.
  intros Hc Hi. unfold deleteFile, ready, listBlobsFlat. rewrite Hc, Hi.
  unfold_m. simpl.
  destruct (List.find _ _) as [b|]; [|reflexivity].
  destruct (notOwner scope userId b); reflexivity.
Qed.

Lemma downloadFile_run this fileId tenantId userId scope w s :
  isConfigured this = true -> containerClient this = true ->
  run (downloadFile this fileId tenantId userId scope) w s =
    let pfx := scopePrefix scope tenantId userId in
    let s1 := MkState (cache s) (container s) (asked s) (log s ++ [EvListBlobs pfx]) in
    match List.find (hasFileId fileId) (listed scope tenantId userId s) with
    | Some b =>
        if notOwner scope userId b then
          (Throw (Error "Unauthorized: File belongs to different user"), s1)
        else
          (Return b,
           MkState (cache s) (container s) (asked s)
             ((log s ++ [EvListBlobs pfx]) ++ [EvDownload (blob_name b)]))
    | None => (Throw (Error "File not found"), s1)
    end.
Proof.
  intros Hc Hi. unfold downloadFile, ready, listBlobsFlat. rewrite Hc, Hi.
  unfold_m. simpl.
  destruct (List.find _ _) as [b|]; [|reflexivity].
  destruct (notOwner scope userId b); reflexivity.
Qed.

(** The ownership test is reached only for an object listed under the
    prefix of the request: a file id with no object there is "File not
    found", whoever owns objects elsewhere. *)
Lemma lookup_outside_prefix_not_found this fileId tenantId userId scope w s :
  isConfigured this = true -> containerClient this = true ->
  List.find (hasFileId fileId) (listed scope tenantId userId s) = None ->
  fst (run (downloadFile this fileId tenantId userId scope) w s)
    = Throw (Error "File not found")
  /\ fst (run (deleteFile this fileId tenantId userId scope) w s)
     = Throw (Error "File not found").
Proof.
  intros Hc Hi Hfind.
  rewrite (deleteFile_run _ _ _ _ _ w s Hc Hi).
  rewrite (downloadFile_run _ _ _ _ _ w s Hc Hi).
  cbv zeta. rewrite Hfind. split; reflexivity.
Qed.

(** C3.  For every stored object [b] found for a file id under the prefix
    of the request and every requesting identity: under scope "user", when the stored owner
    ([b]'s [user_id] metadata) is not strictly equal to the requesting
    subject id, download and delete throw the error
    "Unauthorized: File belongs to different user" and leave the container
    as it was; that error is not the "File not found" one, and the routers
    answer it 403 where they answer "File not found" 404.  Under scope
    "tenant" the test is satisfied whatever the owner: download returns
    the object and delete removes it. *)
Theorem ownership_check this fileId tenantId userId scope w s b :
  isConfigured this = true -> containerClient this = true ->
  List.find (hasFileId fileId) (listed scope tenantId userId s) = Some b ->
  (scope = VStr "user" ->
   strict_eq (meta b "user_id") userId = false ->
     notOwner scope userId b = true
     /\ fst (run (downloadFile this fileId tenantId userId scope) w s)
        = Throw (Error "Unauthorized: File belongs to different user")
     /\ fst (run (deleteFile this fileId tenantId userId scope) w s)
        = Throw (Error "Unauthorized: File belongs to different user")
     /\ container (snd (run (deleteFile this fileId tenantId userId scope) w s))
        = container s)
  /\ (scope = VStr "tenant" ->
     notOwner scope userId b = false
     /\ fst (run (downloadFile this fileId tenantId userId scope) w s) = Return b
     /\ fst (run (deleteFile this fileId tenantId userId scope) w s) = Return tt
     /\ container (snd (run (deleteFile this fileId tenantId userId scope) w s))
        = filter (fun x => blob_name x ≠ blob_name b) (container s))
  /\ Error "Unauthorized: File belongs to different user" <> Error "File not found"
  /\ (forall what,
       Routes.onStorageError what
         (Error "Unauthorized: File belongs to different user")
       = refuse 403 "Forbidden" "Unauthorized: File belongs to different user"
       /\ Routes.onStorageError what (Error "File not found")
          = refuse 404 "Not Found" "File not found").
Proof.
  intros Hc Hi Hfind.
  rewrite (deleteFile_run _ _ _ _ _ w s Hc Hi).
  rewrite (downloadFile_run _ _ _ _ _ w s Hc Hi).
  cbv zeta. rewrite Hfind.
  split; [|split; [|split; [discriminate | intros what; split; reflexivity]]].
  - intros -> Hne. rewrite notOwner_user, Hne. simpl. repeat split.
  - intros ->. rewrite notOwner_tenant. repeat split.
Qed.

Lemma ownership_check_witness :
  isConfigured readyClient = true /\ containerClient readyClient = true
  /\ List.find (hasFileId "0b0e7a2c")
       (listed (VStr "user") (VStr "t1") (VStr "u1") strayState) = Some strayBlob
  /\ strict_eq (meta strayBlob "user_id") (VStr "u1") = false
  /\ fst (run (deleteFile readyClient "0b0e7a2c" (VStr "t1") (VStr "u1") (VStr "user"))
            (MkWorld (fun _ => 0) (fun _ _ => Pending) (fun _ => "") (fun _ _ _ => true))
            strayState)
     = Throw (Error "Unauthorized: File belongs to different user").
Proof.
  assert (h1 : isConfigured readyClient = true) by reflexivity.
  assert (h2 : containerClient readyClient = true) by reflexivity.
  assert (h3 : List.find (hasFileId "0b0e7a2c")
                 (listed (VStr "user") (VStr "t1") (VStr "u1") strayState)
               = Some strayBlob) by (vm_compute; reflexivity).
  assert (h4 : strict_eq (meta strayBlob "user_id") (VStr "u1") = false)
    by (vm_compute; reflexivity).
  split; [exact h1 | split; [exact h2 | split; [exact h3 | split; [exact h4 |]]]].
  exact (proj1 (proj2 (proj2
           (proj1 (ownership_check readyClient "0b0e7a2c" (VStr "t1") (VStr "u1")
                     (VStr "user") _ strayState strayBlob h1 h2 h3)
                  eq_refl h4)))).
Defined.
End Ownership.

(** ** The key-set cache *)

Section KeyCache.
Import JwksClient.

Lemma cacheTtlMs_configured cfg t :
  cacheTtl cfg = Some t -> t <> 0 -> cacheTtlMs cfg = t * 1000.
Proof.
  intros H Ht. unfold cacheTtlMs. rewrite H.
  destruct (Z.eqb_spec t 0); [contradiction | reflexivity].
Qed.

Lemma cacheTtlMs_default cfg :
  cacheTtl cfg = None \/ cacheTtl cfg = Some 0 -> cacheTtlMs cfg = 3600000.
Proof. unfold cacheTtlMs. intros [-> | ->]; reflexivity. Qed.

Lemma app_one_neq {A} (l : list A) (x : A) : (l ++ [x])%list <> l.
Proof.
  intros H. apply (f_equal (@length A)) in H. rewrite length_app in H.
  simpl in H. lia.
Qed.

(** What one call of [fetchJwks] does, case by case.  [n] counts the
    questions put to the world before the fetch. *)
Lemma fetchJwks_run issuerKey cfg w s :
  run (fetchJwks issuerKey cfg) w s =
    let url := jwksUrl cfg in
    let lg := (log s ++ [EvFetchJwks url])%list in
    let refetch n :=
      match network w n url with
      | Settles r | SettlesLate r =>
          if resp_ok r then
            match resp_json r with
            | Some j =>
                (Return j,
                 MkState (<[issuerKey := MkEntry j (clock w (S n))]> (cache s))
                         (container s) (S (S n)) lg)
            | None =>
                (Throw (MkError "SyntaxError" "Unexpected token" None),
                 MkState (cache s) (container s) (S n) lg)
            end
          else
            (Throw (Error ("Failed to fetch JWKS from " ++ url ++ ": "
                           ++ pretty (resp_status r))),
             MkState (cache s) (container s) (S n) lg)
      | Stalls status =>
          if (200 <=? status) && (status <=? 299) then
            (Hang, MkState (cache s) (container s) (S n) lg)
          else
            (Throw (Error ("Failed to fetch JWKS from " ++ url ++ ": "
                           ++ pretty status)),
             MkState (cache s) (container s) (S n) lg)
      | Rejects e => (Throw e, MkState (cache s) (container s) (S n) lg)
      | Pending => (Hang, MkState (cache s) (container s) (S n) lg)
      end in
    match cache s !! issuerKey with
    | Some c =>
        if clock w (asked s) - fetchedAt c <? cacheTtlMs cfg then
          (Return (jwks c), MkState (cache s) (container s) (S (asked s)) (log s))
        else refetch (S (asked s))
    | None => refetch (asked s)
    end.
Proof.
  unfold fetchJwks, fetch, json, arrives, Date_now, ok_of, resp_ok. unfold_m.
  cbv zeta beta.
  destruct (cache s !! issuerKey) as [c|]; cbn.
  - destruct (_ <? _); [reflexivity|]. cbn.
    destruct (network w (S (asked s)) (jwksUrl cfg)) as [r|e| |r|status]; cbn;
      try reflexivity;
      try (destruct ((200 <=? resp_status r) && (resp_status r <=? 299)); cbn;
           [destruct (resp_json r)|]; reflexivity).
    destruct ((200 <=? status) && (status <=? 299)); reflexivity.
  - destruct (network w (asked s) (jwksUrl cfg)) as [r|e| |r|status]; cbn;
      try reflexivity;
      try (destruct ((200 <=? resp_status r) && (resp_status r <=? 299)); cbn;
           [destruct (resp_json r)|]; reflexivity).
    destruct ((200 <=? status) && (status <=? 299)); reflexivity.
Qed.

(** A failure of [fetchJwks] is the failure of [getSigningKey]: nothing
    catches it on the way and nothing is tried again. *)
Lemma getSigningKey_propagates L authServers token d server e w s s' :
  jwt_decode L token = Some d ->
  selectServer authServers (get (payload d) "iss") = Some server ->
  run (fetchJwks (issuer server) server) w s = (Throw e, s') ->
  run (getSigningKey L authServers token) w s = (Throw e, s').
Proof.
  intros Hd Hs Hf. unfold getSigningKey. rewrite Hd, Hs.
  unfold run, bind in *. now rewrite Hf.
Qed.
(** The key lookup of [getSigningKey] runs on the key set [fetchJwks]
    returned, from the state it left. *)
Lemma getSigningKey_after_fetch L authServers token d server j w s s' :
  jwt_decode L token = Some d ->
  selectServer authServers (get (payload d) "iss") = Some server ->
  run (fetchJwks (issuer server) server) w s = (Return j, s') ->
  run (getSigningKey L authServers token) w s
    = run (signingKeyFrom L j (get (header d) "kid") (get (header d) "alg")) w s'.
Proof.
  intros Hd Hs Hf. unfold getSigningKey. rewrite Hd, Hs.
  unfold run, bind in *. now rewrite Hf.
Qed.

(** The cache discipline of [fetchJwks], with the time to live as
    [fetchJwks] computes it. *)
Lemma fetchJwks_discipline issuerKey cfg w s :
  let r := run (fetchJwks issuerKey cfg) w s in
  let now := clock w (asked s) in
  let fresh :=
    exists c, cache s !! issuerKey = Some c
              /\ now - fetchedAt c < cacheTtlMs cfg in
  let n := match cache s !! issuerKey with
           | Some _ => S (asked s)
           | None => asked s
           end in
  (fresh <-> log (snd r) = log s)
  /\ (forall c, cache s !! issuerKey = Some c ->
                now - fetchedAt c < cacheTtlMs cfg ->
                fst r = Return (jwks c) /\ cache (snd r) = cache s)
  /\ (~ fresh -> log (snd r) = (log s ++ [EvFetchJwks (jwksUrl cfg)])%list)
  /\ (~ fresh ->
      forall resp j,
        network w n (jwksUrl cfg) = Settles resp ->
        resp_ok resp = true -> resp_json resp = Some j ->
        fst r = Return j
        /\ cache (snd r) = <[issuerKey := MkEntry j (clock w (S n))]> (cache s))
  /\ (~ fresh ->
      forall resp,
        network w n (jwksUrl cfg) = Settles resp -> resp_ok resp = false ->
        fst r = Throw (Error ("Failed to fetch JWKS from " ++ jwksUrl cfg ++ ": "
                              ++ pretty (resp_status resp)))
        /\ cache (snd r) = cache s)
  /\ (forall L authServers token d e,
        jwt_decode L token = Some d ->
        selectServer authServers (get (payload d) "iss") = Some cfg ->
        issuerKey = issuer cfg ->
        fst r = Throw e ->
        run (getSigningKey L authServers token) w s = (Throw e, snd r))
  /\ (forall L authServers token d j,
        jwt_decode L token = Some d ->
        selectServer authServers (get (payload d) "iss") = Some cfg ->
        issuerKey = issuer cfg ->
        fst r = Return j ->
        run (getSigningKey L authServers token) w s
          = run (signingKeyFrom L j (get (header d) "kid") (get (header d) "alg"))
                w (snd r)).
Proof.
  intros r now fresh n.
  assert (Hr : r = run (fetchJwks issuerKey cfg) w s) by reflexivity.
  rewrite fetchJwks_run in Hr. cbv zeta in Hr.
  assert (Hprop :
            (forall L authServers token d e,
               jwt_decode L token = Some d ->
               selectServer authServers (get (payload d) "iss") = Some cfg ->
               issuerKey = issuer cfg ->
               fst r = Throw e ->
               run (getSigningKey L authServers token) w s = (Throw e, snd r))
            /\ (forall L authServers token d j,
                  jwt_decode L token = Some d ->
                  selectServer authServers (get (payload d) "iss") = Some cfg ->
                  issuerKey = issuer cfg ->
                  fst r = Return j ->
                  run (getSigningKey L authServers token) w s
                    = run (signingKeyFrom L j (get (header d) "kid")
                             (get (header d) "alg")) w (snd r))).
  { split.
    - intros L authServers token d e Hd Hsel -> He.
      apply (getSigningKey_propagates L authServers token d cfg e w s (snd r) Hd Hsel).
      rewrite <- He. subst r. apply surjective_pairing.
    - intros L authServers token d j Hd Hsel -> Hj.
      apply (getSigningKey_after_fetch L authServers token d cfg j w s (snd r) Hd Hsel).
      rewrite <- Hj. subst r. apply surjective_pairing. }
  subst fresh n now.
  destruct (cache s !! issuerKey) as [c|] eqn:Hc.
  - destruct (Z.ltb_spec (clock w (asked s) - fetchedAt c) (cacheTtlMs cfg)) as [Hlt|Hge].
    + (* fresh *)
      assert (Hf : exists c0, Some c = Some c0
                   /\ clock w (asked s) - fetchedAt c0 < cacheTtlMs cfg)
        by (exists c; split; [reflexivity | assumption]).
      rewrite Hr in *. cbn [fst snd log cache] in *.
      split; [split; [reflexivity | intros _; exact Hf]|].
      split; [intros c1 [= <-] _; split; reflexivity|].
      split; [intros Hn; contradiction|].
      split; [intros Hn; contradiction|].
      split; [intros Hn; contradiction | exact Hprop].
    + (* stale *)
      assert (Hnf : ~ exists c0, Some c = Some c0
                    /\ clock w (asked s) - fetchedAt c0 < cacheTtlMs cfg).
      { intros (c0 & [= <-] & Hlt). lia. }
      assert (Hlog : log (snd r) = (log s ++ [EvFetchJwks (jwksUrl cfg)])%list).
      { rewrite Hr.
        destruct (network w (S (asked s)) (jwksUrl cfg)) as [x|x| |x|x];
          try reflexivity;
          try (destruct (resp_ok x); [destruct (resp_json x)|]; reflexivity).
        destruct (_ && _); reflexivity. }
      split.
      { split; [intros Hf; contradiction|].
        intros Heq. rewrite Hlog in Heq. now apply app_one_neq in Heq. }
      split; [intros c0 [= <-] Hlt; lia|].
      split; [intros _; exact Hlog|].
      split; [|split; [|exact Hprop]].
      * intros _ resp j Hn Hok Hj. rewrite Hr, Hn, Hok, Hj. split; reflexivity.
      * intros _ resp Hn Hok. rewrite Hr, Hn, Hok. split; reflexivity.
  - (* absent *)
    assert (Hnf : ~ exists c0, @None cache_entry = Some c0
                  /\ clock w (asked s) - fetchedAt c0 < cacheTtlMs cfg).
    { intros (c0 & [=] & _). }
    assert (Hlog : log (snd r) = (log s ++ [EvFetchJwks (jwksUrl cfg)])%list).
    { rewrite Hr.
      destruct (network w (asked s) (jwksUrl cfg)) as [x|x| |x|x];
        try reflexivity;
        try (destruct (resp_ok x); [destruct (resp_json x)|]; reflexivity).
      destruct (_ && _); reflexivity. }
    split.
    { split; [intros Hf; contradiction|].
      intros Heq. rewrite Hlog in Heq. now apply app_one_neq in Heq. }
    split; [intros c0 [=]|].
    split; [intros _; exact Hlog|].
    split; [|split; [|exact Hprop]].
    * intros _ resp j Hn Hok Hj. rewrite Hr, Hn, Hok, Hj. split; reflexivity.
    * intros _ resp Hn Hok. rewrite Hr, Hn, Hok. split; reflexivity.
Qed.


(** C6 (amended).  For every issuer cache entry, with [ttl] the time to live
    in force: the configured [cacheTtl] seconds times 1000 when one is
    configured and is not zero, one hour when none is configured or the
    configured one is zero.  [fetchJwks] returns the cached key set without
    a network fetch exactly when an entry exists and
    [now - fetchedAt < ttl].  When the entry is absent or stale it performs
    exactly one fetch; on a success response it stores the fetched key set
    with the time of storing and returns it, and the key lookup of
    [getSigningKey] then runs on that set; on a non-success response it
    throws the "Failed to fetch JWKS" error, which [getSigningKey] passes on
    to its caller without another fetch. *)
Theorem fetchJwks_cache_discipline issuerKey cfg ttl w s :
  (exists t, cacheTtl cfg = Some t /\ t <> 0 /\ ttl = t * 1000)
  \/ ((cacheTtl cfg = None \/ cacheTtl cfg = Some 0) /\ ttl = 3600 * 1000) ->
  let r := run (fetchJwks issuerKey cfg) w s in
  let now := clock w (asked s) in
  let fresh :=
    exists c, cache s !! issuerKey = Some c /\ now - fetchedAt c < ttl in
  let n := match cache s !! issuerKey with
           | Some _ => S (asked s)
           | None => asked s
           end in
  (fresh <-> log (snd r) = log s)
  /\ (forall c, cache s !! issuerKey = Some c ->
                now - fetchedAt c < ttl ->
                fst r = Return (jwks c) /\ cache (snd r) = cache s)
  /\ (~ fresh -> log (snd r) = (log s ++ [EvFetchJwks (jwksUrl cfg)])%list)
  /\ (~ fresh ->
      forall resp j,
        network w n (jwksUrl cfg) = Settles resp ->
        resp_ok resp = true -> resp_json resp = Some j ->
        fst r = Return j
        /\ cache (snd r) = <[issuerKey := MkEntry j (clock w (S n))]> (cache s))
  /\ (~ fresh ->
      forall resp,
        network w n (jwksUrl cfg) = Settles resp -> resp_ok resp = false ->
        fst r = Throw (Error ("Failed to fetch JWKS from " ++ jwksUrl cfg ++ ": "
                              ++ pretty (resp_status resp)))
        /\ cache (snd r) = cache s)
  /\ (forall L authServers token d e,
        jwt_decode L token = Some d ->
        selectServer authServers (get (payload d) "iss") = Some cfg ->
        issuerKey = issuer cfg ->
        fst r = Throw e ->
        run (getSigningKey L authServers token) w s = (Throw e, snd r))
  /\ (forall L authServers token d j,
        jwt_decode L token = Some d ->
        selectServer authServers (get (payload d) "iss") = Some cfg ->
        issuerKey = issuer cfg ->
        fst r = Return j ->
        run (getSigningKey L authServers token) w s
          = run (signingKeyFrom L j (get (header d) "kid") (get (header d) "alg"))
                w (snd r)).
Proof.
  intros Httl.
  assert (Hms : cacheTtlMs cfg = ttl).
  { destruct Httl as [(t & Hc & Ht & ->) | [Hc ->]].
    - now apply cacheTtlMs_configured.
    - now apply cacheTtlMs_default. }
  rewrite <- Hms. exact (fetchJwks_discipline issuerKey cfg w s).
Qed.

Lemma fetchJwks_cache_discipline_witness :
  ((exists t, cacheTtl exactA60 = Some t /\ t <> 0 /\ 60 * 1000 = t * 1000)
   \/ ((cacheTtl exactA60 = None \/ cacheTtl exactA60 = Some 0)
       /\ 60 * 1000 = 3600 * 1000))
  /\ cache cachedState !! "https://a.example" = Some (MkEntry jwksA 0)
  /\ clock (worldAt 1000 Pending) (asked cachedState) - 0 < 60 * 1000
  /\ fst (run (fetchJwks "https://a.example" exactA60) (worldAt 1000 Pending)
            cachedState)
     = Return jwksA.
Proof.
  assert (h0 : (exists t, cacheTtl exactA60 = Some t /\ t <> 0
                          /\ 60 * 1000 = t * 1000)
               \/ ((cacheTtl exactA60 = None \/ cacheTtl exactA60 = Some 0)
                   /\ 60 * 1000 = 3600 * 1000))
    by (left; exists 60; split; [reflexivity | split; [discriminate | reflexivity]]).
  assert (h1 : cache cachedState !! "https://a.example" = Some (MkEntry jwksA 0))
    by (vm_compute; reflexivity).
  assert (h2 : clock (worldAt 1000 Pending) (asked cachedState)
               - fetchedAt (MkEntry jwksA 0) < 60 * 1000)
    by (vm_compute; reflexivity).
  split; [exact h0 | split; [exact h1 | split; [exact h2 |]]].
  exact (proj1 (proj1 (proj2 (fetchJwks_cache_discipline "https://a.example" exactA60
                                (60 * 1000) (worldAt 1000 Pending) cachedState h0))
                      (MkEntry jwksA 0) h1 h2)).
Defined.

(** Against C6 as stated: with a [cacheTtl] of 0 configured, an entry
    fetched at time 0 is stale at time 1000 by the configured time to live
    ([now - fetchedAt >= cacheTTL]), and yet [fetchJwks] returns it from the
    cache and fetches nothing: [cacheTtl || ...] takes 0 for no setting and
    keeps entries for one hour. *)
Lemma zero_cacheTtl_is_served_from_cache :
  let cfg := MkServer "https://a.example" "https://a.example/jwks" (Some 0) in
  let w := worldAt 1000 (Settles (MkResponse 200 (Some (VObj ∅)))) in
  let r := run (fetchJwks "https://a.example" cfg) w cachedState in
  cacheTtl cfg = Some 0
  /\ cache cachedState !! "https://a.example" = Some (MkEntry jwksA 0)
  /\ 0 * 1000 <= clock w (asked cachedState) - fetchedAt (MkEntry jwksA 0)
  /\ fst r = Return jwksA
  /\ log (snd r) = log cachedState
  /\ existsb is_jwks_fetch (log (snd r)) = false.
Proof.
  cbv zeta. repeat split; vm_compute; try reflexivity. discriminate.
Qed.

(** C10.  For every issuer whose entry is absent or stale, when the
    key-set endpoint answers with a non-success status, [fetchJwks] throws
    and the whole cache is as before: the entry of that issuer is neither
    removed nor overwritten, and none is created where none existed. *)
Theorem fetchJwks_failure_keeps_cache issuerKey cfg w s resp :
  let r := run (fetchJwks issuerKey cfg) w s in
  let n := match cache s !! issuerKey with
           | Some _ => S (asked s)
           | None => asked s
           end in
  match cache s !! issuerKey with
  | Some c => cacheTtlMs cfg <= clock w (asked s) - fetchedAt c
  | None => True
  end ->
  network w n (jwksUrl cfg) = Settles resp ->
  resp_ok resp = false ->
  fst r = Throw (Error ("Failed to fetch JWKS from " ++ jwksUrl cfg ++ ": "
                        ++ pretty (resp_status resp)))
  /\ cache (snd r) = cache s
  /\ cache (snd r) !! issuerKey = cache s !! issuerKey.
Proof.
  intros r n Hstale Hn Hok. subst r n. rewrite fetchJwks_run. cbv zeta.
  destruct (cache s !! issuerKey) as [c|] eqn:Hc.
  - destruct (Z.ltb_spec (clock w (asked s) - fetchedAt c) (cacheTtlMs cfg));
      [lia|].
    rewrite Hn, Hok. cbn. rewrite Hc. repeat split.
  - rewrite Hn, Hok. cbn. rewrite Hc. repeat split.
Qed.

Lemma fetchJwks_failure_keeps_cache_witness :
  cacheTtlMs exactA <= clock (worldAt 3600000 (Settles (MkResponse 500 None)))
                         (asked cachedState) - 0
  /\ resp_ok (MkResponse 500 None) = false
  /\ cache (snd (run (fetchJwks "https://a.example" exactA)
                   (worldAt 3600000 (Settles (MkResponse 500 None))) cachedState))
     = cache cachedState.
Proof.
  assert (h1 : match cache cachedState !! "https://a.example" with
               | Some c => cacheTtlMs exactA
                           <= clock (worldAt 3600000 (Settles (MkResponse 500 None)))
                                (asked cachedState) - fetchedAt c
               | None => True
               end) by (vm_compute; discriminate).
  assert (h3 : resp_ok (MkResponse 500 None) = false) by reflexivity.
  split; [exact h1 | split; [exact h3 |]].
  exact (proj1 (proj2 (fetchJwks_failure_keeps_cache "https://a.example" exactA
                         (worldAt 3600000 (Settles (MkResponse 500 None)))
                         cachedState (MkResponse 500 None) h1 eq_refl h3))).
Defined.
End KeyCache.

(** ** The authorization gate with an oracle *)

Section FailClosed.
Variable L : libs.
Import Authorization.

Lemma callOracle_run url timeout authHeader body w s :
  run (callOracle url timeout authHeader body) w s =
    let lg := ((log s ++ [EvSetTimeout timeout])
                 ++ [EvFetchOracle url (Server.nonempty authHeader) body])%list in
    match network w (asked s) url with
    | Settles r | SettlesLate r =>
        (Return (Body r),
         MkState (cache s) (container s) (S (asked s)) (lg ++ [EvClearTimeout]))
    | Stalls status =>
        (Return (NoBody status),
         MkState (cache s) (container s) (S (asked s)) (lg ++ [EvClearTimeout]))
    | Rejects e => (Throw e, MkState (cache s) (container s) (S (asked s)) lg)
    | Pending =>
        (Throw AbortError,
         MkState (cache s) (container s) (S (asked s)) (lg ++ [EvAbort]))
    end.
Proof.
  unfold callOracle. unfold_m. cbn.
  destruct (network w (asked s) url); reflexivity.
Qed.

Lemma never_next_ret_json code b : never_next (ret (Respond (Json code b))).
Proof. intros w s req'. discriminate. Qed.

Lemma never_next_throw e : never_next (throw e).
Proof. intros w s req'. discriminate. Qed.

Lemma never_next_bind {A} (c : M A) (f : A -> M outcome) :
  (forall a, never_next (f a)) -> never_next (bind c f).
Proof.
  intros Hf w s req'. unfold bind.
  destruct (c w s) as [[a|e|] s']; [apply Hf | discriminate | discriminate].
Qed.

Lemma never_next_try (c : M outcome) (h : error -> M outcome) :
  never_next c -> (forall e, never_next (h e)) -> never_next (try_catch c h).
Proof.
  intros Hc Hh w s req'. unfold try_catch. specialize (Hc w s req').
  destruct (c w s) as [[a|e|] s']; [exact Hc | apply Hh | discriminate].
Qed.

Lemma unavailable_run e w s :
  unavailable e w s =
    (Return (refuse 503 "Service Unavailable" "Authorization service unavailable"),
     MkState (cache s) (container s) (asked s)
       (log s ++ [EvConsole "error"
                    (if (err_name e =? "AbortError")%string
                     then "Authorization timeout" else "Authorization error")])).
Proof.
  unfold unavailable. unfold_m.
  destruct (err_name e =? "AbortError")%string; reflexivity.
Qed.

Lemma never_next_unavailable e : never_next (unavailable e).
Proof. intros w s req'. rewrite unavailable_run. discriminate. Qed.

(** A response that is not a readable success never lets the request on. *)
Lemma interpret_next_needs_success req resp :
  resp_ok resp = false \/ resp_json resp = None ->
  never_next (try_catch (interpret req resp) unavailable).
Proof.
  intros H. apply never_next_try; [|apply never_next_unavailable].
  unfold interpret. destruct (resp_ok resp) eqn:Hok; cbn [negb].
  - destruct H as [H|H]; [discriminate|]. rewrite H. apply never_next_throw.
  - apply never_next_bind. intros data.
    destruct (resp_status resp =? 403).
    + apply never_next_bind. intros reason. apply never_next_bind.
      intros message. apply never_next_bind. intros _.
      apply never_next_ret_json.
    + apply never_next_bind. intros _. apply never_next_ret_json.
Qed.

Lemma createAuthorizationMiddleware_configured url timeout :
  url <> "" ->
  createAuthorizationMiddleware L (Some url) timeout = authorizeWith L url timeout.
Proof.
  intros H. unfold createAuthorizationMiddleware.
  now rewrite (proj2 (truthy_str url) H).
Qed.

Lemma authorizeWith_run url timeout req action w s :
  actionOf req = Some action ->
  authorizeWith L url timeout req w s =
    let lg := ((log s ++ [EvSetTimeout timeout])
                 ++ [EvFetchOracle url (Server.nonempty (authorization req))
                       (requestBody L action req)])%list in
    match network w (asked s) url with
    | Settles r | SettlesLate r =>
        try_catch (interpret req r) unavailable w
          (MkState (cache s) (container s) (S (asked s)) (lg ++ [EvClearTimeout]))
    | Stalls _ =>
        (Hang,
         MkState (cache s) (container s) (S (asked s)) (lg ++ [EvClearTimeout]))
    | Rejects e =>
        unavailable e w (MkState (cache s) (container s) (S (asked s)) lg)
    | Pending =>
        unavailable AbortError w
          (MkState (cache s) (container s) (S (asked s)) (lg ++ [EvAbort]))
    end.
Proof.
  intros Hact. unfold authorizeWith. rewrite Hact.
  unfold try_catch at 1. unfold bind at 1.
  pose proof (callOracle_run url timeout (authorization req)
                (requestBody L action req) w s) as Hc.
  unfold run in Hc. rewrite Hc. cbv zeta.
  destruct (network w (asked s) url); reflexivity.
Qed.

(** Where the gate fails closed.  For every request that stands for a file
    operation, with an oracle URL configured: when the status line of the
    oracle's response does not arrive before the timer, the timer's
    [controller.abort()] runs after the call went out and the middleware
    answers 503 "Service Unavailable"; when the call fails at the transport
    level (the [fetch] rejects, or the body of a success response that
    arrived cannot be read) it answers 503 as well.  The middleware calls
    [next()] only on a success response whose body arrived, in time or
    late, and could be read. *)
Lemma authorize_fails_closed url timeout req action w s :
  url <> "" ->
  actionOf req = Some action ->
  let r := run (createAuthorizationMiddleware L (Some url) timeout req) w s in
  let denied :=
    refuse 503 "Service Unavailable" "Authorization service unavailable" in
  let sent :=
    [EvSetTimeout timeout;
     EvFetchOracle url (Server.nonempty (authorization req))
       (requestBody L action req)] in
  (network w (asked s) url = Pending ->
   fst r = Return denied
   /\ log (snd r) =
        (log s ++ sent ++ [EvAbort; EvConsole "error" "Authorization timeout"])%list)
  /\ (forall e, network w (asked s) url = Rejects e ->
        fst r = Return denied
        /\ exists tag, log (snd r) = (log s ++ sent ++ [EvConsole "error" tag])%list)
  /\ (forall resp, network w (asked s) url = Settles resp ->
        resp_ok resp = true -> resp_json resp = None ->
        fst r = Return denied)
  /\ (forall req', fst r = Return (Next req') ->
        exists resp raw,
          (network w (asked s) url = Settles resp
           \/ network w (asked s) url = SettlesLate resp)
          /\ resp_ok resp = true /\ resp_json resp = Some raw).
Proof.
  intros Hurl Hact r denied sent.
  assert (Hr : r = run (createAuthorizationMiddleware L (Some url) timeout req) w s)
    by reflexivity.
  clearbody r. subst denied sent.
  rewrite (createAuthorizationMiddleware_configured url timeout Hurl) in Hr.
  unfold run in Hr. rewrite (authorizeWith_run url timeout req action w s Hact) in Hr.
  cbv zeta in Hr.
  assert (Hread : forall resp st,
             r = try_catch (interpret req resp) unavailable w st ->
             forall req', fst r = Return (Next req') ->
             resp_ok resp = true /\ exists raw, resp_json resp = Some raw).
  { intros resp st Hrs req' Hnext. rewrite Hrs in Hnext.
    destruct (resp_ok resp) eqn:Hok.
    - split; [reflexivity|].
      destruct (resp_json resp) as [raw|] eqn:Hj; [eauto|].
      exfalso.
      eapply (interpret_next_needs_success req resp); [right; exact Hj|].
      exact Hnext.
    - exfalso.
      eapply (interpret_next_needs_success req resp); [left; exact Hok|].
      exact Hnext. }
  destruct (network w (asked s) url) as [resp|e| |resp|status] eqn:Hn.
  - split; [discriminate|]. split; [discriminate|]. split.
    + intros resp0 [= <-] Hok Hj. rewrite Hr. unfold try_catch, interpret.
      rewrite Hok, Hj. cbn [negb]. unfold throw. rewrite unavailable_run.
      reflexivity.
    + intros req' Hnext.
      destruct (Hread resp _ Hr req' Hnext) as (Hok & raw & Hj).
      exists resp, raw. auto.
  - rewrite unavailable_run in Hr. rewrite Hr. cbn [fst snd log].
    split; [discriminate|].
    split; [intros e0 _; split; [reflexivity|]; eexists;
            rewrite <- !app_assoc; reflexivity|].
    split; [discriminate|]. intros req' Hnext. discriminate.
  - rewrite unavailable_run in Hr. rewrite Hr. cbn [fst snd log].
    split; [intros _; split; [reflexivity|]; rewrite <- !app_assoc; reflexivity|].
    split; [discriminate|]. split; [discriminate|].
    intros req' Hnext. discriminate.
  - split; [discriminate|]. split; [discriminate|]. split; [discriminate|].
    intros req' Hnext.
    destruct (Hread resp _ Hr req' Hnext) as (Hok & raw & Hj).
    exists resp, raw. auto.
  - rewrite Hr. cbn [fst].
    split; [discriminate|]. split; [discriminate|]. split; [discriminate|].
    intros req' Hnext. discriminate.
Qed.

(** The timer does not cover the body.  A response whose status line
    arrived before the timer is read like one that arrived whole, however
    late its body comes: no abort, no 503 on that account; and when the
    body never comes the middleware waits for it without end, the timer
    being cleared. *)
Lemma the_timer_does_not_cover_the_body url timeout req action w s :
  url <> "" ->
  actionOf req = Some action ->
  let r := run (createAuthorizationMiddleware L (Some url) timeout req) w s in
  let sent :=
    [EvSetTimeout timeout;
     EvFetchOracle url (Server.nonempty (authorization req))
       (requestBody L action req);
     EvClearTimeout] in
  (forall resp,
      network w (asked s) url = SettlesLate resp ->
      r = try_catch (interpret req resp) unavailable w
            (MkState (cache s) (container s) (S (asked s)) (log s ++ sent)))
  /\ (forall status,
        network w (asked s) url = Stalls status ->
        r = (Hang, MkState (cache s) (container s) (S (asked s)) (log s ++ sent))).
Proof.
  intros Hurl Hact r sent. subst r sent.
  rewrite (createAuthorizationMiddleware_configured url timeout Hurl).
  unfold run. rewrite (authorizeWith_run url timeout req action w s Hact).
  cbv zeta. split.
  - intros resp ->. now rewrite <- !app_assoc.
  - intros status ->. now rewrite <- !app_assoc.
Qed.

End FailClosed.

Lemma authorize_fails_closed_witness :
  "http://api:9100/files/authorize" <> ""
  /\ Authorization.actionOf (requestOf "DELETE" "/files/f1" (Some "Bearer t"))
     = Some "delete"
  /\ network (worldAt 0 Pending) (asked fresh_state) "http://api:9100/files/authorize"
     = Pending
  /\ fst (run (Authorization.createAuthorizationMiddleware (demoLibs [])
                (Some "http://api:9100/files/authorize") 50
                (requestOf "DELETE" "/files/f1" (Some "Bearer t")))
              (worldAt 0 Pending) fresh_state)
     = Return (refuse 503 "Service Unavailable" "Authorization service unavailable").
Proof.
  assert (h1 : "http://api:9100/files/authorize" <> "") by discriminate.
  assert (h2 : Authorization.actionOf (requestOf "DELETE" "/files/f1" (Some "Bearer t"))
               = Some "delete") by reflexivity.
  assert (h3 : network (worldAt 0 Pending) (asked fresh_state)
                 "http://api:9100/files/authorize" = Pending) by reflexivity.
  split; [exact h1 | split; [exact h2 | split; [exact h3 |]]].
  exact (proj1 (proj1 (authorize_fails_closed (demoLibs [])
                         "http://api:9100/files/authorize" 50
                         (requestOf "DELETE" "/files/f1" (Some "Bearer t"))
                         "delete" (worldAt 0 Pending) fresh_state h1 h2) h3)).
Defined.

(** C2, the code at the failing input.  The timer bounds the oracle call
    up to the status line only.  A DELETE on [/files/f1], timeout 50 ms: when the oracle sends
    its status line in time and its body [{allowed: true, scope: "user"}]
    only after the 50 ms have passed, the timer is cleared, nothing is
    aborted and the request is let on with [next()], where the claim asks
    for the service-unavailable denial and never an allow; when the body
    never comes, the middleware neither aborts nor answers: the request
    stays pending. *)
Theorem late_oracle_body_is_not_refused :
  let req := requestOf "DELETE" "/files/f1" (Some "Bearer t") in
  let gate :=
    Authorization.createAuthorizationMiddleware (demoLibs []) (Some oracleUrl) 50
      req in
  let sent :=
    [EvSetTimeout 50;
     EvFetchOracle oracleUrl (Some "Bearer t") {[ "action" := VStr "delete" ]};
     EvClearTimeout] in
  Authorization.actionOf req = Some "delete"
  /\ network lateOracle (asked fresh_state) oracleUrl
     = SettlesLate (MkResponse 200 (Some allowBody))
  /\ run gate lateOracle fresh_state
     = (Return (Next (set_fileScope (VStr "user") req)), MkState ∅ [] 1 sent)
  /\ network stalledOracle (asked fresh_state) oracleUrl = Stalls 200
  /\ run gate stalledOracle fresh_state = (Hang, MkState ∅ [] 1 sent).
Proof.
  cbv zeta. repeat split; vm_compute; reflexivity.
Qed.

(** ** Token verification *)

Section Verification.
Variable L : libs.
Import Auth.

(** [jwt.verify] refuses a token whose declared algorithm is not one of the
    algorithms it was given. *)
Lemma jwt_verify_unlisted token k algorithms d w s :
  jwt_decode L token = Some d ->
  alg_listed algorithms (get (header d) "alg") = false ->
  fst (jwt_verify L token k algorithms w s)
    = Throw (JsonWebTokenError "invalid algorithm").
Proof.
  intros Hd Ha. unfold jwt_verify. unfold_m. rewrite Hd, Ha. reflexivity.
Qed.

(** Static-key mode keeps to the allow-list: a token declaring any other
    algorithm is answered 401, whatever the key and the signature. *)
Lemma static_mode_rejects_unlisted publicKey req h d w s :
  authorization req = Some h ->
  badHeader (Some h) = false ->
  jwt_decode L (tokenOf (Some h)) = Some d ->
  alg_listed allowList (get (header d) "alg") = false ->
  fst (run (authenticateJWT L publicKey req) w s)
    = Return (refuse 401 "Unauthorized" "Invalid token").
Proof.
  intros Hh Hb Hd Ha. unfold authenticateJWT, run. rewrite Hh, Hb.
  unfold try_catch. unfold bind at 1.
  pose proof (jwt_verify_unlisted (tokenOf (Some h)) (KeyString publicKey)
                allowList d w s Hd Ha) as Hv.
  unfold allowList in Hv.
  destruct (jwt_verify L (tokenOf (Some h)) (KeyString publicKey) _ w s)
    as [c s'] eqn:E.
  simpl in Hv. subst c. reflexivity.
Qed.

(** The subject id is the first truthy claim in the order sub, user_id,
    userId, id. *)
Lemma userIdOf_priority (decoded : obj) :
  userIdOf decoded =
    if truthy (get decoded "sub") then get decoded "sub"
    else if truthy (get decoded "user_id") then get decoded "user_id"
    else if truthy (get decoded "userId") then get decoded "userId"
    else get decoded "id".
Proof.
  unfold userIdOf, or.
  destruct (truthy (get decoded "sub")) eqn:E1; cbv iota;
    rewrite ?E1; cbv iota; rewrite ?E1; try reflexivity.
  destruct (truthy (get decoded "user_id")) eqn:E2; cbv iota;
    rewrite ?E2; cbv iota; reflexivity.
Qed.

(** In the object attached to the request the [id] written first is
    replaced by the token's own [id] claim when it has one. *)
Lemma userObject_id (userId tenantId : value) (decoded : obj) :
  get (userObject userId tenantId decoded) "id" =
    match decoded !! "id" with
    | Some v => v
    | None => userId
    end.
Proof.
  unfold userObject, get. rewrite lookup_union.
  destruct (decoded !! "id") as [v|] eqn:E.
  - rewrite lookup_insert_eq. reflexivity.
  - rewrite lookup_insert_eq. reflexivity.
Qed.
(** Once the token is verified, both middlewares do the same: 401 when no
    claim of the priority list is truthy, otherwise [next()] with the user
    object attached. *)
Lemma authenticateJWT_after_verify publicKey req h decoded w s s' :
  authorization req = Some h ->
  badHeader (Some h) = false ->
  jwt_verify L (tokenOf (Some h)) (KeyString publicKey) allowList w s
    = (Return decoded, s') ->
  run (authenticateJWT L publicKey req) w s =
    (Return (if truthy (userIdOf decoded) then
               Next (set_user (userObject (userIdOf decoded) (tenantIdOf decoded)
                                 decoded) req)
             else refuse 401 "Unauthorized" "Token missing user identifier"),
     s').
Proof.
  intros Hh Hb Hv. unfold authenticateJWT, run. rewrite Hh, Hb.
  unfold try_catch. unfold bind at 1. unfold allowList in Hv. rewrite Hv.
  destruct (truthy (userIdOf decoded)); reflexivity.
Qed.

Lemma authenticateJwks_after_verify authServers req h k algorithm decoded w s s1 s2 :
  authorization req = Some h ->
  badHeader (Some h) = false ->
  JwksClient.getSigningKey L authServers (tokenOf (Some h)) w s
    = (Return (k, algorithm), s1) ->
  jwt_verify L (tokenOf (Some h)) k [algorithm] w s1 = (Return decoded, s2) ->
  run (authenticateJwks L authServers req) w s =
    (Return (if truthy (userIdOf decoded) then
               Next (set_user (userObject (userIdOf decoded) (tenantIdOf decoded)
                                 decoded) req)
             else refuse 401 "Unauthorized" "Token missing user identifier"),
     s2).
Proof.
  intros Hh Hb Hk Hv. unfold authenticateJwks, run. rewrite Hh, Hb.
  unfold try_catch. unfold bind at 1. rewrite Hk. unfold bind at 1. rewrite Hv.
  destruct (truthy (userIdOf decoded)); reflexivity.
Qed.

(** In key-resolver mode the only algorithm [jwt.verify] is given is the one
    the token declares, so the declared algorithm is always listed. *)
Lemma declared_algorithm_is_listed (alg : value) :
  truthy alg = true ->
  match alg with VStr _ => True | _ => False end ->
  alg_listed [or alg (VStr "RS256")] alg = true.
Proof.
  intros Ht Hs. rewrite (or_truthy_l _ _ Ht). destruct alg; try contradiction.
  simpl. now rewrite String.eqb_refl.
Qed.
(** Given the declared algorithm as the only one allowed, [jwt.verify]
    accepts a token validly signed under it, whatever that algorithm is. *)
Lemma jwt_verify_declared token k a d w s :
  jwt_decode L token = Some d ->
  get (header d) "alg" = VStr a ->
  jws_verify L token a k = true ->
  get (payload d) "nbf" = VUndefined ->
  get (payload d) "exp" = VUndefined ->
  jwt_verify L token k [VStr a] w s
    = (Return (payload d),
       MkState (cache s) (container s) (S (asked s)) (log s)).
Proof.
  intros Hd Ha Hs Hn He. unfold jwt_verify, checkValidity. unfold_m.
  rewrite Hd, Ha. unfold alg_listed. cbn [existsb strict_eq].
  rewrite String.eqb_refl. cbn [orb negb]. rewrite Hs. cbn [negb].
  rewrite Hn, He. reflexivity.
Qed.

(** Key-resolver mode, in general: a token that declares any algorithm [a],
    listed or not, and is validly signed under it by the resolved key, is
    admitted. *)
Lemma key_resolver_mode_follows_declared_algorithm
      authServers req h d a k w s s1 :
  authorization req = Some h ->
  badHeader (Some h) = false ->
  jwt_decode L (tokenOf (Some h)) = Some d ->
  get (header d) "alg" = VStr a ->
  JwksClient.getSigningKey L authServers (tokenOf (Some h)) w s
    = (Return (k, VStr a), s1) ->
  jws_verify L (tokenOf (Some h)) a k = true ->
  get (payload d) "nbf" = VUndefined ->
  get (payload d) "exp" = VUndefined ->
  truthy (userIdOf (payload d)) = true ->
  fst (run (authenticateJwks L authServers req) w s)
    = Return (Next (set_user (userObject (userIdOf (payload d))
                                (tenantIdOf (payload d)) (payload d)) req)).
Proof.
  intros Hh Hb Hd Ha Hk Hs Hn He Hu.
  rewrite (authenticateJwks_after_verify authServers req h k (VStr a) (payload d)
             w s s1 _ Hh Hb Hk (jwt_verify_declared _ k a d w s1 Hd Ha Hs Hn He)).
  simpl. now rewrite Hu.
Qed.
End Verification.

(** C1, the code at the failing input.  The token "t512" declares RS512,
    which is outside the allow-list, and is validly signed under RS512 by
    the key "k1".  With that key as the static key, [authenticateJWT]
    answers 401 "Invalid token"; with the key set holding "k1" behind the
    key resolver, [authenticateJwks] admits the request as user "u1". *)
Theorem jwks_mode_admits_unlisted_algorithm :
  get (header (decoded rs512Token)) "alg" = VStr "RS512"
  /\ alg_listed allowList (VStr "RS512") = false
  /\ jws_verify (demoLibs issuedTokens) "t512" "RS512" (KeyString "k1") = true
  /\ fst (run (Auth.authenticateJWT (demoLibs issuedTokens) "k1"
                (requestOf "GET" "/files" (Some "Bearer t512")))
              jwksWorld fresh_state)
     = Return (refuse 401 "Unauthorized" "Invalid token")
  /\ admittedAs (run (Auth.authenticateJwks (demoLibs issuedTokens) [exactA]
                        (requestOf "GET" "/files" (Some "Bearer t512")))
                     jwksWorld fresh_state)
     = Some (VStr "u1").
Proof. repeat split; vm_compute; reflexivity. Qed.

(** C4, the code at the failing input.  The token "t2ids" is valid and
    carries [sub: "u1"] and [id: "u2"]: the first claim in priority order is
    "u1", yet both middlewares attach an identity whose [id] is "u2",
    because the spread of the claims comes after [id: userId]. *)
Theorem attached_id_is_the_id_claim :
  Auth.userIdOf (payload (decoded twoIdsToken)) = VStr "u1"
  /\ admittedAs (run (Auth.authenticateJwks (demoLibs issuedTokens) [exactA]
                        (requestOf "GET" "/files" (Some "Bearer t2ids")))
                     jwksWorld fresh_state)
     = Some (VStr "u2")
  /\ admittedAs (run (Auth.authenticateJWT (demoLibs issuedTokens) "k1"
                        (requestOf "GET" "/files" (Some "Bearer t2ids")))
                     jwksWorld fresh_state)
     = Some (VStr "u2").
Proof. repeat split; vm_compute; reflexivity. Qed.

(** ** Malformed file ids *)

Section Frame.

Lemma keeps_ret {A} (a : A) (Q : A -> Prop) : Q a -> keeps (ret a) Q.
Proof. intros H w s. repeat split. intros a' [= <-]. exact H. Qed.

Lemma keeps_throw {A} (e : error) (Q : A -> Prop) : keeps (throw e) Q.
Proof. intros w s. repeat split. discriminate. Qed.

Lemma keeps_hang {A} (Q : A -> Prop) : keeps hang Q.
Proof. intros w s. repeat split. discriminate. Qed.

Lemma keeps_weaken {A} (c : M A) (Q R : A -> Prop) :
  keeps c Q -> (forall a, Q a -> R a) -> keeps c R.
Proof.
  intros H HQR w s. destruct (H w s) as (H1 & H2 & H3).
  repeat split; auto.
Qed.

Lemma keeps_bind {A B} (c : M A) (f : A -> M B) (Q : A -> Prop) (R : B -> Prop) :
  keeps c Q -> (forall a, Q a -> keeps (f a) R) -> keeps (bind c f) R.
Proof.
  intros Hc Hf w s. unfold bind. destruct (Hc w s) as (H1 & H2 & H3).
  destruct (c w s) as [[a|e|] s1]; simpl in *.
  - destruct (Hf a (H3 a eq_refl) w s1) as (G1 & G2 & G3).
    rewrite G1, G2. auto.
  - repeat split; auto. discriminate.
  - repeat split; auto. discriminate.
Qed.

Lemma keeps_try {A} (c : M A) (h : error -> M A) (Q : A -> Prop) :
  keeps c Q -> (forall e, keeps (h e) Q) -> keeps (try_catch c h) Q.
Proof.
  intros Hc Hh w s. unfold try_catch. destruct (Hc w s) as (H1 & H2 & H3).
  destruct (c w s) as [[a|e|] s1]; simpl in *.
  - repeat split; auto.
  - destruct (Hh e w s1) as (G1 & G2 & G3). rewrite G1, G2. auto.
  - repeat split; auto.
Qed.

Lemma keeps_emit (e : event) :
  is_storage_call e = false -> keeps (emit e) (fun _ => True).
Proof.
  intros He w s. unfold emit, storage_trace. simpl.
  rewrite List.filter_app. simpl. rewrite He, app_nil_r. auto.
Qed.

Lemma keeps_ask {A} (q : world -> nat -> A) : keeps (ask q) (fun _ => True).
Proof. intros w s. repeat split. Qed.

Lemma keeps_get_state : keeps get_state (fun _ => True).
Proof. intros w s. repeat split. Qed.

Lemma keeps_put_cache c : keeps (put_cache c) (fun _ => True).
Proof. intros w s. repeat split. Qed.

Lemma keeps_console level tag : keeps (console level tag) (fun _ => True).
Proof. apply keeps_emit. reflexivity. Qed.

Lemma keeps_prop v k : keeps (prop v k) (fun _ => True).
Proof. destruct v; first [apply keeps_ret; exact I | apply keeps_throw]. Qed.

End Frame.

Create HintDb keeps.

(** Walks through a computation built from the monad's operations. *)
Ltac keeps_go :=
  repeat first
    [ solve [auto 3 with keeps]
    | apply keeps_ret
    | apply keeps_throw
    | apply keeps_hang
    | apply keeps_console
    | apply keeps_prop
    | apply keeps_ask
    | apply keeps_get_state
    | apply keeps_put_cache
    | apply keeps_emit; reflexivity
    | eapply keeps_bind with (Q := fun _ => True); [ | intros ? _ ]
    | apply keeps_try; [ | intros ? ]
    | match goal with
      | |- keeps (if ?b then _ else _) _ => destruct b
      | |- keeps (match ?x with _ => _ end) _ => destruct x
      | |- keeps (let (_, _) := ?x in _) _ => destruct x
      end
    | exact I
    | progress cbv beta zeta ].

Section Silent.
Variable L : libs.

Lemma keeps_jwt_verify token k algorithms :
  keeps (jwt_verify L token k algorithms) (fun _ => True).
Proof. unfold jwt_verify, checkValidity, Date_now. keeps_go. Qed.

Lemma keeps_fetchJwks issuerKey cfg :
  keeps (JwksClient.fetchJwks issuerKey cfg) (fun _ => True).
Proof.
  unfold JwksClient.fetchJwks, JwksClient.fetch, json, arrives, Date_now.
  keeps_go.
Qed.

Lemma keeps_findKey kid keys : keeps (JwksClient.findKey kid keys) (fun _ => True).
Proof.
  induction keys as [|k rest IH]; simpl; [keeps_go|].
  eapply keeps_bind with (Q := fun _ => True); [apply keeps_prop|].
  intros kk _. destruct (strict_eq kk kid); [keeps_go | exact IH].
Qed.

#[local] Hint Resolve keeps_jwt_verify keeps_fetchJwks keeps_findKey : keeps.

Lemma keeps_getSigningKey authServers token :
  keeps (JwksClient.getSigningKey L authServers token) (fun _ => True).
Proof.
  unfold JwksClient.getSigningKey, JwksClient.signingKeyFrom, JwksClient.jwkToPem.
  destruct (jwt_decode L token); [|keeps_go].
  destruct (JwksClient.selectServer _ _); [|keeps_go].
  eapply keeps_bind with (Q := fun _ => True); [apply keeps_fetchJwks|].
  intros jw _.
  eapply keeps_bind with (Q := fun _ => True); [apply keeps_prop|].
  intros keys _. destruct keys; keeps_go.
Qed.

#[local] Hint Resolve keeps_getSigningKey : keeps.

Lemma answers_same_route req o : answers o -> same_route req o.
Proof. destruct o; simpl; [contradiction | auto]. Qed.

Lemma answers_refuse code err msg : answers (refuse code err msg).
Proof. exact I. Qed.

Lemma answers_onError e : answers (Auth.onError e).
Proof. unfold Auth.onError. repeat destruct (_ =? _)%string; exact I. Qed.

Lemma answers_onStorageError what e : answers (Routes.onStorageError what e).
Proof.
  unfold Routes.onStorageError.
  repeat first [destruct (_ =? _)%string | destruct (startsWith _ _)
               | destruct (bool_decide _)]; exact I.
Qed.

Lemma same_route_set_user req u : same_route req (Next (set_user u req)).
Proof. split; reflexivity. Qed.

Lemma same_route_set_fileScope req v : same_route req (Next (set_fileScope v req)).
Proof. split; reflexivity. Qed.

Lemma same_route_refl req : same_route req (Next req).
Proof. split; reflexivity. Qed.

#[local] Hint Resolve answers_same_route answers_refuse answers_onError
  answers_onStorageError same_route_set_user same_route_set_fileScope
  same_route_refl : keeps.

Lemma keeps_authenticateJWT publicKey req :
  keeps (Auth.authenticateJWT L publicKey req) (same_route req).
Proof.
  unfold Auth.authenticateJWT. destruct (Auth.badHeader _); [keeps_go|].
  apply keeps_try.
  - eapply keeps_bind with (Q := fun _ => True); [apply keeps_jwt_verify|].
    intros decoded _. destruct (negb _); keeps_go.
  - intros e. keeps_go.
Qed.

Lemma keeps_authenticateJwks authServers req :
  keeps (Auth.authenticateJwks L authServers req) (same_route req).
Proof.
  unfold Auth.authenticateJwks. destruct (Auth.badHeader _); [keeps_go|].
  apply keeps_try.
  - eapply keeps_bind with (Q := fun _ => True); [apply keeps_getSigningKey|].
    intros [k algorithm] _.
    eapply keeps_bind with (Q := fun _ => True); [apply keeps_jwt_verify|].
    intros decoded _. destruct (negb _); keeps_go.
  - intros e. keeps_go.
Qed.

Lemma keeps_resolveAuthMiddleware cfg req :
  keeps (Server.resolveAuthMiddleware L cfg req) (same_route req).
Proof.
  unfold Server.resolveAuthMiddleware.
  destruct (Server.authServers cfg); [apply keeps_authenticateJwks|].
  destruct (Server.nonempty (Server.jwksUrl_ cfg)); [apply keeps_authenticateJwks|].
  destruct (Server.nonempty (Server.jwtPublicKey cfg)) as [k|] eqn:E.
  - unfold Auth.createAuthMiddleware.
    destruct (truthy (VStr k)); simpl; [apply keeps_authenticateJWT | keeps_go].
  - keeps_go.
Qed.

Lemma keeps_callOracle url timeout authHeader body :
  keeps (Authorization.callOracle url timeout authHeader body) (fun _ => True).
Proof. unfold Authorization.callOracle. keeps_go. Qed.

Lemma keeps_interpret req resp :
  keeps (Authorization.interpret req resp) (same_route req).
Proof. unfold Authorization.interpret, Authorization.refuse_with. keeps_go. Qed.

Lemma keeps_unavailable req e :
  keeps (Authorization.unavailable e) (same_route req).
Proof. unfold Authorization.unavailable. keeps_go. Qed.

Lemma keeps_decide req resp :
  keeps (Authorization.decide req resp) (same_route req).
Proof.
  unfold Authorization.decide, arrives. destruct resp as [r|status].
  - eapply keeps_bind with (Q := fun _ => True); [apply keeps_ret; exact I|].
    intros read _. apply keeps_interpret.
  - eapply keeps_bind with (Q := fun _ => True); [apply keeps_hang|].
    intros read _. apply keeps_interpret.
Qed.

Lemma keeps_authorize url timeout req :
  keeps (Authorization.createAuthorizationMiddleware L url timeout req)
        (same_route req).
Proof.
  assert (Hpass : keeps (ret (Next (set_fileScope (VStr "user") req)))
                        (same_route req)) by keeps_go.
  unfold Authorization.createAuthorizationMiddleware.
  destruct url as [u|]; [|exact Hpass].
  destruct (truthy (VStr u)); [|exact Hpass].
  unfold Authorization.authorizeWith. apply keeps_try.
  - destruct (Authorization.actionOf req); [|exact Hpass].
    eapply keeps_bind with (Q := fun _ => True); [apply keeps_callOracle|].
    intros resp _. apply keeps_decide.
  - intros e. apply keeps_unavailable.
Qed.

Lemma keeps_rateLimit class message req :
  keeps (Routes.rateLimit class message req) (same_route req).
Proof. unfold Routes.rateLimit. keeps_go. Qed.

Lemma keeps_userProp req k : keeps (Routes.userProp req k) (fun _ => True).
Proof. unfold Routes.userProp. keeps_go. Qed.

#[local] Hint Resolve keeps_userProp : keeps.

(** A router lets a request through that its route does not handle. *)
Lemma keeps_route_other_verb verb pattern handler req :
  Routes.handles verb (method req) = false ->
  keeps (Routes.route L verb pattern handler req) (same_route req).
Proof.
  intros H. unfold Routes.route. rewrite H. keeps_go.
Qed.

Lemma keeps_healthRouter req :
  keeps (Routes.createHealthRouter L req) (same_route req).
Proof.
  unfold Routes.createHealthRouter, Routes.route, Date_now. keeps_go.
Qed.

(** The two handlers of [/files/:id] answer a malformed id themselves,
    without a storage call. *)
Lemma keeps_deleteHandler_malformed storage req :
  Routes.uuidRegex_test (Routes.fileIdOf req) = false ->
  keeps (Routes.deleteHandler storage req) answers.
Proof.
  intros H. unfold Routes.deleteHandler. rewrite H. cbn [negb].
  apply keeps_try.
  - eapply keeps_bind with (Q := fun _ => True); [apply keeps_userProp|].
    intros userId _.
    eapply keeps_bind with (Q := fun _ => True); [apply keeps_userProp|].
    intros tenantId _. apply keeps_ret. exact I.
  - intros e. eapply keeps_bind with (Q := fun _ => True);
      [apply keeps_console|].
    intros _ _. apply keeps_ret. apply answers_onStorageError.
Qed.

Lemma keeps_downloadHandler_malformed storage req :
  Routes.uuidRegex_test (Routes.fileIdOf req) = false ->
  keeps (Routes.downloadHandler storage req) answers.
Proof.
  intros H. unfold Routes.downloadHandler. rewrite H. cbn [negb].
  apply keeps_try.
  - eapply keeps_bind with (Q := fun _ => True); [apply keeps_userProp|].
    intros userId _.
    eapply keeps_bind with (Q := fun _ => True); [apply keeps_userProp|].
    intros tenantId _. apply keeps_ret. exact I.
  - intros e. eapply keeps_bind with (Q := fun _ => True);
      [apply keeps_console|].
    intros _ _. apply keeps_ret. apply answers_onStorageError.
Qed.

Lemma keeps_route_malformed verb handler req fid :
  method req = verb ->
  route_match L "/files/:id" (path req) = Some (Some fid) ->
  keeps (handler (set_params_id (Some fid) req)) answers ->
  keeps (Routes.route L verb "/files/:id" handler req) answers.
Proof.
  intros Hm Hr Hh. unfold Routes.route, Routes.handles.
  rewrite Hm, String.eqb_refl, Hr. exact Hh.
Qed.

(** One layer of the stack. *)
Lemma keeps_handle_step layer rest req (Q : outcome -> Prop) :
  keeps (layer req) Q ->
  (forall r, Q (Respond r)) ->
  (forall req', Q (Next req') -> keeps (Server.handle rest req') (fun _ => True)) ->
  keeps (Server.handle (layer :: rest) req) (fun _ => True).
Proof.
  intros Hl HQ Hrest. cbn [Server.handle].
  eapply keeps_bind with (Q := Q).
  - apply keeps_try; [exact Hl|]. intros e.
    eapply keeps_bind with (Q := fun _ => True); [apply keeps_console|].
    intros _ _. apply keeps_ret. apply HQ.
  - intros [req'|r] Ho; [apply Hrest; exact Ho | apply keeps_ret; exact I].
Qed.
End Silent.

(** Passes a layer that keeps the route, carrying method and path along. *)
Ltac pass_layer lem Hm Hp :=
  eapply keeps_handle_step with (Q := same_route _);
  [ apply lem
  | intros ?; exact I
  | let r := fresh "req" in
    let Hm' := fresh "Hm" in
    let Hp' := fresh "Hp" in
    intros r [Hm' Hp']; rewrite Hm in Hm'; rewrite Hp in Hp';
    clear Hm Hp; rename Hm' into Hm; rename Hp' into Hp ].

Ltac skip_router Hm Hp :=
  eapply keeps_handle_step with (Q := same_route _);
  [ apply keeps_route_other_verb; rewrite Hm; reflexivity
  | intros ?; exact I
  | let r := fresh "req" in
    let Hm' := fresh "Hm" in
    let Hp' := fresh "Hp" in
    intros r [Hm' Hp']; rewrite Hm in Hm'; rewrite Hp in Hp';
    clear Hm Hp; rename Hm' into Hm; rename Hp' into Hp ].

Section MalformedId.
Variable L : libs.

Lemma deleteHandler_malformed storage req u w s :
  user req = Some u ->
  Routes.uuidRegex_test (Routes.fileIdOf req) = false ->
  run (Routes.deleteHandler storage req) w s
    = (Return (refuse 400 "Bad Request" "Invalid file ID format"), s).
Proof.
  intros Hu Hbad. unfold Routes.deleteHandler, Routes.userProp, run.
  rewrite Hu, Hbad. reflexivity.
Qed.

Lemma downloadHandler_malformed storage req u w s :
  user req = Some u ->
  Routes.uuidRegex_test (Routes.fileIdOf req) = false ->
  run (Routes.downloadHandler storage req) w s
    = (Return (refuse 400 "Bad Request" "Invalid file ID format"), s).
Proof.
  intros Hu Hbad. unfold Routes.downloadHandler, Routes.userProp, run.
  rewrite Hu, Hbad. reflexivity.
Qed.

(** C9 (amended).  For every GET or DELETE request on [/files/:id] whose
    path segment does not match the UUID pattern, whatever the
    configuration and the world: the server makes no storage call and
    leaves the container alone; and the route handler, given the request
    with the identity the authentication layer attached, answers 400
    "Bad Request" and does nothing else.  The test sits in the route
    handlers, behind the authentication, authorization and rate-limit
    layers, which run first and may answer first. *)
Theorem malformed_id_stops_before_storage cfg req fid w s :
  method req = "GET" \/ method req = "DELETE" ->
  route_match L "/files/:id" (path req) = Some (Some fid) ->
  Routes.uuidRegex_test fid = false ->
  let r := run (Server.createFilesServer L cfg req) w s in
  storage_trace (snd r) = storage_trace s
  /\ container (snd r) = container s
  /\ (forall storage q u w' s',
        user q = Some u -> params_id q = Some fid ->
        run (Routes.deleteHandler storage q) w' s'
          = (Return (refuse 400 "Bad Request" "Invalid file ID format"), s')
        /\ run (Routes.downloadHandler storage q) w' s'
           = (Return (refuse 400 "Bad Request" "Invalid file ID format"), s')).
Proof.
  intros Hverb Hroute Hbad r.
  assert (K : keeps (Server.createFilesServer L cfg req) (fun _ => True)).
  { unfold Server.createFilesServer, Server.layers.
    set (p := path req) in *.
    assert (Hp : path req = p) by reflexivity. clearbody p.
    destruct Hverb as [Hm | Hm].
    - pass_layer keeps_healthRouter Hm Hp.
      pass_layer keeps_resolveAuthMiddleware Hm Hp.
      pass_layer keeps_authorize Hm Hp.
      pass_layer keeps_rateLimit Hm Hp.
      skip_router Hm Hp.
      pass_layer keeps_resolveAuthMiddleware Hm Hp.
      pass_layer keeps_authorize Hm Hp.
      pass_layer keeps_rateLimit Hm Hp.
      eapply keeps_handle_step with (Q := answers);
        [ | intros ?; exact I | intros ? []].
      apply keeps_route_malformed with (fid := fid);
        [exact Hm | rewrite Hp; exact Hroute |].
      apply keeps_downloadHandler_malformed. exact Hbad.
    - skip_router Hm Hp.
      pass_layer keeps_resolveAuthMiddleware Hm Hp.
      pass_layer keeps_authorize Hm Hp.
      pass_layer keeps_rateLimit Hm Hp.
      skip_router Hm Hp.
      pass_layer keeps_resolveAuthMiddleware Hm Hp.
      pass_layer keeps_authorize Hm Hp.
      pass_layer keeps_rateLimit Hm Hp.
      skip_router Hm Hp.
      pass_layer keeps_resolveAuthMiddleware Hm Hp.
      pass_layer keeps_rateLimit Hm Hp.
      skip_router Hm Hp.
      pass_layer keeps_resolveAuthMiddleware Hm Hp.
      pass_layer keeps_authorize Hm Hp.
      pass_layer keeps_rateLimit Hm Hp.
      eapply keeps_handle_step with (Q := answers);
        [ | intros ?; exact I | intros ? []].
      apply keeps_route_malformed with (fid := fid);
        [exact Hm | rewrite Hp; exact Hroute |].
      apply keeps_deleteHandler_malformed. exact Hbad. }
  destruct (K w s) as (H1 & H2 & _).
  split; [exact H1 | split; [exact H2 |]].
  intros storage q u w' s' Hu Hq.
  assert (Hq' : Routes.uuidRegex_test (Routes.fileIdOf q) = false)
    by (unfold Routes.fileIdOf; rewrite Hq; exact Hbad).
  split; [eapply deleteHandler_malformed | eapply downloadHandler_malformed];
    eassumption.
Qed.
End MalformedId.

Lemma malformed_id_stops_before_storage_witness :
  (method (requestOf "DELETE" "/files/not-a-uuid" (Some "Bearer t256")) = "GET"
   \/ method (requestOf "DELETE" "/files/not-a-uuid" (Some "Bearer t256")) = "DELETE")
  /\ route_match (demoLibs issuedTokens) "/files/:id"
       (path (requestOf "DELETE" "/files/not-a-uuid" (Some "Bearer t256")))
     = Some (Some "not-a-uuid")
  /\ Routes.uuidRegex_test "not-a-uuid" = false
  /\ storage_trace
       (snd (run (Server.createFilesServer (demoLibs issuedTokens) gatewayConfig
                    (requestOf "DELETE" "/files/not-a-uuid" (Some "Bearer t256")))
                 gatewayWorld fresh_state))
     = storage_trace fresh_state.
Proof.
  assert (h1 : method (requestOf "DELETE" "/files/not-a-uuid" (Some "Bearer t256"))
               = "GET"
               \/ method (requestOf "DELETE" "/files/not-a-uuid" (Some "Bearer t256"))
                  = "DELETE") by (right; reflexivity).
  assert (h2 : route_match (demoLibs issuedTokens) "/files/:id"
                 (path (requestOf "DELETE" "/files/not-a-uuid" (Some "Bearer t256")))
               = Some (Some "not-a-uuid")) by (vm_compute; reflexivity).
  assert (h3 : Routes.uuidRegex_test "not-a-uuid" = false) by (vm_compute; reflexivity).
  split; [exact h1 | split; [exact h2 | split; [exact h3 |]]].
  exact (proj1 (malformed_id_stops_before_storage (demoLibs issuedTokens)
                  gatewayConfig
                  (requestOf "DELETE" "/files/not-a-uuid" (Some "Bearer t256"))
                  "not-a-uuid" gatewayWorld fresh_state h1 h2 h3)).
Defined.

(** Against C9 as stated: a DELETE on [/files/not-a-uuid] with a valid
    bearer token is answered 400 only after the key resolver fetched the key set and the oracle was
    called; without a token it is answered 401, not 400. *)
Lemma malformed_id_reaches_resolver_and_gate :
  let r := run (Server.createFilesServer (demoLibs issuedTokens) gatewayConfig
                  (requestOf "DELETE" "/files/not-a-uuid" (Some "Bearer t256")))
               gatewayWorld fresh_state in
  let r' := run (Server.createFilesServer (demoLibs issuedTokens) gatewayConfig
                   (requestOf "DELETE" "/files/not-a-uuid" None))
                gatewayWorld fresh_state in
  Routes.uuidRegex_test "not-a-uuid" = false
  /\ reply_status r = Some 400
  /\ existsb is_jwks_fetch (log (snd r)) = true
  /\ existsb is_oracle_call (log (snd r)) = true
  /\ ~ rejectedUpFront r
  /\ reply_status r' = Some 401
  /\ ~ rejectedUpFront r'.
Proof.
  cbv zeta.
  repeat split; try (vm_compute; reflexivity).
  - intros (_ & H & _). vm_compute in H. discriminate.
  - intros (H & _). vm_compute in H. discriminate.
Qed.

(** * Further properties *)

(** ** Rules for [ends] and [preserves] *)

Section Ends.

Lemma ends_ret {A} (a : A) (Q : A -> Prop) E H : Q a -> ends (ret a) Q E H.
Proof. intros Ha w s. exact Ha. Qed.

Lemma ends_throw {A} (e : error) (Q : A -> Prop) (E : error -> Prop) H :
  E e -> ends (throw e) Q E H.
Proof. intros He w s. exact He. Qed.

Lemma ends_bind {A B} (c : M A) (f : A -> M B) (Q : A -> Prop) (R : B -> Prop)
      (E : error -> Prop) H :
  ends c Q E H -> (forall a, Q a -> ends (f a) R E H) -> ends (bind c f) R E H.
Proof.
  intros Hc Hf w s. unfold bind. specialize (Hc w s).
  destruct (c w s) as [[a|e|] s1]; simpl in *; [apply Hf; exact Hc | exact Hc | exact Hc].
Qed.

Lemma ends_try {A} (c : M A) (h : error -> M A) (Q : A -> Prop)
      (E' E : error -> Prop) H :
  ends c Q E' H -> (forall e, E' e -> ends (h e) Q E H) ->
  ends (try_catch c h) Q E H.
Proof.
  intros Hc Hh w s. unfold try_catch. specialize (Hc w s).
  destruct (c w s) as [[a|e|] s1]; simpl in *; [exact Hc | apply Hh; exact Hc | exact Hc].
Qed.

Lemma ends_weaken {A} (c : M A) (Q Q' : A -> Prop) (E E' : error -> Prop)
      (H H' : world -> Prop) :
  ends c Q E H -> (forall a, Q a -> Q' a) -> (forall e, E e -> E' e) ->
  (forall w, H w -> H' w) -> ends c Q' E' H'.
Proof.
  intros Hc HQ HE HH w s. specialize (Hc w s).
  destruct (fst (c w s)); auto.
Qed.

Lemma ends_emit e E H : ends (emit e) (fun _ => True) E H.
Proof. intros w s. exact I. Qed.

Lemma ends_ask {A} (q : world -> nat -> A) E H : ends (ask q) (fun _ => True) E H.
Proof. intros w s. exact I. Qed.

Lemma ends_get_state E H : ends get_state (fun _ => True) E H.
Proof. intros w s. exact I. Qed.

Lemma ends_put_cache c E H : ends (put_cache c) (fun _ => True) E H.
Proof. intros w s. exact I. Qed.

Lemma ends_put_container c E H : ends (put_container c) (fun _ => True) E H.
Proof. intros w s. exact I. Qed.

Lemma ends_console l t E H : ends (console l t) (fun _ => True) E H.
Proof. intros w s. exact I. Qed.

Lemma ends_prop v k H : ends (prop v k) (fun _ => True) (fun _ => True) H.
Proof. intros w s. destruct v; exact I. Qed.

Lemma ends_hang {A} (Q : A -> Prop) E (H : world -> Prop) :
  (forall w, H w) -> ends hang Q E H.
Proof. intros HH w s. apply HH. Qed.

Lemma preserves_ret {B A} (obs : state -> B) (a : A) : preserves obs (ret a).
Proof. intros w s. reflexivity. Qed.

Lemma preserves_throw {B A} (obs : state -> B) (e : error) :
  preserves obs (@throw A e).
Proof. intros w s. reflexivity. Qed.

Lemma preserves_hang {B A} (obs : state -> B) : preserves obs (@hang A).
Proof. intros w s. reflexivity. Qed.

Lemma preserves_bind {B A A'} (obs : state -> B) (c : M A) (f : A -> M A') :
  preserves obs c -> (forall a, preserves obs (f a)) -> preserves obs (bind c f).
Proof.
  intros Hc Hf w s. unfold bind. specialize (Hc w s).
  destruct (c w s) as [[a|e|] s1]; simpl in *; [|exact Hc|exact Hc].
  rewrite (Hf a w s1). exact Hc.
Qed.

Lemma preserves_try {B A} (obs : state -> B) (c : M A) (h : error -> M A) :
  preserves obs c -> (forall e, preserves obs (h e)) ->
  preserves obs (try_catch c h).
Proof.
  intros Hc Hh w s. unfold try_catch. specialize (Hc w s).
  destruct (c w s) as [[a|e|] s1]; simpl in *; [exact Hc| |exact Hc].
  rewrite (Hh e w s1). exact Hc.
Qed.

Lemma preserves_get_state {B} (obs : state -> B) : preserves obs get_state.
Proof. intros w s. reflexivity. Qed.

Lemma preserves_prop {B} (obs : state -> B) v k : preserves obs (prop v k).
Proof. destruct v; first [apply preserves_ret | apply preserves_throw]. Qed.

(** The log of one kind of events. *)
Lemma logged_emit P e : P e = false -> preserves (logged P) (emit e).
Proof.
  intros He w s. unfold emit, logged. simpl. rewrite List.filter_app. simpl.
  rewrite He. apply app_nil_r.
Qed.

Lemma logged_ask P {A} (q : world -> nat -> A) : preserves (logged P) (ask q).
Proof. intros w s. reflexivity. Qed.

Lemma logged_put_cache P c : preserves (logged P) (put_cache c).
Proof. intros w s. reflexivity. Qed.

Lemma logged_put_container P c : preserves (logged P) (put_container c).
Proof. intros w s. reflexivity. Qed.

(** The key cache. *)
Lemma cache_emit e : preserves cache (emit e).
Proof. intros w s. reflexivity. Qed.

Lemma cache_ask {A} (q : world -> nat -> A) : preserves cache (ask q).
Proof. intros w s. reflexivity. Qed.

Lemma cache_put_container c : preserves cache (put_container c).
Proof. intros w s. reflexivity. Qed.

End Ends.

(** Walks through a computation for [preserves]. *)
Ltac preserves_go :=
  repeat first
    [ apply preserves_ret
    | apply preserves_throw
    | apply preserves_hang
    | apply preserves_prop
    | apply preserves_get_state
    | apply logged_ask
    | apply logged_put_cache
    | apply logged_put_container
    | apply logged_emit; reflexivity
    | apply cache_emit
    | apply cache_ask
    | apply cache_put_container
    | apply preserves_bind; [ | intros ? ]
    | apply preserves_try; [ | intros ? ]
    | match goal with
      | |- preserves _ (if ?b then _ else _) => destruct b
      | |- preserves _ (match ?x with _ => _ end) => destruct x
      | |- preserves _ (let (_, _) := ?x in _) => destruct x
      end
    | progress cbv beta zeta ].

(** Walks through a computation for [ends], leaving the conditions on
    returned values. *)
Ltac ends_go :=
  repeat match goal with
    | |- True => exact I
    | |- ends (throw _) _ _ _ => apply ends_throw; exact I
    | |- ends hang _ _ _ => apply ends_hang; intros ?; exact I
    | |- ends (prop _ _) _ _ _ => apply ends_prop
    | |- ends (ask _) _ _ _ => apply ends_ask
    | |- ends get_state _ _ _ => apply ends_get_state
    | |- ends (put_cache _) _ _ _ => apply ends_put_cache
    | |- ends (put_container _) _ _ _ => apply ends_put_container
    | |- ends (emit _) _ _ _ => apply ends_emit
    | |- ends (console _ _) _ _ _ => apply ends_console
    | |- ends (bind _ _) _ _ _ =>
        eapply ends_bind with (Q := fun _ => True); [ | intros ? _ ]
    | |- ends (ret _) _ _ _ => apply ends_ret
    | |- ends (if ?b then _ else _) _ _ _ => destruct b
    | |- ends (match ?x with _ => _ end) _ _ _ => destruct x
    | |- ends _ _ _ _ => progress cbv beta zeta
    end.

(** ** File names and file ids *)

Section Names.
Import AzureStorageClient Routes.

Lemma sapp_nil (b : string) : "" ++ b = b.
Proof. reflexivity. Qed.

Lemma sapp_cons (c : ascii) (a b : string) : String c a ++ b = String c (a ++ b).
Proof. reflexivity. Qed.

Lemma string_app_nil_r (a : string) : a ++ "" = a.
Proof.
  induction a as [|c a IH]; [reflexivity | now rewrite sapp_cons, IH].
Qed.

Lemma string_app_assoc (a b c : string) : (a ++ b) ++ c = a ++ (b ++ c).
Proof.
  induction a as [|x a IH]; [reflexivity | now rewrite !sapp_cons, IH].
Qed.

Lemma string_length_app (a b : string) :
  String.length (a ++ b) = (String.length a + String.length b)%nat.
Proof.
  induction a as [|c a IH]; [reflexivity|].
  rewrite sapp_cons. cbn [String.length]. now rewrite IH.
Qed.

Lemma dotless_app a b : dotless (a ++ b) = dotless a && dotless b.
Proof.
  unfold dotless. induction a as [|c a IH]; [reflexivity|].
  rewrite sapp_cons. cbn [list_ascii_of_string forallb].
  rewrite IH. now rewrite andb_assoc.
Qed.

Lemma lastSegment_dotless acc s :
  dotless s = true -> lastSegment acc s = acc ++ s.
Proof.
  revert acc. induction s as [|c s IH]; intros acc H; cbn [lastSegment].
  - now rewrite string_app_nil_r.
  - unfold dotless in H. cbn [list_ascii_of_string forallb] in H.
    apply andb_true_iff in H as [Hc Hs].
    apply negb_true_iff in Hc. rewrite Hc. rewrite (IH _ Hs).
    now rewrite string_app_assoc.
Qed.

Lemma lastSegment_after_dot acc base e :
  lastSegment acc (base ++ "." ++ e) = lastSegment "" e.
Proof.
  revert acc. induction base as [|c base IH]; intros acc.
  - reflexivity.
  - rewrite sapp_cons. cbn [lastSegment]. destruct (Ascii.eqb c "."); apply IH.
Qed.

Lemma lastSegment_is_dotless acc s :
  dotless acc = true -> dotless (lastSegment acc s) = true.
Proof.
  revert acc. induction s as [|c s IH]; intros acc H; cbn [lastSegment];
    [exact H|].
  destruct (Ascii.eqb c ".") eqn:E.
  - apply IH. reflexivity.
  - apply IH. rewrite dotless_app, H. unfold dotless.
    cbn [list_ascii_of_string forallb]. now rewrite E.
Qed.

(** X1.  The extension [uploadFile] takes from a file name is what follows
    its last dot: for a dot-free [e], the extension of [base.e] is [e]
    whatever dots [base] has, and a name without a dot is its own
    extension; the extension never contains a dot. *)
Theorem extensionOf_last_segment (base e : string) :
  dotless e = true ->
  extensionOf (base ++ "." ++ e) = e
  /\ extensionOf e = e
  /\ (forall s, dotless (extensionOf s) = true).
Proof.
  intros H. unfold extensionOf. split; [|split].
  - rewrite lastSegment_after_dot. now rewrite lastSegment_dotless.
  - now rewrite lastSegment_dotless.
  - intros s. now apply lastSegment_is_dotless.
Qed.

Lemma extensionOf_last_segment_witness :
  dotless "gz" = true /\ extensionOf ("backup.tar" ++ "." ++ "gz") = "gz".
Proof.
  assert (h : dotless "gz" = true) by reflexivity.
  split; [exact h | exact (proj1 (extensionOf_last_segment "backup.tar" "gz" h))].
Defined.

Lemma hexRun_iff n s r :
  hexRun n s = Some r <->
  exists h, String.length h = n /\ allHex h = true /\ s = h ++ r.
Proof.
  revert s. induction n as [|n IH]; intros s; cbn [hexRun].
  - split.
    + intros [= <-]. exists "". repeat split.
    + intros (h & Hl & _ & ->). destruct h; [reflexivity | discriminate].
  - destruct s as [|c s].
    + split; [discriminate|]. intros (h & Hl & _ & Hs).
      destruct h; discriminate.
    + destruct (isHex c) eqn:Hc.
      * rewrite IH. split.
        -- intros (h & Hl & Hh & ->). exists (String c h).
           unfold allHex in *. cbn [String.length list_ascii_of_string forallb].
           rewrite Hc, Hh, Hl. repeat split.
        -- intros (h & Hl & Hh & Hs). destruct h as [|c' h]; [discriminate|].
           rewrite sapp_cons in Hs. injection Hs as <- ->. exists h.
           unfold allHex in *. cbn [list_ascii_of_string forallb] in Hh.
           apply andb_true_iff in Hh as [_ Hh].
           cbn [String.length] in Hl. repeat split; [lia | exact Hh].
      * split; [discriminate|]. intros (h & Hl & Hh & Hs).
        destruct h as [|c' h]; [discriminate|]. rewrite sapp_cons in Hs.
        injection Hs as <- ->. unfold allHex in Hh.
        cbn [list_ascii_of_string forallb] in Hh.
        rewrite Hc in Hh. discriminate.
Qed.

Lemma dash_iff s r : dash s = Some r <-> s = "-" ++ r.
Proof.
  unfold dash. destruct s as [|c s].
  - split; discriminate.
  - change ("-" ++ r) with (String "-" r).
    destruct (Ascii.eqb_spec c "-") as [->|Hne].
    + split; [intros [= ->]; reflexivity | intros [= ->]; reflexivity].
    + split; [discriminate | intros [= -> _]; contradiction].
Qed.

(** X2.  The file-id test of the download and delete handlers accepts
    exactly the strings made of five runs of 8, 4, 4, 4 and 12 hexadecimal
    digits (either case) joined by single hyphens; so an accepted id is 36
    characters long. *)
Theorem uuidRegex_test_shape (s : string) :
  (uuidRegex_test s = true <->
   exists a b c d e,
     (String.length a = 8 /\ String.length b = 4 /\ String.length c = 4
      /\ String.length d = 4 /\ String.length e = 12)%nat
     /\ (allHex a && allHex b && allHex c && allHex d && allHex e = true)
     /\ s = a ++ "-" ++ b ++ "-" ++ c ++ "-" ++ d ++ "-" ++ e)
  /\ (uuidRegex_test s = true -> String.length s = 36%nat).
Proof.
  assert (Hiff : uuidRegex_test s = true <->
   exists a b c d e,
     (String.length a = 8 /\ String.length b = 4 /\ String.length c = 4
      /\ String.length d = 4 /\ String.length e = 12)%nat
     /\ (allHex a && allHex b && allHex c && allHex d && allHex e = true)
     /\ s = a ++ "-" ++ b ++ "-" ++ c ++ "-" ++ d ++ "-" ++ e).
  { unfold uuidRegex_test. cbn [fold_left]. split.
    - destruct (hexRun 8 s) as [r1|] eqn:E1; [|discriminate].
      destruct (dash r1) as [r2|] eqn:E2; [|discriminate].
      destruct (hexRun 4 r2) as [r3|] eqn:E3; [|discriminate].
      destruct (dash r3) as [r4|] eqn:E4; [|discriminate].
      destruct (hexRun 4 r4) as [r5|] eqn:E5; [|discriminate].
      destruct (dash r5) as [r6|] eqn:E6; [|discriminate].
      destruct (hexRun 4 r6) as [r7|] eqn:E7; [|discriminate].
      destruct (dash r7) as [r8|] eqn:E8; [|discriminate].
      destruct (hexRun 12 r8) as [r9|] eqn:E9; [|discriminate].
      destruct r9; [|discriminate]. intros _.
      apply hexRun_iff in E1 as (a & La & Ha & ->).
      apply dash_iff in E2 as ->.
      apply hexRun_iff in E3 as (b & Lb & Hb & ->).
      apply dash_iff in E4 as ->.
      apply hexRun_iff in E5 as (c & Lc & Hc & ->).
      apply dash_iff in E6 as ->.
      apply hexRun_iff in E7 as (d & Ld & Hd & ->).
      apply dash_iff in E8 as ->.
      apply hexRun_iff in E9 as (e & Le & He & ->).
      exists a, b, c, d, e. rewrite Ha, Hb, Hc, Hd, He.
      rewrite (string_app_nil_r e). repeat split; assumption.
    - intros (a & b & c & d & e & (La & Lb & Lc & Ld & Le) & Hh & ->).
      repeat (apply andb_true_iff in Hh as [Hh ?]).
      rewrite (proj2 (hexRun_iff 8 _ _)) by (exists a; auto).
      rewrite (proj2 (dash_iff _ _)) by reflexivity.
      rewrite (proj2 (hexRun_iff 4 _ _)) by (exists b; auto).
      rewrite (proj2 (dash_iff _ _)) by reflexivity.
      rewrite (proj2 (hexRun_iff 4 _ _)) by (exists c; auto).
      rewrite (proj2 (dash_iff _ _)) by reflexivity.
      rewrite (proj2 (hexRun_iff 4 _ _)) by (exists d; auto).
      rewrite (proj2 (dash_iff _ _)) by reflexivity.
      rewrite (proj2 (hexRun_iff 12 e "")) by (exists e; rewrite string_app_nil_r; auto).
      reflexivity. }
  split; [exact Hiff|].
  intros Ht. apply Hiff in Ht as (a & b & c & d & e & (La & Lb & Lc & Ld & Le) & _ & ->).
  rewrite !string_length_app, La, Lb, Lc, Ld, Le. reflexivity.
Qed.
End Names.

(** ** The storage client *)

Section Storage.
Import AzureStorageClient.

Abbreviation under pfx cs :=
  (filter (fun x => startsWith (blob_name x) pfx = true) cs).

Lemma prefix_app (p x : string) : String.prefix p (p ++ x) = true.
Proof.
  induction p as [|c p IH]; [destruct x; reflexivity|].
  rewrite sapp_cons. cbn [String.prefix].
  destruct (ascii_dec c c); [exact IH | contradiction].
Qed.

Lemma find_app_none {A} (f : A -> bool) (l1 l2 : list A) :
  List.find f l1 = None -> List.find f (l1 ++ l2) = List.find f l2.
Proof.
  induction l1 as [|a l1 IH]; simpl; [reflexivity|].
  destruct (f a); [discriminate | exact IH].
Qed.

Lemma find_all_false {A} (f : A -> bool) (l : list A) :
  (forall x, In x l -> f x = false) -> List.find f l = None.
Proof.
  induction l as [|a l IH]; simpl; intros H; [reflexivity|].
  rewrite (H a (or_introl eq_refl)). apply IH. intros x Hx. apply H. now right.
Qed.

(** An upload with a user id and a scope that are strings and a tenant id
    that is a string or absent ([tenantId || ''] is a string). *)
Lemma uploadFile_run this tenantId ts u sz name ct sc w s :
  isConfigured this = true -> containerClient this = true ->
  or tenantId (VStr "") = VStr ts ->
  run (uploadFile this tenantId (VStr u) sz name ct (VStr sc)) w s =
    let fileId := uuidv4 w (asked s) in
    let blobName := scopePrefix (VStr sc) tenantId (VStr u) ++ fileId ++ "."
                      ++ extensionOf name in
    let metadata : gmap string string :=
      <["tenant_id" := ts]>
      (<["user_id" := u]>
      (<["original_filename" := name]>
      (<["content_type" := ct]>
      (<["uploaded_at" := pretty (clock w (S (asked s)))]>
      (<["file_id" := fileId]>
      (<["scope" := sc]> ∅)))))) in
    (Return (MkFileMetadata fileId blobName tenantId (VStr u) name ct sz
               (clock w (S (S (asked s))))),
     MkState (cache s)
       (container s ++ [MkBlob blobName (Some metadata) sz])
       (S (S (S (asked s))))
       (log s ++ [EvUpload blobName metadata])).
Proof.
  intros Hc Hi Ht. unfold uploadFile, ready. rewrite Hc, Hi, Ht. reflexivity.
Qed.

(** X3.  Without a connection string every storage operation throws the
    "Storage not configured" error carrying status 503 before anything is
    asked of the container; the upload, download and delete handlers answer
    it 503, the list handler answers it 500. *)
Theorem storage_not_configured this w s :
  isConfigured this = false ->
  let e := MkError "Error" "Storage not configured" (Some 503) in
  (forall tenantId userId sz name ct scope,
      run (uploadFile this tenantId userId sz name ct scope) w s = (Throw e, s))
  /\ (forall fileId tenantId userId scope,
        run (downloadFile this fileId tenantId userId scope) w s = (Throw e, s)
        /\ run (deleteFile this fileId tenantId userId scope) w s = (Throw e, s))
  /\ (forall tenantId userId scope,
        run (listFiles this tenantId userId scope) w s = (Throw e, s))
  /\ (forall req u,
        user req = Some u ->
        Routes.uuidRegex_test (Routes.fileIdOf req) = true ->
        replied (run (Routes.deleteHandler this req) w s)
          = Some (Json 503 {[ "error" := VStr "Service Unavailable";
                              "message" := VStr "Storage not configured" ]})
        /\ replied (run (Routes.downloadHandler this req) w s)
           = Some (Json 503 {[ "error" := VStr "Service Unavailable";
                               "message" := VStr "Storage not configured" ]}))
  /\ (forall req u f,
        user req = Some u -> file req = Some f ->
        replied (run (Routes.uploadHandler this req) w s)
          = Some (Json 503 {[ "error" := VStr "Service Unavailable";
                              "message" := VStr "Storage not configured" ]}))
  /\ (forall req u,
        user req = Some u ->
        replied (run (Routes.listHandler this req) w s)
          = Some (Json 500 {[ "error" := VStr "Internal Server Error";
                              "message" := VStr "Failed to list files" ]})).
Proof.
  intros Hc e. subst e.
  assert (Hup : forall tenantId userId sz name ct scope,
             uploadFile this tenantId userId sz name ct scope w s
             = (Throw (MkError "Error" "Storage not configured" (Some 503)), s))
    by (intros; unfold uploadFile, ready; rewrite Hc; reflexivity).
  assert (Hdl : forall fileId tenantId userId scope,
             downloadFile this fileId tenantId userId scope w s
             = (Throw (MkError "Error" "Storage not configured" (Some 503)), s))
    by (intros; unfold downloadFile, ready; rewrite Hc; reflexivity).
  assert (Hde : forall fileId tenantId userId scope,
             deleteFile this fileId tenantId userId scope w s
             = (Throw (MkError "Error" "Storage not configured" (Some 503)), s))
    by (intros; unfold deleteFile, ready; rewrite Hc; reflexivity).
  assert (Hls : forall tenantId userId scope,
             listFiles this tenantId userId scope w s
             = (Throw (MkError "Error" "Storage not configured" (Some 503)), s))
    by (intros; unfold listFiles, ready; rewrite Hc; reflexivity).
  unfold run.
  split; [exact Hup|]. split; [intros; split; [apply Hdl | apply Hde]|].
  split; [exact Hls|]. split; [|split].
  - intros req u Hu Hid. unfold replied, Routes.deleteHandler,
      Routes.downloadHandler, Routes.userProp, try_catch.
    rewrite Hu, Hid. cbn [negb]. unfold bind, ret. cbv beta iota.
    rewrite Hde, Hdl. split; reflexivity.
  - intros req u f Hu Hf. unfold replied, Routes.uploadHandler, Routes.userProp,
      try_catch. rewrite Hu, Hf. unfold bind, ret. cbv beta iota.
    rewrite Hup. reflexivity.
  - intros req u Hu. unfold replied, Routes.listHandler, Routes.userProp,
      try_catch. rewrite Hu. unfold bind, ret. cbv beta iota.
    rewrite Hls. reflexivity.
Qed.

Lemma listed_In pfx (cs : list blob) b :
  In b (under pfx cs) -> In b cs /\ startsWith (blob_name b) pfx = true.
Proof.
  rewrite <- !list_elem_of_In. rewrite list_elem_of_filter. tauto.
Qed.

Lemma notOwner_false_owner scope userId b :
  notOwner scope userId b = false ->
  scope = VStr "user" -> meta b "user_id" = userId.
Proof.
  intros Hn ->. unfold notOwner in Hn. rewrite strict_eq_refl_str in Hn.
  cbn [andb] in Hn. apply negb_false_iff in Hn.
  unfold meta in *. destruct (blob_metadata b) as [m|].
  - destruct (m !! "user_id") as [o|]; simpl in *.
    + destruct userId; try discriminate. apply String.eqb_eq in Hn. now subst.
    + destruct userId; try discriminate. reflexivity.
  - destruct userId; try discriminate. reflexivity.
Qed.

Lemma deleteFile_returns this fileId tenantId userId scope w s s' :
  isConfigured this = true -> containerClient this = true ->
  run (deleteFile this fileId tenantId userId scope) w s = (Return tt, s') ->
  exists b,
    In b (container s)
    /\ startsWith (blob_name b) (scopePrefix scope tenantId userId) = true
    /\ hasFileId fileId b = true
    /\ (scope = VStr "user" -> meta b "user_id" = userId)
    /\ container s' = filter (fun x => blob_name x ≠ blob_name b) (container s).
Proof.
  intros Hc Hi. rewrite (deleteFile_run _ _ _ _ _ w s Hc Hi). cbv zeta.
  destruct (List.find _ _) as [b0|] eqn:Hf; [|discriminate].
  destruct (notOwner scope userId b0) eqn:Hn; [discriminate|].
  intros [= <-]. apply List.find_some in Hf as [Hin Hid].
  apply listed_In in Hin as [Hin Hp]. exists b0. cbn [container].
  repeat split; auto. now apply notOwner_false_owner.
Qed.

(** X4.  What a lookup hands out: a blob that [downloadFile] returns, or
    [deleteFile] removes, is in the container under the prefix of the
    request, carries the requested file id and, under scope "user", has the
    requesting user as its stored owner.  [downloadFile] leaves the
    container as it was; [deleteFile] removes the blobs of that name and no
    other. *)
Theorem lookup_respects_owner this fileId tenantId userId scope w s :
  isConfigured this = true -> containerClient this = true ->
  (forall b s',
      run (downloadFile this fileId tenantId userId scope) w s = (Return b, s') ->
      In b (container s)
      /\ startsWith (blob_name b) (scopePrefix scope tenantId userId) = true
      /\ hasFileId fileId b = true
      /\ (scope = VStr "user" -> meta b "user_id" = userId)
      /\ container s' = container s)
  /\ (forall s',
        run (deleteFile this fileId tenantId userId scope) w s = (Return tt, s') ->
        exists b,
          In b (container s)
          /\ startsWith (blob_name b) (scopePrefix scope tenantId userId) = true
          /\ hasFileId fileId b = true
          /\ (scope = VStr "user" -> meta b "user_id" = userId)
          /\ container s' = filter (fun x => blob_name x ≠ blob_name b) (container s)).
Proof.
  intros Hc Hi. split.
  - intros b s'. rewrite (downloadFile_run _ _ _ _ _ w s Hc Hi). cbv zeta.
    destruct (List.find _ _) as [b0|] eqn:Hf; [|discriminate].
    destruct (notOwner scope userId b0) eqn:Hn; [discriminate|].
    intros [= <- <-]. apply List.find_some in Hf as [Hin Hid].
    apply listed_In in Hin as [Hin Hp]. cbn [container].
    repeat split; auto. now apply notOwner_false_owner.
  - intros s' Hdel. now apply (deleteFile_returns this fileId tenantId userId scope w s s').
Qed.

Lemma under_app pfx (l1 l2 : list blob) :
  under pfx (l1 ++ l2)%list = (under pfx l1 ++ under pfx l2)%list.
Proof. apply filter_app. Qed.

(** X5.  Upload then download: on a ready client, for a user id and a
    scope that are strings, a tenant id that is a string or absent (so
    that [tenantId || ''] is a string) and a fresh file id (no blob of the
    container carries the id the upload draws), the file id [uploadFile]
    returns lets the same user download, under the same tenant and scope,
    the blob just stored, with its name, size, file name and content
    type. *)
Theorem upload_then_download this tenantId ts u sz name ct sc w s :
  isConfigured this = true -> containerClient this = true ->
  or tenantId (VStr "") = VStr ts ->
  (forall x, In x (container s) -> hasFileId (uuidv4 w (asked s)) x = false) ->
  exists fm s1,
    run (uploadFile this tenantId (VStr u) sz name ct (VStr sc)) w s
      = (Return fm, s1)
    /\ forall w',
         exists b s2,
           run (downloadFile this (fm_fileId fm) tenantId (VStr u) (VStr sc)) w' s1
             = (Return b, s2)
           /\ blob_name b = fm_blobName fm
           /\ blob_contentLength b = sz
           /\ meta b "original_filename" = VStr name
           /\ meta b "content_type" = VStr ct.
Proof.
  intros Hc Hi Ht Hfresh.
  rewrite (uploadFile_run this tenantId ts u sz name ct sc w s Hc Hi Ht).
  cbv zeta. eexists _, _. split; [reflexivity|].
  intros w'. cbn [fm_fileId fm_blobName].
  rewrite (downloadFile_run _ _ _ _ _ w' _ Hc Hi). cbv zeta. cbn [container].
  set (fid := uuidv4 w (asked s)) in *.
  set (pfx := scopePrefix (VStr sc) tenantId (VStr u)).
  set (nb := MkBlob _ _ sz).
  assert (Hnb : hasFileId fid nb = true).
  { unfold hasFileId, nb. cbn [blob_metadata]. apply bool_decide_eq_true.
    repeat (rewrite lookup_insert_ne by discriminate).
    apply lookup_insert_eq. }
  assert (Hfind : List.find (hasFileId fid) (under pfx (container s ++ [nb])%list)
                  = Some nb).
  { assert (Hpre : startsWith (blob_name nb) pfx = true)
      by (unfold nb, startsWith; cbn [blob_name]; apply prefix_app).
    rewrite under_app. rewrite find_app_none.
    - rewrite filter_cons, filter_nil.
      destruct (decide (startsWith (blob_name nb) pfx = true)); [|contradiction].
      cbn [List.find]. now rewrite Hnb.
    - apply find_all_false. intros x Hx. apply listed_In in Hx as [Hx _].
      now apply Hfresh. }
  rewrite Hfind.
  assert (Hown : notOwner (VStr sc) (VStr u) nb = false).
  { unfold notOwner, meta, nb. cbn [blob_metadata].
    rewrite lookup_insert_ne by discriminate. rewrite lookup_insert_eq.
    cbn [from_option]. rewrite strict_eq_refl_str.
    apply andb_false_r. }
  rewrite Hown. eexists _, _. split; [reflexivity|].
  unfold meta, nb. cbn [blob_name blob_contentLength blob_metadata].
  repeat split.
Qed.

(** X6.  Delete then download: once [deleteFile] has succeeded for a file
    id whose carriers in the container all bear one name, a download of the
    same id under the same prefix is "File not found"; the delete adds no
    blob, and a blob whose name no carrier of the id bears is still there. *)
Theorem delete_then_download this fileId tenantId userId scope w s s1 :
  isConfigured this = true -> containerClient this = true ->
  (forall x y, In x (container s) -> In y (container s) ->
               hasFileId fileId x = true -> hasFileId fileId y = true ->
               blob_name x = blob_name y) ->
  run (deleteFile this fileId tenantId userId scope) w s = (Return tt, s1) ->
  (forall w', fst (run (downloadFile this fileId tenantId userId scope) w' s1)
              = Throw (Error "File not found"))
  /\ (forall x, In x (container s1) -> In x (container s))
  /\ (forall x, In x (container s) ->
                (forall y, In y (container s) -> hasFileId fileId y = true ->
                           blob_name y <> blob_name x) ->
                In x (container s1)).
Proof.
  intros Hc Hi Huniq Hdel.
  destruct (deleteFile_returns this fileId tenantId userId scope w s s1 Hc Hi Hdel)
    as (b & Hin & Hp & Hid & _ & Hcont).
  split; [|split].
  - intros w'. rewrite (downloadFile_run _ _ _ _ _ w' s1 Hc Hi). cbv zeta.
    rewrite find_all_false; [reflexivity|].
    intros x Hx. apply listed_In in Hx as [Hx _]. rewrite Hcont in Hx.
    apply list_elem_of_In, list_elem_of_filter in Hx as [Hne Hx].
    apply list_elem_of_In in Hx.
    destruct (hasFileId fileId x) eqn:E; [|reflexivity].
    exfalso. apply Hne. now apply Huniq.
  - intros x Hx. rewrite Hcont in Hx.
    apply list_elem_of_In, list_elem_of_filter in Hx as [_ Hx].
    now apply list_elem_of_In.
  - intros x Hx Hother. rewrite Hcont. apply list_elem_of_In, list_elem_of_filter.
    split; [|now apply list_elem_of_In].
    intros Heq. now apply (Hother b Hin Hid).
Qed.
Lemma listFiles_run this tenantId userId scope w s :
  isConfigured this = true -> containerClient this = true ->
  exists files,
    run (listFiles this tenantId userId scope) w s
    = (Return files,
       MkState (cache s) (container s) (asked s)
         (log s ++ [EvListBlobs (scopePrefix scope tenantId userId)]))
    /\ forall f,
         In f files
         <-> exists b m,
               In b (container s)
               /\ startsWith (blob_name b) (scopePrefix scope tenantId userId) = true
               /\ blob_metadata b = Some m
               /\ f = VObj (<["fileId" := meta b "file_id"]>
                           (<["fileName" := meta b "original_filename"]>
                           (<["contentType" := meta b "content_type"]>
                           (<["size" := VNum (blob_contentLength b)]>
                           (<["uploadedAt" := meta b "uploaded_at"]> ∅))))).
Proof.
  intros Hc Hi. unfold run, listFiles, ready. rewrite Hc, Hi.
  eexists. split; [reflexivity|].
  intros f. rewrite <- list_elem_of_In, list_elem_of_omap. split.
  - intros (b & Hb & Hf). apply list_elem_of_In in Hb.
    apply listed_In in Hb as [Hin Hp].
    destruct (blob_metadata b) as [m|] eqn:Hm; [|discriminate].
    injection Hf as <-. exists b, m. auto.
  - intros (b & m & Hin & Hp & Hm & ->). exists b. split.
    + apply list_elem_of_filter. split; [exact Hp | now apply list_elem_of_In].
    + now rewrite Hm.
Qed.

(** X7.  The listing goes by the prefix alone: on a ready client
    [listFiles] returns, and lists exactly the blobs of the container
    that sit under the prefix of the request and carry metadata, each with
    its file id, file name, content type, size and upload time; the owner
    recorded in a blob's [user_id] is not looked at, and the container is
    left as it was. *)
Theorem listing_is_by_prefix this tenantId userId scope w s :
  isConfigured this = true -> containerClient this = true ->
  exists files s',
    run (listFiles this tenantId userId scope) w s = (Return files, s')
    /\ container s' = container s
    /\ (forall b m,
          In b (container s) ->
          startsWith (blob_name b) (scopePrefix scope tenantId userId) = true ->
          blob_metadata b = Some m ->
          exists o, In (VObj o) files
                    /\ get o "fileId" = meta b "file_id"
                    /\ get o "fileName" = meta b "original_filename"
                    /\ get o "contentType" = meta b "content_type"
                    /\ get o "size" = VNum (blob_contentLength b)
                    /\ get o "uploadedAt" = meta b "uploaded_at")
    /\ (forall f,
          In f files ->
          exists b o,
            f = VObj o /\ In b (container s)
            /\ startsWith (blob_name b) (scopePrefix scope tenantId userId) = true
            /\ get o "fileId" = meta b "file_id").
Proof.
  intros Hc Hi.
  destruct (listFiles_run this tenantId userId scope w s Hc Hi) as (files & Hrun & Hin).
  exists files. eexists. split; [exact Hrun|]. split; [reflexivity|]. split.
  - intros b m Hb Hp Hm. eexists. split.
    + apply Hin. exists b, m. repeat split; auto.
    + repeat split; reflexivity.
  - intros f Hf. apply Hin in Hf as (b & m & Hb & Hp & Hm & ->).
    exists b. eexists. repeat split; auto.
Qed.

(** X8.  Upload then list: on a ready client, for a user id and a scope
    that are strings and a tenant id that is a string or absent, the
    listing the same user asks for under the same tenant and scope after
    an upload holds an entry for the file just stored, with the id the
    upload returned, its name, content type and size. *)
Theorem upload_then_list this tenantId ts u sz name ct sc w s :
  isConfigured this = true -> containerClient this = true ->
  or tenantId (VStr "") = VStr ts ->
  exists fm s1,
    run (uploadFile this tenantId (VStr u) sz name ct (VStr sc)) w s
      = (Return fm, s1)
    /\ forall w',
         exists files s2 o,
           run (listFiles this tenantId (VStr u) (VStr sc)) w' s1
             = (Return files, s2)
           /\ In (VObj o) files
           /\ get o "fileId" = VStr (fm_fileId fm)
           /\ get o "fileName" = VStr name
           /\ get o "contentType" = VStr ct
           /\ get o "size" = VNum sz.
Proof.
  intros Hc Hi Ht.
  rewrite (uploadFile_run this tenantId ts u sz name ct sc w s Hc Hi Ht).
  cbv zeta. eexists _, _. split; [reflexivity|].
  intros w'. cbn [fm_fileId].
  set (s1 := MkState _ _ _ _).
  destruct (listFiles_run this tenantId (VStr u) (VStr sc) w' s1 Hc Hi)
    as (files & Hrun & Hin).
  exists files. eexists. eexists. split; [exact Hrun|]. split.
  - apply Hin. eexists. eexists. split; [|split; [|split; [|reflexivity]]].
    + subst s1. cbn [container]. apply in_or_app. right. left. reflexivity.
    + cbn [blob_name]. unfold startsWith. apply prefix_app.
    + reflexivity.
  - unfold meta, get. cbn [blob_metadata blob_contentLength].
    repeat split; vm_compute; reflexivity.
Qed.

End Storage.

Lemma storage_not_configured_witness :
  AzureStorageClient.isConfigured (AzureStorageClient.MkClient false false) = false
  /\ run (AzureStorageClient.listFiles (AzureStorageClient.MkClient false false)
            (VStr "t1") (VStr "u1") (VStr "user")) stillWorld fresh_state
     = (Throw (MkError "Error" "Storage not configured" (Some 503)), fresh_state).
Proof.
  assert (h : AzureStorageClient.isConfigured (AzureStorageClient.MkClient false false)
              = false) by reflexivity.
  split; [exact h|].
  exact (proj1 (proj2 (proj2
           (storage_not_configured (AzureStorageClient.MkClient false false)
              stillWorld fresh_state h)))
           (VStr "t1") (VStr "u1") (VStr "user")).
Defined.

Lemma lookup_respects_owner_witness :
  AzureStorageClient.isConfigured readyClient = true
  /\ AzureStorageClient.containerClient readyClient = true
  /\ run (AzureStorageClient.downloadFile readyClient "0b0e7a2c"
            (VStr "t1") (VStr "u1") (VStr "user")) stillWorld ownState
     = (Return ownBlob,
        MkState ∅ [ownBlob] 0 [EvListBlobs "t1/u1/"; EvDownload "t1/u1/0b0e7a2c.pdf"])
  /\ AzureStorageClient.meta ownBlob "user_id" = VStr "u1".
Proof.
  assert (h1 : AzureStorageClient.isConfigured readyClient = true) by reflexivity.
  assert (h2 : AzureStorageClient.containerClient readyClient = true) by reflexivity.
  assert (h3 : run (AzureStorageClient.downloadFile readyClient "0b0e7a2c"
                      (VStr "t1") (VStr "u1") (VStr "user")) stillWorld ownState
               = (Return ownBlob,
                  MkState ∅ [ownBlob] 0
                    [EvListBlobs "t1/u1/"; EvDownload "t1/u1/0b0e7a2c.pdf"]))
    by (vm_compute; reflexivity).
  split; [exact h1 | split; [exact h2 | split; [exact h3 |]]].
  exact (proj1 (proj2 (proj2 (proj2
           (proj1 (lookup_respects_owner readyClient "0b0e7a2c" (VStr "t1")
                     (VStr "u1") (VStr "user") stillWorld ownState h1 h2)
              ownBlob _ h3)))) eq_refl).
Defined.

Lemma upload_then_download_witness :
  AzureStorageClient.isConfigured readyClient = true
  /\ AzureStorageClient.containerClient readyClient = true
  /\ or (VStr "t1") (VStr "") = VStr "t1"
  /\ (forall x, In x (container strayState) ->
                AzureStorageClient.hasFileId (uuidv4 stillWorld (asked strayState)) x
                = false)
  /\ exists fm s1,
       run (AzureStorageClient.uploadFile readyClient (VStr "t1") (VStr "u1") 10
              "a.pdf" "application/pdf" (VStr "user")) stillWorld strayState
       = (Return fm, s1)
       /\ exists b s2,
            run (AzureStorageClient.downloadFile readyClient
                   (AzureStorageClient.fm_fileId fm) (VStr "t1") (VStr "u1")
                   (VStr "user")) stillWorld s1
            = (Return b, s2)
            /\ blob_name b = AzureStorageClient.fm_blobName fm.
Proof.
  assert (h1 : AzureStorageClient.isConfigured readyClient = true) by reflexivity.
  assert (h2 : AzureStorageClient.containerClient readyClient = true) by reflexivity.
  assert (h3 : forall x, In x (container strayState) ->
                 AzureStorageClient.hasFileId
                   (uuidv4 stillWorld (asked strayState)) x = false).
  { intros x [<-|[]]. vm_compute. reflexivity. }
  assert (h4 : or (VStr "t1") (VStr "") = VStr "t1") by reflexivity.
  split; [exact h1 | split; [exact h2 | split; [exact h4 | split; [exact h3 |]]]].
  destruct (upload_then_download readyClient (VStr "t1") "t1" "u1" 10 "a.pdf"
              "application/pdf" "user" stillWorld strayState h1 h2 h4 h3)
    as (fm & s1 & Hup & Hdown).
  exists fm, s1. split; [exact Hup|].
  destruct (Hdown stillWorld) as (b & s2 & Hb & Hn & _).
  exists b, s2. split; [exact Hb | exact Hn].
Defined.

Lemma delete_then_download_witness :
  AzureStorageClient.isConfigured readyClient = true
  /\ AzureStorageClient.containerClient readyClient = true
  /\ run (AzureStorageClient.deleteFile readyClient "0b0e7a2c"
            (VStr "t1") (VStr "u1") (VStr "user")) stillWorld ownState
     = (Return tt, emptiedState)
  /\ fst (run (AzureStorageClient.downloadFile readyClient "0b0e7a2c"
                 (VStr "t1") (VStr "u1") (VStr "user")) stillWorld emptiedState)
     = Throw (Error "File not found").
Proof.
  assert (h1 : AzureStorageClient.isConfigured readyClient = true) by reflexivity.
  assert (h2 : AzureStorageClient.containerClient readyClient = true) by reflexivity.
  assert (h3 : forall x y, In x (container ownState) -> In y (container ownState) ->
                 AzureStorageClient.hasFileId "0b0e7a2c" x = true ->
                 AzureStorageClient.hasFileId "0b0e7a2c" y = true ->
                 blob_name x = blob_name y).
  { intros x y [<-|[]] [<-|[]] _ _. reflexivity. }
  assert (h4 : run (AzureStorageClient.deleteFile readyClient "0b0e7a2c"
                      (VStr "t1") (VStr "u1") (VStr "user")) stillWorld ownState
               = (Return tt, emptiedState)) by (vm_compute; reflexivity).
  split; [exact h1 | split; [exact h2 | split; [exact h4 |]]].
  exact (proj1 (delete_then_download readyClient "0b0e7a2c" (VStr "t1") (VStr "u1")
                  (VStr "user") stillWorld ownState emptiedState h1 h2 h3 h4)
           stillWorld).
Defined.

Lemma listing_is_by_prefix_witness :
  AzureStorageClient.isConfigured readyClient = true
  /\ AzureStorageClient.containerClient readyClient = true
  /\ exists files s',
       run (AzureStorageClient.listFiles readyClient (VStr "t1") (VStr "u1")
              (VStr "user")) stillWorld strayState
       = (Return files, s')
       /\ exists o, In (VObj o) files /\ get o "fileId" = VStr "0b0e7a2c".
Proof.
  assert (h1 : AzureStorageClient.isConfigured readyClient = true) by reflexivity.
  assert (h2 : AzureStorageClient.containerClient readyClient = true) by reflexivity.
  split; [exact h1 | split; [exact h2 |]].
  destruct (listing_is_by_prefix readyClient (VStr "t1") (VStr "u1") (VStr "user")
              stillWorld strayState h1 h2)
    as (files & s' & Hrun & _ & Hall & _).
  exists files, s'. split; [exact Hrun|].
  destruct (Hall strayBlob _ (or_introl eq_refl) eq_refl eq_refl)
    as (o & Hin & Hid & _).
  exists o. split; [exact Hin | exact Hid].
Defined.

Lemma upload_then_list_witness :
  AzureStorageClient.isConfigured readyClient = true
  /\ AzureStorageClient.containerClient readyClient = true
  /\ or VNull (VStr "") = VStr ""
  /\ exists fm s1,
       run (AzureStorageClient.uploadFile readyClient VNull (VStr "u1") 10
              "a.pdf" "application/pdf" (VStr "user")) stillWorld fresh_state
       = (Return fm, s1)
       /\ exists files s2 o,
            run (AzureStorageClient.listFiles readyClient VNull (VStr "u1")
                   (VStr "user")) stillWorld s1
            = (Return files, s2)
            /\ In (VObj o) files
            /\ get o "fileName" = VStr "a.pdf".
Proof.
  assert (h1 : AzureStorageClient.isConfigured readyClient = true) by reflexivity.
  assert (h2 : AzureStorageClient.containerClient readyClient = true) by reflexivity.
  assert (h3 : or VNull (VStr "") = VStr "") by reflexivity.
  split; [exact h1 | split; [exact h2 | split; [exact h3 |]]].
  destruct (upload_then_list readyClient VNull "" "u1" 10 "a.pdf"
              "application/pdf" "user" stillWorld fresh_state h1 h2 h3)
    as (fm & s1 & Hup & Hlist).
  exists fm, s1. split; [exact Hup|].
  destruct (Hlist stillWorld) as (files & s2 & o & Hrun & Hin & _ & Hname & _).
  exists files, s2, o. split; [exact Hrun | split; [exact Hin | exact Hname]].
Defined.

(** ** Authentication *)

Section Authentication.
Variable L : libs.
Import Auth JwksClient.

Lemma ends_jwt_verify token k algorithms H :
  ends (jwt_verify L token k algorithms) (fun _ => True) (fun _ => True) H.
Proof. unfold jwt_verify, checkValidity, Date_now. ends_go. Qed.

Lemma logged_jwt_verify P token k algorithms :
  preserves (logged P) (jwt_verify L token k algorithms).
Proof. unfold jwt_verify, checkValidity, Date_now. preserves_go. Qed.

Lemma cache_jwt_verify token k algorithms :
  preserves cache (jwt_verify L token k algorithms).
Proof. unfold jwt_verify, checkValidity, Date_now. preserves_go. Qed.

Lemma authenticated_shape_onError req e : authenticated_shape req (onError e).
Proof.
  unfold onError. repeat destruct (_ =? _)%string; reflexivity.
Qed.

Lemma ends_authenticateJWT publicKey req H :
  ends (authenticateJWT L publicKey req) (authenticated_shape req) (fun _ => False) H.
Proof.
  unfold authenticateJWT. destruct (badHeader _).
  - apply ends_ret. simpl. auto.
  - eapply ends_try with (E' := fun _ => True).
    + eapply ends_bind with (Q := fun _ => True); [apply ends_jwt_verify|].
      intros decoded _. destruct (negb _); apply ends_ret; simpl; eauto.
    + intros e _. eapply ends_bind with (Q := fun _ => True);
        [apply ends_console|].
      intros _ _. apply ends_ret. apply authenticated_shape_onError.
Qed.

(** X9.  Static-key mode never leaves the process: whatever the request,
    [authenticateJWT] neither throws nor hangs; it calls [next()] with
    [req.user] set and nothing else changed, or answers 401; it makes no network call and leaves the key cache and the
    container untouched. *)
Theorem static_mode_is_offline publicKey req w s :
  let r := run (authenticateJWT L publicKey req) w s in
  (exists o, fst r = Return o /\ authenticated_shape req o)
  /\ cache (snd r) = cache s
  /\ container (snd r) = container s
  /\ logged is_network_call (snd r) = logged is_network_call s.
Proof.
  intros r. subst r. unfold run.
  pose proof (ends_authenticateJWT publicKey req never w s) as He.
  assert (Hc : preserves cache (authenticateJWT L publicKey req)).
  { unfold authenticateJWT, console. destruct (badHeader _); [preserves_go|].
    apply preserves_try.
    - apply preserves_bind; [apply cache_jwt_verify|]. intros d. preserves_go.
    - intros e. preserves_go. }
  assert (Hn : preserves (logged is_network_call) (authenticateJWT L publicKey req)).
  { unfold authenticateJWT, console. destruct (badHeader _); [preserves_go|].
    apply preserves_try.
    - apply preserves_bind; [apply logged_jwt_verify|]. intros d. preserves_go.
    - intros e. preserves_go. }
  split.
  - destruct (fst (authenticateJWT L publicKey req w s)) as [o| |];
      [exists o; auto | contradiction | contradiction].
  - split; [apply Hc|]. split; [|apply Hn].
    apply (keeps_authenticateJWT L publicKey req w s).
Qed.

Lemma ends_fetchJwks issuerKey cfg :
  ends (fetchJwks issuerKey cfg) (fun _ => True) (fun _ => True) stalls.
Proof.
  intros w s. pose proof (fetchJwks_run issuerKey cfg w s) as Hrun.
  unfold run in Hrun. rewrite Hrun. cbv zeta.
  assert (Hre : forall n st lg,
             match
               fst match network w n (jwksUrl cfg) with
                   | Settles r | SettlesLate r =>
                       if resp_ok r then
                         match resp_json r with
                         | Some j =>
                             (Return j,
                              MkState (<[issuerKey := MkEntry j (clock w (S n))]>
                                         (cache s))
                                      (container s) (S (S n)) lg)
                         | None =>
                             (Throw (MkError "SyntaxError" "Unexpected token" None), st)
                         end
                       else
                         (Throw (Error ("Failed to fetch JWKS from " ++ jwksUrl cfg
                                        ++ ": " ++ pretty (resp_status r))), st)
                   | Stalls status =>
                       if (200 <=? status) && (status <=? 299) then (Hang, st)
                       else
                         (Throw (Error ("Failed to fetch JWKS from " ++ jwksUrl cfg
                                        ++ ": " ++ pretty status)), st)
                   | Rejects e => (Throw e, st)
                   | Pending => (Hang, st)
                   end
             with
             | Return _ => True
             | Throw _ => True
             | Hang => stalls w
             end).
  { intros n st lg.
    destruct (network w n (jwksUrl cfg)) as [r|e| |r|status] eqn:Hn;
      try (destruct (resp_ok r); [destruct (resp_json r)|]; exact I);
      try exact I.
    - exists n, (jwksUrl cfg). now left.
    - destruct (_ && _); [|exact I].
      exists n, (jwksUrl cfg). right. now exists status. }
  destruct (cache s !! issuerKey) as [c|].
  - destruct (_ <? _); [exact I | apply Hre].
  - apply Hre.
Qed.

Lemma ends_findKey kid keys H :
  ends (findKey kid keys) (fun _ => True) (fun _ => True) H.
Proof.
  induction keys as [|k rest IH]; cbn [findKey]; [ends_go|].
  eapply ends_bind with (Q := fun _ => True); [apply ends_prop|].
  intros kk _. destruct (strict_eq kk kid); [ends_go | exact IH].
Qed.

Lemma ends_getSigningKey authServers token :
  ends (getSigningKey L authServers token) (fun _ => True) (fun _ => True) stalls.
Proof.
  unfold getSigningKey, signingKeyFrom, jwkToPem.
  destruct (jwt_decode L token); [|ends_go].
  destruct (selectServer _ _); [|ends_go].
  eapply ends_bind with (Q := fun _ => True); [apply ends_fetchJwks|].
  intros jw _.
  eapply ends_bind with (Q := fun _ => True); [apply ends_prop|].
  intros keys _. destruct keys; try (ends_go; fail).
  eapply ends_bind with (Q := fun _ => True); [apply ends_findKey|].
  intros jwk _. ends_go.
Qed.

Lemma logged_fetchJwks P issuerKey cfg :
  (forall url, P (EvFetchJwks url) = false) ->
  preserves (logged P) (fetchJwks issuerKey cfg).
Proof.
  intros HP. unfold fetchJwks, fetch, json, arrives, Date_now.
  assert (He : forall url, preserves (logged P) (emit (EvFetchJwks url)))
    by (intros url; apply logged_emit, HP).
  destruct cfg as [i u t]. cbn [jwksUrl]. specialize (He u).
  repeat first [ exact He | apply preserves_bind; [ | intros ? ] | preserves_go ].
Qed.

Lemma logged_findKey P kid keys : preserves (logged P) (findKey kid keys).
Proof.
  induction keys as [|k rest IH]; cbn [findKey]; [preserves_go|].
  apply preserves_bind; [apply preserves_prop|].
  intros kk. destruct (strict_eq kk kid); [preserves_go | exact IH].
Qed.

Lemma logged_getSigningKey P authServers token :
  (forall url, P (EvFetchJwks url) = false) ->
  preserves (logged P) (getSigningKey L authServers token).
Proof.
  intros HP. unfold getSigningKey, signingKeyFrom, jwkToPem.
  destruct (jwt_decode L token); [|preserves_go].
  destruct (selectServer _ _); [|preserves_go].
  apply preserves_bind; [apply logged_fetchJwks, HP|]. intros jw.
  apply preserves_bind; [apply preserves_prop|]. intros keys.
  destruct keys; try (preserves_go; fail).
  apply preserves_bind; [apply logged_findKey|]. intros jwk. preserves_go.
Qed.

Lemma ends_authenticateJwks authServers req :
  ends (authenticateJwks L authServers req) (authenticated_shape req)
       (fun _ => False) stalls.
Proof.
  unfold authenticateJwks. destruct (badHeader _).
  - apply ends_ret. simpl. auto.
  - eapply ends_try with (E' := fun _ => True).
    + eapply ends_bind with (Q := fun _ => True); [apply ends_getSigningKey|].
      intros [k algorithm] _.
      eapply ends_bind with (Q := fun _ => True); [apply ends_jwt_verify|].
      intros decoded _. destruct (negb _); apply ends_ret; simpl; eauto.
    + intros e _. eapply ends_bind with (Q := fun _ => True);
        [apply ends_console|].
      intros _ _. apply ends_ret. apply authenticated_shape_onError.
Qed.

(** X10.  Key-resolver mode turns every failure into a 401: whatever the
    request, the key set endpoint and the key set, [authenticateJwks] never
    throws; it calls [next()] with [req.user] set and nothing else changed,
    or answers 401, unless a call of [fetch] never settles, and then it
    never ends; it makes no storage call and no
    oracle call. *)
Theorem key_resolver_mode_only_401 authServers req w s :
  let r := run (authenticateJwks L authServers req) w s in
  ((exists o, fst r = Return o /\ authenticated_shape req o)
   \/ (fst r = Hang /\ stalls w))
  /\ container (snd r) = container s
  /\ logged is_storage_call (snd r) = logged is_storage_call s
  /\ logged is_oracle_call (snd r) = logged is_oracle_call s.
Proof.
  intros r. subst r. unfold run.
  assert (Ho : preserves (logged is_oracle_call)
                 (authenticateJwks L authServers req)).
  { unfold authenticateJwks, console. destruct (badHeader _); [preserves_go|].
    apply preserves_try.
    - apply preserves_bind; [apply logged_getSigningKey; reflexivity|].
      intros [k algorithm].
      apply preserves_bind; [apply logged_jwt_verify|]. intros d. preserves_go.
    - intros e. preserves_go. }
  pose proof (ends_authenticateJwks authServers req w s) as He.
  destruct (keeps_authenticateJwks L authServers req w s) as (K1 & K2 & _).
  split; [|split; [exact K2 | split; [exact K1 | apply Ho]]].
  destruct (fst (authenticateJwks L authServers req w s)) as [o|e|];
    [left; eauto | contradiction | right; auto].
Qed.

Lemma bind_return {A B} (c : M A) (f : A -> M B) a w s s1 :
  c w s = (Return a, s1) -> bind c f w s = f a w s1.
Proof. intros H. unfold bind. now rewrite H. Qed.

Lemma bind_throw {A B} (c : M A) (f : A -> M B) e w s s1 :
  c w s = (Throw e, s1) -> bind c f w s = (Throw e, s1).
Proof. intros H. unfold bind. now rewrite H. Qed.

Lemma findKey_none kid keys w s :
  Forall (fun k => exists ko, k = VObj ko
                              /\ strict_eq (get ko "kid") kid = false) keys ->
  findKey kid keys w s = (Return VUndefined, s).
Proof.
  induction 1 as [|k rest (ko & -> & Hk) _ IH]; cbn [findKey]; [reflexivity|].
  unfold bind, prop, ret. now rewrite Hk.
Qed.

Lemma findKey_first kid pre ko post w s :
  Forall (fun k => exists o, k = VObj o
                             /\ strict_eq (get o "kid") kid = false) pre ->
  strict_eq (get ko "kid") kid = true ->
  findKey kid (pre ++ VObj ko :: post)%list w s = (Return (VObj ko), s).
Proof.
  induction 1 as [|k rest (o & -> & Hk) _ IH]; intros Hko; cbn [findKey app].
  - unfold bind, prop, ret. now rewrite Hko.
  - unfold bind, prop, ret. rewrite Hk. now apply IH.
Qed.

(** The state after a fresh cache hit: one clock reading, nothing else. *)
Lemma fetchJwks_hit issuerKey cfg c w s :
  cache s !! issuerKey = Some c ->
  clock w (asked s) - fetchedAt c < cacheTtlMs cfg ->
  fetchJwks issuerKey cfg w s
    = (Return (jwks c), MkState (cache s) (container s) (S (asked s)) (log s)).
Proof.
  intros Hc Hlt. pose proof (fetchJwks_run issuerKey cfg w s) as H.
  unfold run in H. rewrite H. cbv zeta. rewrite Hc.
  destruct (Z.ltb_spec (clock w (asked s) - fetchedAt c) (cacheTtlMs cfg));
    [reflexivity | lia].
Qed.

(** X11.  A key id that is not in the key set: with the key set of the
    selected server freshly cached and every key of it an object whose
    [kid] differs from the token's, [getSigningKey] throws
    "Signing key not found for kid: ..." without any fetch, the cache stays
    as it was, and [authenticateJwks] answers 401 "Token validation
    failed". *)
Theorem unknown_key_id authServers req h d server c o ks w s :
  authorization req = Some h ->
  badHeader (Some h) = false ->
  jwt_decode L (tokenOf (Some h)) = Some d ->
  selectServer authServers (get (payload d) "iss") = Some server ->
  cache s !! issuer server = Some c ->
  clock w (asked s) - fetchedAt c < cacheTtlMs server ->
  jwks c = VObj o ->
  o !! "keys" = Some (VArr ks) ->
  Forall (fun k => exists ko, k = VObj ko
                   /\ strict_eq (get ko "kid") (get (header d) "kid") = false) ks ->
  run (getSigningKey L authServers (tokenOf (Some h))) w s
    = (Throw (Error ("Signing key not found for kid: "
                     ++ to_string (get (header d) "kid"))),
       MkState (cache s) (container s) (S (asked s)) (log s))
  /\ fst (run (authenticateJwks L authServers req) w s)
     = Return (refuse 401 "Unauthorized" "Token validation failed").
Proof.
  intros Hh Hb Hd Hsel Hc Hlt Hj Hk Hall.
  assert (Hg : getSigningKey L authServers (tokenOf (Some h)) w s
               = (Throw (Error ("Signing key not found for kid: "
                                ++ to_string (get (header d) "kid"))),
                  MkState (cache s) (container s) (S (asked s)) (log s))).
  { unfold getSigningKey. rewrite Hd. cbv iota beta zeta. rewrite Hsel.
    cbv iota beta.
    rewrite (bind_return _ _ _ _ _ _ (fetchJwks_hit _ _ c w s Hc Hlt)).
    rewrite Hj. unfold signingKeyFrom.
    erewrite bind_return by reflexivity.
    cbv beta. unfold get at 1. rewrite Hk. cbv [default from_option id].
    cbv beta iota.
    erewrite bind_return by (apply findKey_none; exact Hall).
    reflexivity. }
  split; [exact Hg|].
  unfold run, authenticateJwks. rewrite Hh, Hb. unfold try_catch.
  erewrite bind_throw by exact Hg. reflexivity.
Qed.

(** X12.  The key a token is verified with: with the key set of the
    selected server freshly cached, [getSigningKey] returns the first key of
    the set whose [kid] is strictly equal to the token's, made into a key
    object, together with the token's declared algorithm, or "RS256" when
    it declares none; nothing is fetched. *)
Theorem first_matching_key authServers token d server c o pre ko post w s :
  jwt_decode L token = Some d ->
  selectServer authServers (get (payload d) "iss") = Some server ->
  cache s !! issuer server = Some c ->
  clock w (asked s) - fetchedAt c < cacheTtlMs server ->
  jwks c = VObj o ->
  o !! "keys" = Some (VArr (pre ++ VObj ko :: post)) ->
  Forall (fun k => exists o', k = VObj o'
                   /\ strict_eq (get o' "kid") (get (header d) "kid") = false) pre ->
  strict_eq (get ko "kid") (get (header d) "kid") = true ->
  jwk_accepted L ko = true ->
  run (getSigningKey L authServers token) w s
    = (Return (KeyObject ko, or (get (header d) "alg") (VStr "RS256")),
       MkState (cache s) (container s) (S (asked s)) (log s)).
Proof.
  intros Hd Hsel Hc Hlt Hj Hk Hpre Hko Hacc.
  unfold run, getSigningKey. rewrite Hd. cbv iota beta zeta. rewrite Hsel.
  cbv iota beta.
  rewrite (bind_return _ _ _ _ _ _ (fetchJwks_hit _ _ c w s Hc Hlt)).
  rewrite Hj. unfold signingKeyFrom.
  erewrite bind_return by reflexivity.
  cbv beta. unfold get at 1. rewrite Hk. cbv [default from_option id].
    cbv beta iota.
  erewrite bind_return by (apply findKey_first; assumption).
  cbn [truthy negb]. unfold jwkToPem. rewrite Hacc. reflexivity.
Qed.

(** X13.  The cache round trip: after a fetch that stored a key set, the
    next [fetchJwks] for the same issuer, made before the TTL has passed
    since the time of storing, returns that key set from the cache without
    a fetch. *)
Theorem refetch_then_cached issuerKey cfg w s resp j :
  let n := match cache s !! issuerKey with
           | Some _ => S (asked s)
           | None => asked s
           end in
  match cache s !! issuerKey with
  | Some c => cacheTtlMs cfg <= clock w (asked s) - fetchedAt c
  | None => True
  end ->
  network w n (jwksUrl cfg) = Settles resp ->
  resp_ok resp = true ->
  resp_json resp = Some j ->
  exists s1,
    run (fetchJwks issuerKey cfg) w s = (Return j, s1)
    /\ cache s1 !! issuerKey = Some (MkEntry j (clock w (S n)))
    /\ forall w',
         clock w' (asked s1) - clock w (S n) < cacheTtlMs cfg ->
         run (fetchJwks issuerKey cfg) w' s1
           = (Return j, MkState (cache s1) (container s1) (S (asked s1)) (log s1)).
Proof.
  intros n Hstale Hn Hok Hj. subst n. rewrite fetchJwks_run. cbv zeta.
  destruct (cache s !! issuerKey) as [c|] eqn:Hc.
  - destruct (Z.ltb_spec (clock w (asked s) - fetchedAt c) (cacheTtlMs cfg));
      [lia|].
    rewrite Hn, Hok, Hj. eexists. split; [reflexivity|].
    cbn [cache]. split; [apply lookup_insert_eq|].
    intros w' Hlt. unfold run.
    exact (fetchJwks_hit issuerKey cfg
             (MkEntry j (clock w (S (S (asked s))))) w' _
             (lookup_insert_eq _ _ _) Hlt).
  - rewrite Hn, Hok, Hj. eexists. split; [reflexivity|].
    cbn [cache]. split; [apply lookup_insert_eq|].
    intros w' Hlt. unfold run.
    exact (fetchJwks_hit issuerKey cfg
             (MkEntry j (clock w (S (asked s)))) w' _
             (lookup_insert_eq _ _ _) Hlt).
Qed.

(** X14.  [fetchJwks] keeps to its own cache entry: whatever happens, the
    entries of other issuers are as before, an entry of its own issuer is
    never removed, and the container is untouched. *)
Theorem fetchJwks_touches_own_entry_only issuerKey cfg w s :
  let r := run (fetchJwks issuerKey cfg) w s in
  (forall k, k <> issuerKey -> cache (snd r) !! k = cache s !! k)
  /\ (is_Some (cache s !! issuerKey) -> is_Some (cache (snd r) !! issuerKey))
  /\ container (snd r) = container s.
Proof.
  intros r. subst r. rewrite fetchJwks_run. cbv zeta.
  destruct (cache s !! issuerKey) as [c|] eqn:Hc;
    [destruct (_ <? _)|];
    try (destruct (network w _ (jwksUrl cfg)) as [r0|e| |r0|status];
         try (destruct (resp_ok r0); [destruct (resp_json r0)|]);
         try destruct (_ && _));
    cbn [snd cache container]; (split; [|split; [|reflexivity]]);
    try (intros k Hk; first [reflexivity | now rewrite lookup_insert_ne]);
    try (intros Hs;
         first [ rewrite lookup_insert_eq; eauto
               | rewrite Hc; eauto
               | destruct Hs as [? Hs]; discriminate ]).
Qed.

(** X15.  The identity attached to the request, in both modes: when the
    verified payload has a truthy subject claim, [authenticateJWT] and
    [authenticateJwks] alike call [next()] with one and the same
    [req.user], which holds every claim of the payload under its own name,
    and, where the payload has no claim of that name, [id] the subject in
    priority order, [tenantId] the first truthy of [tenant_id], [tid],
    [tenant_uuid] (else [null]) and [roles] the empty array. *)
Theorem attached_identity req h decoded :
  authorization req = Some h ->
  badHeader (Some h) = false ->
  truthy (userIdOf decoded) = true ->
  exists u,
    (forall publicKey w s s',
        jwt_verify L (tokenOf (Some h)) (KeyString publicKey) allowList w s
          = (Return decoded, s') ->
        run (authenticateJWT L publicKey req) w s
          = (Return (Next (set_user u req)), s'))
    /\ (forall authServers k algorithm w s s1 s2,
          getSigningKey L authServers (tokenOf (Some h)) w s
            = (Return (k, algorithm), s1) ->
          jwt_verify L (tokenOf (Some h)) k [algorithm] w s1
            = (Return decoded, s2) ->
          run (authenticateJwks L authServers req) w s
            = (Return (Next (set_user u req)), s2))
    /\ (forall k v, decoded !! k = Some v -> u !! k = Some v)
    /\ (decoded !! "id" = None -> get u "id" = userIdOf decoded)
    /\ (decoded !! "tenantId" = None -> get u "tenantId" = tenantIdOf decoded)
    /\ (decoded !! "roles" = None -> get u "roles" = VArr []).
Proof.
  intros Hh Hb Hu.
  exists (userObject (userIdOf decoded) (tenantIdOf decoded) decoded).
  split; [|split].
  - intros publicKey w s s' Hv.
    rewrite (authenticateJWT_after_verify L publicKey req h decoded w s s' Hh Hb Hv).
    now rewrite Hu.
  - intros authServers k algorithm w s s1 s2 Hk Hv.
    rewrite (authenticateJwks_after_verify L authServers req h k algorithm decoded
               w s s1 s2 Hh Hb Hk Hv).
    now rewrite Hu.
  - unfold userObject, get. split; [|split; [|split]].
    + intros k v Hk. now apply lookup_union_Some_l.
    + intros Hn. rewrite lookup_union_r by exact Hn. now rewrite lookup_insert_eq.
    + intros Hn. rewrite lookup_union_r by exact Hn.
      rewrite lookup_insert_ne by discriminate. now rewrite lookup_insert_eq.
    + intros Hn. rewrite lookup_union_r by exact Hn.
      do 3 (rewrite lookup_insert_ne by discriminate).
      rewrite lookup_insert_eq. rewrite Hn. reflexivity.
Qed.
End Authentication.

Lemma unknown_key_id_witness :
  authorization (requestOf "GET" "/files" (Some "Bearer tk9")) = Some "Bearer tk9"
  /\ Auth.badHeader (Some "Bearer tk9") = false
  /\ jwt_decode (demoLibs [strangerToken]) (Auth.tokenOf (Some "Bearer tk9"))
     = Some (decoded strangerToken)
  /\ fst (run (Auth.authenticateJwks (demoLibs [strangerToken]) [exactA]
                 (requestOf "GET" "/files" (Some "Bearer tk9")))
            (worldAt 1000 Pending) cachedState)
     = Return (refuse 401 "Unauthorized" "Token validation failed").
Proof.
  assert (h1 : authorization (requestOf "GET" "/files" (Some "Bearer tk9"))
               = Some "Bearer tk9") by reflexivity.
  assert (h2 : Auth.badHeader (Some "Bearer tk9") = false) by reflexivity.
  assert (h3 : jwt_decode (demoLibs [strangerToken])
                 (Auth.tokenOf (Some "Bearer tk9"))
               = Some (decoded strangerToken)) by reflexivity.
  assert (h4 : JwksClient.selectServer [exactA]
                 (get (payload (decoded strangerToken)) "iss") = Some exactA)
    by (vm_compute; reflexivity).
  assert (h5 : cache cachedState !! issuer exactA = Some (MkEntry jwksA 0))
    by (vm_compute; reflexivity).
  assert (h6 : clock (worldAt 1000 Pending) (asked cachedState)
               - fetchedAt (MkEntry jwksA 0) < JwksClient.cacheTtlMs exactA)
    by (vm_compute; reflexivity).
  assert (h7 : jwks (MkEntry jwksA 0) = VObj {[ "keys" := VArr [VObj keyK1] ]})
    by reflexivity.
  assert (h8 : ({[ "keys" := VArr [VObj keyK1] ]} : obj) !! "keys"
               = Some (VArr [VObj keyK1])) by (vm_compute; reflexivity).
  assert (h9 : Forall (fun k => exists ko, k = VObj ko
                 /\ strict_eq (get ko "kid")
                      (get (header (decoded strangerToken)) "kid") = false)
                 [VObj keyK1]).
  { apply List.Forall_cons; [|apply List.Forall_nil].
    exists keyK1. split; [reflexivity | vm_compute; reflexivity]. }
  split; [exact h1 | split; [exact h2 | split; [exact h3 |]]].
  exact (proj2 (unknown_key_id (demoLibs [strangerToken]) [exactA]
                  (requestOf "GET" "/files" (Some "Bearer tk9")) "Bearer tk9"
                  (decoded strangerToken) exactA (MkEntry jwksA 0)
                  {[ "keys" := VArr [VObj keyK1] ]} [VObj keyK1]
                  (worldAt 1000 Pending) cachedState
                  h1 h2 h3 h4 h5 h6 h7 h8 h9)).
Defined.

Lemma first_matching_key_witness :
  jwt_decode (demoLibs issuedTokens) "t256" = Some (decoded plainToken)
  /\ JwksClient.selectServer [wild; exactA]
       (get (payload (decoded plainToken)) "iss") = Some wild
  /\ run (JwksClient.getSigningKey (demoLibs issuedTokens) [wild; exactA] "t256")
       (worldAt 1000 Pending)
       (MkState {[ "*" := MkEntry jwksA 0 ]} [] 0 [])
     = (Return (KeyObject keyK1, VStr "RS256"),
        MkState {[ "*" := MkEntry jwksA 0 ]} [] 1 []).
Proof.
  assert (h1 : jwt_decode (demoLibs issuedTokens) "t256"
               = Some (decoded plainToken)) by reflexivity.
  assert (h2 : JwksClient.selectServer [wild; exactA]
                 (get (payload (decoded plainToken)) "iss") = Some wild)
    by (vm_compute; reflexivity).
  assert (h3 : cache (MkState {[ "*" := MkEntry jwksA 0 ]} [] 0 []) !! issuer wild
               = Some (MkEntry jwksA 0)) by (vm_compute; reflexivity).
  assert (h4 : clock (worldAt 1000 Pending)
                 (asked (MkState {[ "*" := MkEntry jwksA 0 ]} [] 0 []))
               - fetchedAt (MkEntry jwksA 0) < JwksClient.cacheTtlMs wild)
    by (vm_compute; reflexivity).
  assert (h5 : jwks (MkEntry jwksA 0) = VObj {[ "keys" := VArr [VObj keyK1] ]})
    by reflexivity.
  assert (h6 : ({[ "keys" := VArr [VObj keyK1] ]} : obj) !! "keys"
               = Some (VArr ([] ++ VObj keyK1 :: [])))
    by (vm_compute; reflexivity).
  assert (h7 : Forall (fun k => exists o', k = VObj o'
                 /\ strict_eq (get o' "kid")
                      (get (header (decoded plainToken)) "kid") = false) [])
    by apply List.Forall_nil.
  assert (h8 : strict_eq (get keyK1 "kid")
                 (get (header (decoded plainToken)) "kid") = true)
    by (vm_compute; reflexivity).
  assert (h9 : jwk_accepted (demoLibs issuedTokens) keyK1 = true) by reflexivity.
  split; [exact h1 | split; [exact h2 |]].
  exact (first_matching_key (demoLibs issuedTokens) [wild; exactA] "t256"
           (decoded plainToken) wild (MkEntry jwksA 0)
           {[ "keys" := VArr [VObj keyK1] ]} [] keyK1 []
           (worldAt 1000 Pending) (MkState {[ "*" := MkEntry jwksA 0 ]} [] 0 [])
           h1 h2 h3 h4 h5 h6 h7 h8 h9).
Defined.

Lemma refetch_then_cached_witness :
  network jwksWorld (asked fresh_state) (jwksUrl exactA)
  = Settles (MkResponse 200 (Some jwksA))
  /\ resp_ok (MkResponse 200 (Some jwksA)) = true
  /\ exists s1,
       run (JwksClient.fetchJwks "https://a.example" exactA) jwksWorld fresh_state
       = (Return jwksA, s1)
       /\ run (JwksClient.fetchJwks "https://a.example" exactA) jwksWorld s1
          = (Return jwksA,
             MkState (cache s1) (container s1) (S (asked s1)) (log s1)).
Proof.
  assert (h1 : match cache fresh_state !! "https://a.example" with
               | Some c => JwksClient.cacheTtlMs exactA
                           <= clock jwksWorld (asked fresh_state) - fetchedAt c
               | None => True
               end) by (vm_compute; exact I).
  assert (h2 : network jwksWorld (asked fresh_state) (jwksUrl exactA)
               = Settles (MkResponse 200 (Some jwksA))) by reflexivity.
  assert (h3 : resp_ok (MkResponse 200 (Some jwksA)) = true) by reflexivity.
  assert (h4 : resp_json (MkResponse 200 (Some jwksA)) = Some jwksA)
    by reflexivity.
  split; [exact h2 | split; [exact h3 |]].
  destruct (refetch_then_cached "https://a.example" exactA jwksWorld fresh_state
              (MkResponse 200 (Some jwksA)) jwksA h1 h2 h3 h4)
    as (s1 & Hrun & _ & Hnext).
  exists s1. split; [exact Hrun|].
  apply Hnext. vm_compute. reflexivity.
Defined.

Lemma attached_identity_witness :
  authorization (requestOf "GET" "/files" (Some "Bearer t256")) = Some "Bearer t256"
  /\ Auth.badHeader (Some "Bearer t256") = false
  /\ truthy (Auth.userIdOf (payload (decoded plainToken))) = true
  /\ exists u,
       run (Auth.authenticateJWT (demoLibs issuedTokens) "k1"
              (requestOf "GET" "/files" (Some "Bearer t256")))
         stillWorld fresh_state
       = (Return (Next (set_user u (requestOf "GET" "/files" (Some "Bearer t256")))),
          MkState ∅ [] 1 [])
       /\ run (Auth.authenticateJwks (demoLibs issuedTokens) [exactA]
                 (requestOf "GET" "/files" (Some "Bearer t256")))
            (worldAt 1000 Pending) cachedState
          = (Return (Next (set_user u
                             (requestOf "GET" "/files" (Some "Bearer t256")))),
             MkState (cache cachedState) [] 2 [])
       /\ get u "id" = VStr "u1"
       /\ get u "roles" = VArr [].
Proof.
  assert (h1 : authorization (requestOf "GET" "/files" (Some "Bearer t256"))
               = Some "Bearer t256") by reflexivity.
  assert (h2 : Auth.badHeader (Some "Bearer t256") = false) by reflexivity.
  assert (h3 : jwt_verify (demoLibs issuedTokens) (Auth.tokenOf (Some "Bearer t256"))
                 (KeyString "k1") allowList stillWorld fresh_state
               = (Return (payload (decoded plainToken)), MkState ∅ [] 1 []))
    by (vm_compute; reflexivity).
  assert (h4 : truthy (Auth.userIdOf (payload (decoded plainToken))) = true)
    by (vm_compute; reflexivity).
  assert (h5 : JwksClient.getSigningKey (demoLibs issuedTokens) [exactA]
                 (Auth.tokenOf (Some "Bearer t256")) (worldAt 1000 Pending)
                 cachedState
               = (Return (KeyObject keyK1, VStr "RS256"),
                  MkState (cache cachedState) [] 1 []))
    by (vm_compute; reflexivity).
  assert (h6 : jwt_verify (demoLibs issuedTokens) (Auth.tokenOf (Some "Bearer t256"))
                 (KeyObject keyK1) [VStr "RS256"] (worldAt 1000 Pending)
                 (MkState (cache cachedState) [] 1 [])
               = (Return (payload (decoded plainToken)),
                  MkState (cache cachedState) [] 2 []))
    by (vm_compute; reflexivity).
  split; [exact h1 | split; [exact h2 | split; [exact h4 |]]].
  destruct (attached_identity (demoLibs issuedTokens)
              (requestOf "GET" "/files" (Some "Bearer t256")) "Bearer t256"
              (payload (decoded plainToken)) h1 h2 h4)
    as (u & Hjwt & Hjwks & _ & Hid & _ & Hroles).
  exists u. split; [exact (Hjwt "k1" _ _ _ h3)|].
  split; [exact (Hjwks [exactA] _ _ _ _ _ _ h5 h6)|]. split.
  - rewrite Hid; vm_compute; reflexivity.
  - apply Hroles. vm_compute. reflexivity.
Defined.

(** ** Role check *)

Section RoleCheck.
Import Roles.

Lemma someRole_array xs allowed w s :
  someRole (VArr xs) allowed w s
  = (Return (existsb (fun role => existsb (strict_eq (VStr role)) xs) allowed), s).
Proof.
  induction allowed as [|role rest IH]; [reflexivity|].
  cbn [someRole includes existsb]. unfold bind, ret.
  destruct (existsb (strict_eq (VStr role)) xs); [reflexivity | exact IH].
Qed.

Lemma includes_string_iff role s :
  String.index 0 role s <> None
  <-> exists m, String.substring m (String.length role) s = role.
Proof.
  split.
  - destruct (String.index 0 role s) as [m|] eqn:E; [|congruence].
    intros _. exists m. eapply String.index_correct1. exact E.
  - intros [m Hm] E. destruct role as [|c role].
    + apply String.index_correct4 in E. lia.
    + refine (String.index_correct3 0 m _ s E _ _ Hm); [discriminate | lia].
Qed.

Lemma someRole_string str allowed w s :
  someRole (VStr str) allowed w s
  = (Return (existsb (fun role => match String.index 0 role str with
                                  | Some _ => true
                                  | None => false
                                  end) allowed), s).
Proof.
  induction allowed as [|role rest IH]; [reflexivity|].
  cbn [someRole includes existsb]. unfold bind, ret.
  destruct (String.index 0 role str); [reflexivity | exact IH].
Qed.

(** X16.  The role check on a roles array: for a request whose user has a
    roles array (an absent or falsy [roles] counts as the empty array),
    [requireRole] calls [next()] with the request unchanged exactly when
    one of the allowed roles is an element of the array, and answers 403
    otherwise; the state is as it was. *)
Theorem requireRole_array allowed req u xs w s :
  user req = Some u ->
  or (get u "roles") (VArr []) = VArr xs ->
  let r := run (requireRole allowed req) w s in
  (r = (Return (Next req), s)
   \/ r = (Return (refuse 403 "Forbidden" "Insufficient permissions"), s))
  /\ (r = (Return (Next req), s)
      <-> exists role, In role allowed /\ In (VStr role) xs).
Proof.
  intros Hu Hr r. subst r. unfold run, requireRole. rewrite Hu, Hr.
  unfold bind. rewrite someRole_array.
  destruct (existsb _ allowed) eqn:E; cbn [negb]; unfold ret.
  - split; [now left|]. split; [intros _|reflexivity].
    apply existsb_exists in E as (role & Hin & Hx).
    apply existsb_exists in Hx as (x & Hxin & Hx).
    exists role. split; [exact Hin|].
    rewrite strict_eq_sym in Hx. apply strict_eq_str in Hx. now subst.
  - split; [now right|]. split; [discriminate|].
    intros (role & Hin & Hx). exfalso.
    assert (existsb (fun role => existsb (strict_eq (VStr role)) xs) allowed = true);
      [|congruence].
    apply existsb_exists. exists role. split; [exact Hin|].
    apply existsb_exists. exists (VStr role). split; [exact Hx|].
    apply strict_eq_refl_str.
Qed.

(** X17.  The role check on other [roles] values.  When [roles] is a
    non-empty string, an allowed role counts as held as soon as it is a
    substring of it.  When [roles] is truthy and neither an array nor a
    string, and at least one role is allowed, [requireRole] throws a
    [TypeError] instead of answering. *)
Theorem requireRole_not_an_array allowed req u w s :
  user req = Some u ->
  (forall str, get u "roles" = VStr str -> str <> "" ->
     (fst (run (requireRole allowed req) w s) = Return (Next req)
      <-> exists role m, In role allowed
                         /\ String.substring m (String.length role) str = role))
  /\ (truthy (get u "roles") = true ->
      (forall xs, get u "roles" <> VArr xs) ->
      (forall str, get u "roles" <> VStr str) ->
      allowed <> [] ->
      run (requireRole allowed req) w s
      = (Throw (TypeError "userRoles.includes is not a function"), s)).
Proof.
  intros Hu. unfold run, requireRole. rewrite Hu. split.
  - intros str Hr Hne. rewrite Hr.
    rewrite or_truthy_l by now apply truthy_str.
    unfold bind. rewrite someRole_string.
    destruct (existsb _ allowed) eqn:E; cbn [negb fst]; unfold ret; cbn [fst].
    + split; [intros _|reflexivity].
      apply existsb_exists in E as (role & Hin & Hx).
      destruct (proj1 (includes_string_iff role str)) as [m Hm].
      { destruct (String.index 0 role str); [discriminate|discriminate]. }
      exists role, m. auto.
    + split; [discriminate|]. intros (role & m & Hin & Hm). exfalso.
      assert (existsb (fun role => match String.index 0 role str with
                                   | Some _ => true
                                   | None => false
                                   end) allowed = true); [|congruence].
      apply existsb_exists. exists role. split; [exact Hin|].
      destruct (String.index 0 role str) eqn:Ei; [reflexivity|].
      exfalso. apply (proj2 (includes_string_iff role str)); eauto.
  - intros Ht Harr Hstr Hal. rewrite (or_truthy_l _ _ Ht).
    destruct allowed as [|role rest]; [contradiction|].
    cbn [someRole]. unfold bind.
    destruct (get u "roles") eqn:Hr; try discriminate; try reflexivity.
    + exfalso. eapply Hstr. reflexivity.
    + exfalso. eapply Harr. reflexivity.
Qed.

(** X18.  A token without a truthy [roles] claim holds no role: with the
    user object the authentication middlewares attach for such a payload,
    [requireRole] answers 403 whatever roles it allows. *)
Theorem no_roles_claim_holds_no_role allowed req userId tenantId decoded w s :
  truthy (get decoded "roles") = false ->
  run (requireRole allowed
         (set_user (Auth.userObject userId tenantId decoded) req)) w s
  = (Return (refuse 403 "Forbidden" "Insufficient permissions"), s).
Proof.
  intros Ht. unfold run, requireRole. cbn [user set_user].
  assert (Hr : or (get (Auth.userObject userId tenantId decoded) "roles") (VArr [])
               = VArr []).
  { unfold Auth.userObject, get in *.
    destruct (decoded !! "roles") as [v|] eqn:Hd.
    - rewrite (lookup_union_Some_l _ _ _ _ Hd). cbn [default from_option id] in *.
      now apply or_falsy_l.
    - rewrite lookup_union_r by exact Hd.
      do 3 (rewrite lookup_insert_ne by discriminate).
      rewrite lookup_insert_eq. reflexivity. }
  rewrite Hr. unfold bind. rewrite someRole_array.
  replace (existsb _ allowed) with false; [reflexivity|].
  induction allowed as [|a l IH]; [reflexivity|]. cbn [existsb orb]. exact IH.
Qed.

End RoleCheck.

Lemma requireRole_array_witness :
  user editorRequest = Some {[ "roles" := VArr [VStr "admin"; VStr "editor"] ]}
  /\ run (Roles.requireRole ["owner"; "editor"] editorRequest) stillWorld fresh_state
     = (Return (Next editorRequest), fresh_state).
Proof.
  assert (h1 : user editorRequest
               = Some {[ "roles" := VArr [VStr "admin"; VStr "editor"] ]})
    by reflexivity.
  assert (h2 : or (get ({[ "roles" := VArr [VStr "admin"; VStr "editor"] ]} : obj)
                     "roles") (VArr [])
               = VArr [VStr "admin"; VStr "editor"]) by (vm_compute; reflexivity).
  split; [exact h1|].
  apply (proj2 (proj2 (requireRole_array ["owner"; "editor"] editorRequest _
                         [VStr "admin"; VStr "editor"] stillWorld fresh_state
                         h1 h2))).
  exists "editor". split; [right; left; reflexivity | right; left; reflexivity].
Defined.

Lemma requireRole_not_an_array_witness :
  user oddRolesRequest = Some {[ "roles" := VNum 7 ]}
  /\ run (Roles.requireRole ["editor"] oddRolesRequest) stillWorld fresh_state
     = (Throw (TypeError "userRoles.includes is not a function"), fresh_state).
Proof.
  assert (h1 : user oddRolesRequest = Some {[ "roles" := VNum 7 ]}) by reflexivity.
  split; [exact h1|].
  apply (proj2 (requireRole_not_an_array ["editor"] oddRolesRequest _
                  stillWorld fresh_state h1)).
  - vm_compute. reflexivity.
  - intros xs. vm_compute. discriminate.
  - intros str. vm_compute. discriminate.
  - discriminate.
Defined.

Lemma no_roles_claim_holds_no_role_witness :
  truthy (get (payload (decoded plainToken)) "roles") = false
  /\ run (Roles.requireRole ["editor"]
            (set_user (Auth.userObject (VStr "u1") VNull (payload (decoded plainToken)))
               (requestOf "GET" "/files" None))) stillWorld fresh_state
     = (Return (refuse 403 "Forbidden" "Insufficient permissions"), fresh_state).
Proof.
  assert (h : truthy (get (payload (decoded plainToken)) "roles") = false)
    by (vm_compute; reflexivity).
  split; [exact h|].
  exact (no_roles_claim_holds_no_role ["editor"] (requestOf "GET" "/files" None)
           (VStr "u1") VNull (payload (decoded plainToken)) stillWorld fresh_state h).
Defined.

(** ** The authorization gate *)

Section Gate.
Variable L : libs.
Import Authorization.

Lemma truthy_or_r a b : truthy b = true -> truthy (or a b) = true.
Proof. intros Hb. unfold or. destruct (truthy a) eqn:E; auto. Qed.

Lemma bind_ret_l {A B} (a : A) (f : A -> M B) w s : bind (ret a) f w s = f a w s.
Proof. reflexivity. Qed.

Lemma logged_app P c b a l1 l2 :
  logged P (MkState c b a (l1 ++ l2))
  = (logged P (MkState c b a l1) ++ List.filter P l2)%list.
Proof. unfold logged. cbn [log]. apply List.filter_app. Qed.

Lemma ends_callOracle url timeout authHeader body H :
  ends (callOracle url timeout authHeader body) (fun _ => True) (fun _ => True) H.
Proof. unfold callOracle. ends_go. Qed.

Lemma ends_interpret req resp H :
  ends (interpret req resp) (authorized_shape req) (fun _ => True) H.
Proof.
  unfold interpret. destruct (negb (resp_ok resp)).
  - eapply ends_bind with (Q := fun _ => True); [apply ends_prop|].
    intros data _. destruct (resp_status resp =? 403).
    + eapply ends_bind with (Q := fun _ => True); [apply ends_prop|].
      intros reason _.
      eapply ends_bind with (Q := fun _ => True); [apply ends_prop|].
      intros message _.
      eapply ends_bind with (Q := fun _ => True); [apply ends_console|].
      intros _ _. apply ends_ret. simpl. auto.
    + eapply ends_bind with (Q := fun _ => True); [apply ends_console|].
      intros _ _. apply ends_ret. simpl. auto.
  - destruct (resp_json resp) as [raw|]; [|apply ends_throw; exact I].
    eapply ends_bind with (Q := fun _ => True); [apply ends_prop|].
    intros data _.
    eapply ends_bind with (Q := fun _ => True); [apply ends_prop|].
    intros allowed _. destruct (negb (truthy allowed)).
    + eapply ends_bind with (Q := fun _ => True); [apply ends_prop|].
      intros reason _.
      eapply ends_bind with (Q := fun _ => True); [apply ends_console|].
      intros _ _. apply ends_ret. simpl. auto.
    + eapply ends_bind with (Q := fun _ => True); [apply ends_prop|].
      intros scope _. apply ends_ret. simpl.
      exists (or scope (VStr "user")). split; [reflexivity|].
      now apply truthy_or_r.
Qed.

Lemma ends_unavailable req e H :
  ends (unavailable e) (authorized_shape req) (fun _ => False) H.
Proof.
  intros w s. rewrite unavailable_run. simpl. auto.
Qed.

(** How the middleware ends, one run at a time: it never throws, and it
    stays pending only when an oracle is configured, the request stands for
    a file operation and the body of the oracle's response never arrives. *)
Lemma authorize_ends url timeout req w s :
  match fst (createAuthorizationMiddleware L url timeout req w s) with
  | Return o => authorized_shape req o
  | Throw _ => False
  | Hang =>
      exists u action status,
        url = Some u /\ actionOf req = Some action
        /\ network w (asked s) u = Stalls status
  end.
Proof.
  assert (Hpass : authorized_shape req (Next (set_fileScope (VStr "user") req))).
  { simpl. exists (VStr "user"). split; reflexivity. }
  unfold createAuthorizationMiddleware.
  destruct url as [url|]; [|exact Hpass].
  destruct (truthy (VStr url)); [|exact Hpass].
  destruct (actionOf req) as [action|] eqn:Hact.
  - rewrite (authorizeWith_run L url timeout req action w s Hact). cbv zeta.
    assert (Hread : forall r st,
               match fst (try_catch (interpret req r) unavailable w st) with
               | Return o => authorized_shape req o
               | Throw _ => False
               | Hang => never w
               end).
    { intros r st.
      apply (ends_try (interpret req r) unavailable (authorized_shape req)
               (fun _ => True) (fun _ => False) never
               (ends_interpret req r never)
               (fun e _ => ends_unavailable req e never)). }
    destruct (network w (asked s) url) as [r|e| |r|status] eqn:Hn.
    + specialize (Hread r (MkState (cache s) (container s) (S (asked s))
                             (((log s ++ [EvSetTimeout timeout])
                               ++ [EvFetchOracle url
                                     (Server.nonempty (authorization req))
                                     (requestBody L action req)])
                              ++ [EvClearTimeout]))).
      destruct (fst _); [exact Hread | exact Hread | destruct Hread].
    + rewrite unavailable_run. simpl. auto.
    + rewrite unavailable_run. simpl. auto.
    + specialize (Hread r (MkState (cache s) (container s) (S (asked s))
                             (((log s ++ [EvSetTimeout timeout])
                               ++ [EvFetchOracle url
                                     (Server.nonempty (authorization req))
                                     (requestBody L action req)])
                              ++ [EvClearTimeout]))).
      destruct (fst _); [exact Hread | exact Hread | destruct Hread].
    + cbn [fst]. exists url, action, status. auto.
  - unfold authorizeWith. rewrite Hact. exact Hpass.
Qed.

Lemma ends_authorize url timeout req :
  ends (createAuthorizationMiddleware L url timeout req)
       (authorized_shape req) (fun _ => False) body_stalls.
Proof.
  intros w s. pose proof (authorize_ends url timeout req w s) as He.
  destruct (fst _); [exact He | exact He |].
  destruct He as (u & action & status & _ & _ & Hn).
  exists (asked s), u, status. exact Hn.
Qed.

Lemma preserves_decide {B} (obs : state -> B) req resp :
  (forall l t, preserves obs (console l t)) ->
  preserves obs (decide req resp).
Proof.
  intros Hcon. unfold decide, arrives.
  apply preserves_bind; [destruct resp; [apply preserves_ret | apply preserves_hang]|].
  intros read. unfold interpret.
  repeat first [ apply Hcon | apply preserves_bind; [ | intros ? ] | preserves_go ].
Qed.

Lemma preserves_interpret {B} (obs : state -> B) req resp :
  (forall l t, preserves obs (console l t)) ->
  preserves obs (interpret req resp).
Proof.
  intros Hcon. unfold interpret.
  repeat first [ apply Hcon | apply preserves_bind; [ | intros ? ] | preserves_go ].
Qed.

Lemma preserves_unavailable {B} (obs : state -> B) e :
  (forall l t, preserves obs (console l t)) ->
  preserves obs (unavailable e).
Proof.
  intros Hcon. unfold unavailable.
  apply preserves_bind; [destruct (_ =? _)%string; apply Hcon|].
  intros _. apply preserves_ret.
Qed.

Lemma cache_authorize url timeout req :
  preserves cache (createAuthorizationMiddleware L url timeout req).
Proof.
  assert (Hcon : forall l t, preserves cache (console l t))
    by (intros; apply cache_emit).
  unfold createAuthorizationMiddleware.
  destruct url as [url|]; [|apply preserves_ret].
  destruct (truthy (VStr url)); [|apply preserves_ret].
  unfold authorizeWith.
  apply preserves_try; [|intros e; now apply preserves_unavailable].
  destruct (actionOf req); [|apply preserves_ret].
  apply preserves_bind; [unfold callOracle; preserves_go|].
  intros resp. now apply preserves_decide.
Qed.

Lemma logged_authorize P url timeout req :
  (forall u h b, P (EvFetchOracle u h b) = false) ->
  P EvClearTimeout = false -> P EvAbort = false ->
  (forall ms, P (EvSetTimeout ms) = false) ->
  (forall l t, P (EvConsole l t) = false) ->
  preserves (logged P) (createAuthorizationMiddleware L url timeout req).
Proof.
  intros Ho Hc Ha Ht Hl.
  assert (Hcon : forall l t, preserves (logged P) (console l t))
    by (intros; apply logged_emit, Hl).
  unfold createAuthorizationMiddleware.
  destruct url as [url|]; [|apply preserves_ret].
  destruct (truthy (VStr url)); [|apply preserves_ret].
  unfold authorizeWith.
  apply preserves_try; [|intros e; now apply preserves_unavailable].
  destruct (actionOf req); [|apply preserves_ret].
  apply preserves_bind.
  - unfold callOracle.
    apply preserves_bind; [apply logged_emit, Ht|]. intros _.
    apply preserves_bind; [apply logged_emit, Ho|]. intros _.
    apply preserves_bind; [apply logged_ask|]. intros o.
    destruct o.
    + apply preserves_bind; [apply logged_emit, Hc|]. intros _. apply preserves_ret.
    + apply preserves_throw.
    + apply preserves_bind; [apply logged_emit, Ha|]. intros _. apply preserves_throw.
    + apply preserves_bind; [apply logged_emit, Hc|]. intros _. apply preserves_ret.
    + apply preserves_bind; [apply logged_emit, Hc|]. intros _. apply preserves_ret.
  - intros resp. now apply preserves_decide.
Qed.

(** X19.  The authorization middleware decides whenever the oracle's
    response arrives whole: whatever the configuration and the request, it
    never throws; it calls [next()] with a truthy [fileScope] set on the
    request and nothing else changed, or answers 403 or 503; it stays
    pending in one case only, an oracle configured, a request that stands
    for a file operation and a response whose status line arrived and whose
    body never does, and in that case it does stay pending.  In every case
    it leaves the key cache and the container alone and makes no key-set
    fetch and no storage call. *)
Theorem authorization_always_decides url timeout req w s :
  let r := run (createAuthorizationMiddleware L url timeout req) w s in
  let body_never_comes :=
    exists u action status,
      url = Some u /\ actionOf req = Some action
      /\ network w (asked s) u = Stalls status in
  ((exists o, fst r = Return o /\ authorized_shape req o)
   \/ (fst r = Hang /\ body_never_comes))
  /\ (forall u action status,
        u <> "" -> url = Some u -> actionOf req = Some action ->
        network w (asked s) u = Stalls status -> fst r = Hang)
  /\ cache (snd r) = cache s
  /\ container (snd r) = container s
  /\ logged is_jwks_fetch (snd r) = logged is_jwks_fetch s
  /\ logged is_storage_call (snd r) = logged is_storage_call s.
Proof.
  intros r body_never_comes. subst r body_never_comes. unfold run.
  pose proof (authorize_ends url timeout req w s) as He.
  split; [|split; [|split; [apply cache_authorize|split; [|split]]]].
  - destruct (fst _) as [o|e|]; [left; eauto | contradiction | right; auto].
  - intros u action status Hu -> Hact Hn.
    rewrite (createAuthorizationMiddleware_configured L u timeout Hu).
    rewrite (authorizeWith_run L u timeout req action w s Hact). cbv zeta.
    now rewrite Hn.
  - destruct (keeps_authorize L url timeout req w s) as (_ & K & _). exact K.
  - apply logged_authorize; reflexivity.
  - apply logged_authorize; reflexivity.
Qed.

(** X20.  One question per file operation: with an oracle configured, the
    middleware sends the oracle exactly one request for a request that
    stands for a file operation, carrying the caller's [Authorization]
    header and the decision request built from it, and none for any other
    request. *)
Theorem oracle_asked_once url timeout req w s :
  logged is_oracle_call (snd (run (authorizeWith L url timeout req) w s))
  = (logged is_oracle_call s
     ++ match actionOf req with
        | Some action =>
            [EvFetchOracle url (Server.nonempty (authorization req))
               (requestBody L action req)]
        | None => []
        end)%list.
Proof.
  unfold run.
  assert (Hcon : forall l t, preserves (logged is_oracle_call) (console l t))
    by (intros; apply logged_emit; reflexivity).
  assert (Hun : forall e, preserves (logged is_oracle_call) (unavailable e))
    by (intros; now apply preserves_unavailable).
  assert (Hin : forall r, preserves (logged is_oracle_call)
                            (try_catch (interpret req r) unavailable)).
  { intros r. apply preserves_try; [now apply preserves_interpret | exact Hun]. }
  destruct (actionOf req) as [action|] eqn:Hact.
  - rewrite (authorizeWith_run L url timeout req action w s Hact). cbv zeta.
    destruct (network w (asked s) url) as [r|e| |r|status];
      [rewrite Hin | rewrite Hun | rewrite Hun | rewrite Hin | cbn [snd]];
      rewrite !logged_app; cbn [List.filter is_oracle_call];
      rewrite ?app_nil_r; destruct s; reflexivity.
  - unfold authorizeWith. rewrite Hact. cbn. now rewrite app_nil_r.
Qed.

(** X21.  The wrapped envelope: a success response whose body is
    [{data: {...}}] is read as the object under [data], whatever else the
    envelope holds; this is the reading of the flat body [{...}] as long
    as that object has no truthy [data] of its own. *)
Theorem wrapped_envelope_reads_as_flat req status (o extra : obj) w s :
  resp_ok (MkResponse status None) = true ->
  truthy (get o "data") = false ->
  run (interpret req
         (MkResponse status (Some (VObj (<["data" := VObj o]> extra))))) w s
  = run (interpret req (MkResponse status (Some (VObj o)))) w s.
Proof.
  intros Hok Hd. unfold run, interpret.
  change (resp_ok (MkResponse status (Some _))) with (resp_ok (MkResponse status None)).
  rewrite Hok. cbn [negb resp_json prop].
  assert (H1 : get (<["data" := VObj o]> extra) "data" = VObj o)
    by (unfold get; now rewrite lookup_insert_eq).
  rewrite H1, !bind_ret_l. cbv beta.
  rewrite (or_falsy_l _ _ Hd).
  change (or (VObj o) (VObj (<["data" := VObj o]> extra))) with (VObj o).
  reflexivity.
Qed.

End Gate.

Lemma wrapped_envelope_reads_as_flat_witness :
  resp_ok (MkResponse 200 None) = true
  /\ truthy (get (<["allowed" := VBool true]> {[ "scope" := VStr "tenant" ]} : obj)
               "data") = false
  /\ run (Authorization.interpret (requestOf "DELETE" "/files/f1" None)
            (MkResponse 200
               (Some (VObj (<["data" := VObj (<["allowed" := VBool true]>
                                               {[ "scope" := VStr "tenant" ]})]>
                              {[ "success" := VBool true ]})))))
       stillWorld fresh_state
     = run (Authorization.interpret (requestOf "DELETE" "/files/f1" None)
              (MkResponse 200
                 (Some (VObj (<["allowed" := VBool true]>
                                {[ "scope" := VStr "tenant" ]})))))
         stillWorld fresh_state.
Proof.
  assert (h1 : resp_ok (MkResponse 200 None) = true) by reflexivity.
  assert (h2 : truthy (get (<["allowed" := VBool true]>
                              {[ "scope" := VStr "tenant" ]} : obj) "data") = false)
    by (vm_compute; reflexivity).
  split; [exact h1 | split; [exact h2 |]].
  exact (wrapped_envelope_reads_as_flat (requestOf "DELETE" "/files/f1" None) 200
           (<["allowed" := VBool true]> {[ "scope" := VStr "tenant" ]})
           {[ "success" := VBool true ]} stillWorld fresh_state h1 h2).
Defined.

(** ** The route handlers *)

Section Handlers.
Variable storage : AzureStorageClient.client.
Import AzureStorageClient Routes.

Lemma ends_ready this H : ends (ready this) (fun _ => True) (fun _ => True) H.
Proof. unfold ready. ends_go. Qed.

Lemma ends_uploadFile this tenantId userId sz name ct scope H :
  ends (uploadFile this tenantId userId sz name ct scope)
       (fun _ => True) (fun _ => True) H.
Proof. unfold uploadFile, ready, Date_now, metadataValue, orUser. ends_go. Qed.

Lemma ends_downloadFile this fileId tenantId userId scope H :
  ends (downloadFile this fileId tenantId userId scope)
       (fun _ => True) (fun _ => True) H.
Proof. unfold downloadFile, ready, listBlobsFlat. ends_go. Qed.

Lemma ends_listFiles this tenantId userId scope H :
  ends (listFiles this tenantId userId scope) (fun _ => True) (fun _ => True) H.
Proof. unfold listFiles, ready, listBlobsFlat. ends_go. Qed.

Lemma ends_deleteFile this fileId tenantId userId scope H :
  ends (deleteFile this fileId tenantId userId scope)
       (fun _ => True) (fun _ => True) H.
Proof. unfold deleteFile, ready, listBlobsFlat. ends_go. Qed.

Lemma ends_userProp req k H :
  ends (userProp req k) (fun _ => True) (fun _ => True) H.
Proof. unfold userProp. ends_go. Qed.

Lemma answers_among_onStorageError what e :
  answers_among [200; 400; 403; 404; 500; 503] (onStorageError what e).
Proof.
  unfold onStorageError.
  repeat match goal with |- context [if ?b then _ else _] => destruct b end;
    simpl; tauto.
Qed.

Lemma ends_uploadHandler req H :
  ends (uploadHandler storage req) (answers_among [201; 400; 500; 503])
       (fun _ => False) H.
Proof.
  unfold uploadHandler.
  eapply ends_try with (E' := fun _ => True).
  - destruct (file req) as [f|]; [|apply ends_ret; simpl; tauto].
    eapply ends_bind with (Q := fun _ => True); [apply ends_userProp|].
    intros userId _.
    eapply ends_bind with (Q := fun _ => True); [apply ends_userProp|].
    intros tenantId _.
    eapply ends_bind with (Q := fun _ => True); [apply ends_uploadFile|].
    intros fm _. apply ends_ret. simpl. tauto.
  - intros e _.
    eapply ends_bind with (Q := fun _ => True); [apply ends_console|].
    intros _ _. apply ends_ret. destruct (bool_decide _); simpl; tauto.
Qed.

Lemma ends_downloadHandler req H :
  ends (downloadHandler storage req)
       (answers_among [200; 400; 403; 404; 500; 503]) (fun _ => False) H.
Proof.
  unfold downloadHandler.
  eapply ends_try with (E' := fun _ => True).
  - eapply ends_bind with (Q := fun _ => True); [apply ends_userProp|].
    intros userId _.
    eapply ends_bind with (Q := fun _ => True); [apply ends_userProp|].
    intros tenantId _.
    destruct (negb _); [apply ends_ret; simpl; tauto|].
    eapply ends_bind with (Q := fun _ => True); [apply ends_downloadFile|].
    intros b _. apply ends_ret. simpl. tauto.
  - intros e _.
    eapply ends_bind with (Q := fun _ => True); [apply ends_console|].
    intros _ _. apply ends_ret. apply answers_among_onStorageError.
Qed.

Lemma ends_listHandler req H :
  ends (listHandler storage req) (answers_among [200; 500]) (fun _ => False) H.
Proof.
  unfold listHandler.
  eapply ends_try with (E' := fun _ => True).
  - eapply ends_bind with (Q := fun _ => True); [apply ends_userProp|].
    intros userId _.
    eapply ends_bind with (Q := fun _ => True); [apply ends_userProp|].
    intros tenantId _.
    eapply ends_bind with (Q := fun _ => True); [apply ends_listFiles|].
    intros files _. apply ends_ret. simpl. tauto.
  - intros e _.
    eapply ends_bind with (Q := fun _ => True); [apply ends_console|].
    intros _ _. apply ends_ret. simpl. tauto.
Qed.

Lemma ends_deleteHandler req H :
  ends (deleteHandler storage req)
       (answers_among [200; 400; 403; 404; 500; 503]) (fun _ => False) H.
Proof.
  unfold deleteHandler.
  eapply ends_try with (E' := fun _ => True).
  - eapply ends_bind with (Q := fun _ => True); [apply ends_userProp|].
    intros userId _.
    eapply ends_bind with (Q := fun _ => True); [apply ends_userProp|].
    intros tenantId _.
    destruct (negb _); [apply ends_ret; simpl; tauto|].
    eapply ends_bind with (Q := fun _ => True); [apply ends_deleteFile|].
    intros _ _. apply ends_ret. simpl. tauto.
  - intros e _.
    eapply ends_bind with (Q := fun _ => True); [apply ends_console|].
    intros _ _. apply ends_ret. apply answers_among_onStorageError.
Qed.

(** X22.  The route handlers always answer: whatever the request and the
    state of the container, each handler ends by sending a reply, never by
    throwing, hanging or calling [next()].  Upload answers 201, 400, 500
    or 503; download streams the blob or answers 400, 403, 404, 500 or
    503; list answers 200 or 500; delete answers 200, 400, 403, 404, 500
    or 503.  A request that reaches a handler without [req.user] is
    answered 500, except that an upload without a file is answered 400
    first. *)
Theorem handlers_always_answer req w s :
  (exists r s', run (uploadHandler storage req) w s = (Return r, s')
                /\ answers_among [201; 400; 500; 503] r)
  /\ (exists r s', run (downloadHandler storage req) w s = (Return r, s')
                   /\ answers_among [200; 400; 403; 404; 500; 503] r)
  /\ (exists r s', run (listHandler storage req) w s = (Return r, s')
                   /\ answers_among [200; 500] r)
  /\ (exists r s', run (deleteHandler storage req) w s = (Return r, s')
                   /\ answers_among [200; 400; 403; 404; 500; 503] r)
  /\ (user req = None ->
      reply_status_of (run (downloadHandler storage req) w s) = Some 500
      /\ reply_status_of (run (listHandler storage req) w s) = Some 500
      /\ reply_status_of (run (deleteHandler storage req) w s) = Some 500
      /\ reply_status_of (run (uploadHandler storage req) w s)
         = Some (match file req with Some _ => 500 | None => 400 end)).
Proof.
  assert (Hfrom : forall (c : M outcome) codes,
             ends c (answers_among codes) (fun _ => False) never ->
             exists r s', run c w s = (Return r, s') /\ answers_among codes r).
  { intros c codes Hc. specialize (Hc w s). unfold run.
    destruct (c w s) as [[r|e|] s']; cbn [fst] in Hc;
      [eauto | contradiction | contradiction]. }
  split; [apply Hfrom, ends_uploadHandler|].
  split; [apply Hfrom, ends_downloadHandler|].
  split; [apply Hfrom, ends_listHandler|].
  split; [apply Hfrom, ends_deleteHandler|].
  intros Hu. unfold run, reply_status_of, downloadHandler, listHandler,
    deleteHandler, uploadHandler, userProp, onStorageError.
  rewrite Hu. repeat split; try reflexivity.
  destruct (file req); reflexivity.
Qed.

End Handlers.

(** ** The assembled server *)

(** The stack is the one [layers] lists: the requests are those that have
    come through CORS, the body parsers and, for an upload, multer, and the
    storage backend answers every call. *)

Section Assembled.
Variable L : libs.
Import Routes Server.

Lemma handle_next layer rest req req' w s s' :
  layer req w s = (Return (Next req'), s') ->
  handle (layer :: rest) req w s = handle rest req' w s'.
Proof.
  intros H. cbn [handle]. unfold bind at 1. unfold try_catch. now rewrite H.
Qed.

Lemma handle_respond layer rest req r w s s' :
  layer req w s = (Return (Respond r), s') ->
  handle (layer :: rest) req w s = (Return r, s').
Proof.
  intros H. cbn [handle]. unfold bind at 1. unfold try_catch. now rewrite H.
Qed.

Lemma healthRouter_skips req w s :
  past_health L req ->
  createHealthRouter L req w s = (Return (Next req), s).
Proof.
  intros [_ [H|H]]; unfold createHealthRouter, route.
  - now rewrite H.
  - rewrite H. now destruct (handles "GET" (method req)).
Qed.

(** X23.  The health check is open: a [GET] request the health route
    matches is answered 200 "healthy" with the clock's reading, whatever
    the configuration and whatever credentials it carries or lacks;
    nothing is fetched, logged or stored. *)
Theorem health_is_open cfg req p w s :
  method req = "GET" ->
  route_match L "/health" (path req) = Some p ->
  run (createFilesServer L cfg req) w s
  = (Return (Json 200
       (<["status" := VStr "healthy"]>
       (<["service" := VStr "files-service"]>
       (<["timestamp" := VNum (clock w (asked s))]> ∅)))),
     MkState (cache s) (container s) (S (asked s)) (log s)).
Proof.
  intros Hm Hp. unfold run, createFilesServer, layers. cbv zeta.
  erewrite handle_respond; [reflexivity|].
  unfold createHealthRouter, route. rewrite Hm, Hp. reflexivity.
Qed.

(** X24.  Without any authentication configured, every request that
    reaches the layers after the health router (any request but an OPTIONS
    request, which CORS answers, and a GET or HEAD request the health route
    matches) is answered 503 "Authentication not configured", and nothing
    else happens. *)
Theorem unconfigured_authentication_is_503 cfg req w s :
  authServers cfg = None ->
  nonempty (jwksUrl_ cfg) = None ->
  nonempty (jwtPublicKey cfg) = None ->
  past_health L req ->
  run (createFilesServer L cfg req) w s
  = (Return (Json 503 {[ "error" := VStr "Service Unavailable";
                         "message" := VStr "Authentication not configured" ]}),
     s).
Proof.
  intros Ha Hj Hk Hh. unfold run, createFilesServer, layers. cbv zeta.
  erewrite handle_next by (now apply healthRouter_skips).
  erewrite handle_respond; [reflexivity|].
  unfold resolveAuthMiddleware. now rewrite Ha, Hj, Hk.
Qed.

Lemma resolveAuthMiddleware_configured cfg :
  authServers cfg <> None \/ nonempty (jwksUrl_ cfg) <> None
  \/ nonempty (jwtPublicKey cfg) <> None ->
  (exists servers, resolveAuthMiddleware L cfg = Auth.authenticateJwks L servers)
  \/ (exists k, resolveAuthMiddleware L cfg = Auth.authenticateJWT L k).
Proof.
  intros H. unfold resolveAuthMiddleware. cbv zeta.
  destruct (authServers cfg) as [servers|]; [left; eexists; reflexivity|].
  destruct (nonempty (jwksUrl_ cfg)) as [url|]; [left; eexists; reflexivity|].
  destruct (nonempty (jwtPublicKey cfg)) as [k|] eqn:Hk.
  - right. exists k. unfold Auth.createAuthMiddleware.
    unfold nonempty in Hk. destruct (jwtPublicKey cfg) as [k'|]; [|discriminate].
    destruct (truthy (VStr k')) eqn:Ht; [|discriminate].
    injection Hk as <-. now rewrite Ht.
  - exfalso. destruct H as [H|[H|H]]; now apply H.
Qed.

(** X25.  With authentication configured, whichever mode, a request that
    reaches the layers after the health router (any request but an OPTIONS
    request, which CORS answers, and a GET or HEAD request the health route
    matches) and carries no [Authorization] header, or one that does not
    start with "Bearer ", is answered 401 by the first layer it meets: no
    token is decoded, no key fetched, no oracle asked, no blob touched, and
    this for unknown paths as well. *)
Theorem missing_bearer_is_401 cfg req w s :
  authServers cfg <> None \/ nonempty (jwksUrl_ cfg) <> None
  \/ nonempty (jwtPublicKey cfg) <> None ->
  past_health L req ->
  Auth.badHeader (authorization req) = true ->
  run (createFilesServer L cfg req) w s
  = (Return (Json 401 {[ "error" := VStr "Unauthorized";
                         "message" := VStr "Missing or invalid authorization header" ]}),
     s).
Proof.
  intros Hc Hh Hb. unfold run, createFilesServer, layers. cbv zeta.
  erewrite handle_next by (now apply healthRouter_skips).
  erewrite handle_respond; [reflexivity|].
  destruct (resolveAuthMiddleware_configured cfg Hc) as [[servers ->]|[k ->]].
  - unfold Auth.authenticateJwks. now rewrite Hb.
  - unfold Auth.authenticateJWT. now rewrite Hb.
Qed.

(** X26.  A server's own [cacheTtl] is not used: [resolveAuthMiddleware]
    writes the global [jwksCacheTtl] (3600 s when unset or zero) over it, so
    two configurations whose auth servers differ in their [cacheTtl] only
    serve every request alike, and each server's key set is kept for the
    global time. *)
Theorem own_cacheTtl_is_overridden cfg servers1 servers2 :
  map issuer servers1 = map issuer servers2 ->
  map jwksUrl servers1 = map jwksUrl servers2 ->
  let cfg1 := MkConfig (Some servers1) (jwksUrl_ cfg) (jwtPublicKey cfg)
                (jwksCacheTtl cfg) (authorizationUrl cfg)
                (authorizationTimeout cfg) (azureConnectionString cfg) in
  let cfg2 := MkConfig (Some servers2) (jwksUrl_ cfg) (jwtPublicKey cfg)
                (jwksCacheTtl cfg) (authorizationUrl cfg)
                (authorizationTimeout cfg) (azureConnectionString cfg) in
  (forall req w s,
      run (createFilesServer L cfg1 req) w s = run (createFilesServer L cfg2 req) w s)
  /\ exists used,
       resolveAuthMiddleware L cfg1 = Auth.authenticateJwks L used
       /\ map issuer used = map issuer servers1
       /\ map jwksUrl used = map jwksUrl servers1
       /\ Forall (fun sv => JwksClient.cacheTtlMs sv
                            = num_or (jwksCacheTtl cfg) 3600 * 1000) used.
Proof.
  intros Hi Hu cfg1 cfg2. subst cfg1 cfg2.
  set (t := num_or (jwksCacheTtl cfg) 3600).
  assert (Hsame : forall l1 l2 : list auth_server,
             map issuer l1 = map issuer l2 -> map jwksUrl l1 = map jwksUrl l2 ->
             map (fun sv => MkServer (issuer sv) (jwksUrl sv) (Some t)) l1
             = map (fun sv => MkServer (issuer sv) (jwksUrl sv) (Some t)) l2).
  { induction l1 as [|a l1 IH]; intros [|b l2] H1 H2; try discriminate;
      [reflexivity|].
    cbn [map] in *. injection H1 as Ha H1. injection H2 as Hb H2.
    rewrite Ha, Hb. f_equal. now apply IH. }
  assert (Ht : t <> 0).
  { subst t. unfold num_or. destruct (jwksCacheTtl cfg) as [n|]; [|lia].
    destruct (Z.eqb_spec n 0); lia. }
  split.
  - intros req w s. unfold run, createFilesServer, layers, resolveAuthMiddleware.
    cbv zeta. cbn [authServers jwksCacheTtl authorizationUrl authorizationTimeout
                   azureConnectionString storageOf].
    fold t. rewrite (Hsame servers1 servers2 Hi Hu). reflexivity.
  - unfold resolveAuthMiddleware. cbv zeta. cbn [authServers jwksCacheTtl]. fold t.
    eexists. split; [reflexivity|]. rewrite !map_map. cbn [issuer jwksUrl].
    split; [reflexivity|]. split; [reflexivity|].
    apply Forall_map. apply Forall_forall. intros sv _.
    unfold JwksClient.cacheTtlMs. cbn [cacheTtl].
    destruct (Z.eqb_spec t 0); [contradiction | reflexivity].
Qed.

Lemma try_unreached {A} (c : M A) (h : error -> M A) Q H w s :
  ends c Q (fun _ => False) H -> try_catch c h w s = c w s.
Proof.
  intros Hc. specialize (Hc w s). unfold try_catch.
  destruct (c w s) as [[a|e|] s']; [reflexivity | contradiction | reflexivity].
Qed.

Lemma handle_settles Inv P H stack :
  Forall (settles Inv P H) stack ->
  forall req, Inv req ->
    ends (handle stack req) (fun _ => True) (fun _ => False) H
    /\ preserves (logged P) (handle stack req).
Proof.
  induction 1 as [|layer rest Hl _ IH]; intros req Hreq.
  - split; [apply ends_ret; exact I | apply preserves_ret].
  - destruct (Hl req Hreq) as [He Hp]. cbn [handle]. split.
    + eapply ends_bind with (Q := hands_on Inv).
      * eapply ends_try with (E' := fun _ => False); [exact He|].
        intros e [].
      * intros [req'|r] Hn; [now apply IH | apply ends_ret; exact I].
    + intros w s. unfold bind.
      rewrite (try_unreached _ _ _ _ w s He).
      pose proof (He w s) as Hw. pose proof (Hp w s) as Hq.
      destruct (layer req w s) as [[[req'|r]|e|] s1]; cbn [fst snd] in *;
        try exact Hq.
      rewrite (proj2 (IH req' Hw) w s1). exact Hq.
Qed.

Section Layers.
Variable Inv : request -> Prop.
Variable P : event -> bool.
Variable H : world -> Prop.
Hypothesis Inv_set_user : forall u req, Inv req -> Inv (set_user u req).
Hypothesis Inv_set_fileScope :
  forall v req, Inv req -> Inv (set_fileScope v req).

Lemma settles_route verb pattern handler codes :
  (forall req, ends (handler req) (answers_among codes) (fun _ => False) H) ->
  (forall req, preserves (logged P) (handler req)) ->
  settles Inv P H (route L verb pattern handler).
Proof.
  intros He Hp req Hreq. unfold route. split.
  - destruct (handles _ _); [|apply ends_ret; exact Hreq].
    destruct (route_match _ _ _); [|apply ends_ret; exact Hreq].
    eapply ends_weaken; [apply He | | auto | auto].
    intros [req'|r]; simpl; tauto.
  - destruct (handles _ _); [|apply preserves_ret].
    destruct (route_match _ _ _); [apply Hp | apply preserves_ret].
Qed.

Lemma settles_healthRouter : settles Inv P H (createHealthRouter L).
Proof.
  apply settles_route with (codes := [200]).
  - intros req. eapply ends_bind with (Q := fun _ => True);
      [apply ends_ask | intros now _; apply ends_ret; simpl; tauto].
  - intros req. unfold Date_now. preserves_go.
Qed.

Lemma settles_rateLimit class message : settles Inv P H (rateLimit class message).
Proof.
  intros req Hreq. unfold rateLimit. split; [|preserves_go].
  eapply ends_bind with (Q := fun _ => True); [apply ends_ask|].
  intros pass _. destruct pass; apply ends_ret; simpl; auto.
Qed.

Lemma hands_on_authenticated req o :
  Inv req -> authenticated_shape req o -> hands_on Inv o.
Proof.
  intros Hreq. destruct o as [req'|r]; simpl; [|auto].
  intros [u ->]. now apply Inv_set_user.
Qed.

Lemma hands_on_authorized req o :
  Inv req -> authorized_shape req o -> hands_on Inv o.
Proof.
  intros Hreq. destruct o as [req'|r]; simpl; [|auto].
  intros (v & -> & _). now apply Inv_set_fileScope.
Qed.

Lemma ends_resolveAuthMiddleware cfg req :
  Inv req ->
  (authServers cfg <> None \/ nonempty (jwksUrl_ cfg) <> None ->
   forall w, stalls w -> H w) ->
  ends (resolveAuthMiddleware L cfg req) (hands_on Inv) (fun _ => False) H.
Proof.
  intros Hreq HH.
  assert (Hjwks : forall servers,
             (forall w, stalls w -> H w) ->
             ends (Auth.authenticateJwks L servers req) (hands_on Inv)
               (fun _ => False) H).
  { intros servers Hw.
    eapply ends_weaken; [apply ends_authenticateJwks | | auto | exact Hw].
    intros o. now apply hands_on_authenticated. }
  unfold resolveAuthMiddleware. cbv zeta.
  destruct (authServers cfg) as [servers|].
  { apply Hjwks, HH. left. discriminate. }
  destruct (nonempty (jwksUrl_ cfg)) as [url|].
  { apply Hjwks, HH. right. discriminate. }
  destruct (nonempty (jwtPublicKey cfg)) as [k|] eqn:Hk.
  - assert (Ht : truthy (VStr k) = true).
    { unfold nonempty in Hk. destruct (jwtPublicKey cfg) as [k'|]; [|discriminate].
      destruct (truthy (VStr k')) eqn:Ht; [|discriminate]. now injection Hk as <-. }
    unfold Auth.createAuthMiddleware. rewrite Ht. cbn [orRethrow].
    eapply ends_weaken; [apply (ends_authenticateJWT L k req H) | | auto | auto].
    intros o. now apply hands_on_authenticated.
  - apply ends_ret. exact I.
Qed.

Lemma logged_resolveAuthMiddleware cfg req :
  (forall url, P (EvFetchJwks url) = false) ->
  (forall l t, P (EvConsole l t) = false
               \/ (l, t) = ("error", "Unhandled error")) ->
  preserves (logged P) (resolveAuthMiddleware L cfg req).
Proof.
  intros Hf Hc.
  assert (Hj : P (EvConsole "error" "JWT validation error") = false)
    by (destruct (Hc "error" "JWT validation error") as [E|E];
        [exact E | discriminate]).
  assert (Hk : P (EvConsole "error" "JWKS JWT validation error") = false)
    by (destruct (Hc "error" "JWKS JWT validation error") as [E|E];
        [exact E | discriminate]).
  assert (Hjwks : forall servers,
             preserves (logged P) (Auth.authenticateJwks L servers req)).
  { intros servers. unfold Auth.authenticateJwks, console.
    destruct (Auth.badHeader _); [preserves_go|].
    apply preserves_try.
    - apply preserves_bind; [apply logged_getSigningKey, Hf|].
      intros [k algorithm].
      apply preserves_bind; [apply logged_jwt_verify|]. intros d. preserves_go.
    - intros e. apply preserves_bind; [now apply logged_emit|].
      intros _. apply preserves_ret. }
  unfold resolveAuthMiddleware. cbv zeta.
  destruct (authServers cfg) as [servers|]; [apply Hjwks|].
  destruct (nonempty (jwksUrl_ cfg)) as [url|]; [apply Hjwks|].
  destruct (nonempty (jwtPublicKey cfg)) as [k|]; [|apply preserves_ret].
  unfold Auth.createAuthMiddleware.
  destruct (truthy (VStr k)); cbn [orRethrow]; [|apply preserves_throw].
  unfold Auth.authenticateJWT, console.
  destruct (Auth.badHeader _); [preserves_go|].
  apply preserves_try.
  - apply preserves_bind; [apply logged_jwt_verify|]. intros d. preserves_go.
  - intros e. apply preserves_bind; [now apply logged_emit|].
    intros _. apply preserves_ret.
Qed.

Lemma ends_authorize_layer url timeout req :
  Inv req ->
  (url <> None -> forall w, body_stalls w -> H w) ->
  ends (Authorization.createAuthorizationMiddleware L url timeout req)
       (hands_on Inv) (fun _ => False) H.
Proof.
  intros Hreq HH. destruct url as [u|].
  - eapply ends_weaken;
      [apply (ends_authorize L (Some u) timeout req) | | auto | apply HH; discriminate].
    intros o. now apply hands_on_authorized.
  - apply ends_ret. now apply Inv_set_fileScope.
Qed.

End Layers.

Lemma unhandled_authorize url timeout req :
  preserves (logged is_unhandled)
    (Authorization.createAuthorizationMiddleware L url timeout req).
Proof.
  unfold Authorization.createAuthorizationMiddleware, Authorization.authorizeWith,
    Authorization.callOracle, Authorization.decide, arrives,
    Authorization.interpret, Authorization.unavailable, console.
  destruct url as [u|]; [destruct (truthy (VStr u))|]; preserves_go.
Qed.

Lemma requestBody_without_id action req :
  params_id req = None ->
  Authorization.requestBody L action req !! "file_id" = None.
Proof.
  intros Hp. unfold Authorization.requestBody. rewrite Hp.
  cbn [from_option truthy]. rewrite andb_false_r.
  destruct (action =? "upload")%string.
  - do 2 (rewrite lookup_insert_ne by discriminate).
    now apply lookup_singleton_ne.
  - now apply lookup_singleton_ne.
Qed.

Lemma names_file_authorize url timeout req :
  params_id req = None ->
  preserves (logged names_file)
    (Authorization.createAuthorizationMiddleware L url timeout req).
Proof.
  intros Hp.
  assert (Hcon : forall l t, preserves (logged names_file) (console l t))
    by (intros; apply logged_emit; reflexivity).
  unfold Authorization.createAuthorizationMiddleware.
  destruct url as [u|]; [|apply preserves_ret].
  destruct (truthy (VStr u)); [|apply preserves_ret].
  unfold Authorization.authorizeWith.
  apply preserves_try; [|intros e; now apply preserves_unavailable].
  destruct (Authorization.actionOf req) as [action|]; [|apply preserves_ret].
  apply preserves_bind; [|intros resp; now apply preserves_decide].
  unfold Authorization.callOracle.
  apply preserves_bind; [apply logged_emit; reflexivity|]. intros _.
  apply preserves_bind.
  - apply logged_emit. cbn [names_file].
    rewrite (requestBody_without_id action req Hp).
    apply bool_decide_eq_false. now intros [x Hx].
  - intros _. preserves_go.
Qed.

Lemma is_unhandled_uploadHandler storage req :
  preserves (logged is_unhandled) (uploadHandler storage req).
Proof.
  unfold uploadHandler, userProp, AzureStorageClient.uploadFile,
    AzureStorageClient.metadataValue, AzureStorageClient.orUser,
    AzureStorageClient.ready, AzureStorageClient.listBlobsFlat, Date_now, console.
  preserves_go.
Qed.

Lemma is_unhandled_downloadHandler storage req :
  preserves (logged is_unhandled) (downloadHandler storage req).
Proof.
  unfold downloadHandler, userProp, AzureStorageClient.downloadFile,
    AzureStorageClient.ready, AzureStorageClient.listBlobsFlat, Date_now, console.
  preserves_go.
Qed.

Lemma is_unhandled_listHandler storage req :
  preserves (logged is_unhandled) (listHandler storage req).
Proof.
  unfold listHandler, userProp, AzureStorageClient.listFiles,
    AzureStorageClient.ready, AzureStorageClient.listBlobsFlat, Date_now, console.
  preserves_go.
Qed.

Lemma is_unhandled_deleteHandler storage req :
  preserves (logged is_unhandled) (deleteHandler storage req).
Proof.
  unfold deleteHandler, userProp, AzureStorageClient.deleteFile,
    AzureStorageClient.ready, AzureStorageClient.listBlobsFlat, Date_now, console.
  preserves_go.
Qed.

Lemma names_file_uploadHandler storage req :
  preserves (logged names_file) (uploadHandler storage req).
Proof.
  unfold uploadHandler, userProp, AzureStorageClient.uploadFile,
    AzureStorageClient.metadataValue, AzureStorageClient.orUser,
    AzureStorageClient.ready, AzureStorageClient.listBlobsFlat, Date_now, console.
  preserves_go.
Qed.

Lemma names_file_downloadHandler storage req :
  preserves (logged names_file) (downloadHandler storage req).
Proof.
  unfold downloadHandler, userProp, AzureStorageClient.downloadFile,
    AzureStorageClient.ready, AzureStorageClient.listBlobsFlat, Date_now, console.
  preserves_go.
Qed.

Lemma names_file_listHandler storage req :
  preserves (logged names_file) (listHandler storage req).
Proof.
  unfold listHandler, userProp, AzureStorageClient.listFiles,
    AzureStorageClient.ready, AzureStorageClient.listBlobsFlat, Date_now, console.
  preserves_go.
Qed.

Lemma names_file_deleteHandler storage req :
  preserves (logged names_file) (deleteHandler storage req).
Proof.
  unfold deleteHandler, userProp, AzureStorageClient.deleteFile,
    AzureStorageClient.ready, AzureStorageClient.listBlobsFlat, Date_now, console.
  preserves_go.
Qed.

(** The layers of the server, one by one. *)
Ltac layer_by_layer auth authz up down list del :=
  unfold layers; cbv zeta;
  repeat first [apply List.Forall_nil | apply List.Forall_cons];
  lazymatch goal with
  | |- settles _ _ _ (createHealthRouter _) => apply settles_healthRouter
  | |- settles _ _ _ (resolveAuthMiddleware _ _) => auth
  | |- settles _ _ _ (Authorization.createAuthorizationMiddleware _ _ _) => authz
  | |- settles _ _ _ uploadLimiter => apply settles_rateLimit
  | |- settles _ _ _ downloadLimiter => apply settles_rateLimit
  | |- settles _ _ _ (createUploadRouter _ _) =>
      eapply settles_route; intros ?; [apply ends_uploadHandler | apply up]
  | |- settles _ _ _ (createDownloadRouter _ _) =>
      eapply settles_route; intros ?; [apply ends_downloadHandler | apply down]
  | |- settles _ _ _ (createListRouter _ _) =>
      eapply settles_route; intros ?; [apply ends_listHandler | apply list]
  | |- settles _ _ _ (createDeleteRouter _ _) =>
      eapply settles_route; intros ?; [apply ends_deleteHandler | apply del]
  end.

Lemma layers_answer (H : world -> Prop) cfg :
  (authServers cfg <> None \/ nonempty (jwksUrl_ cfg) <> None ->
   forall w, stalls w -> H w) ->
  (nonempty (authorizationUrl cfg) <> None -> forall w, body_stalls w -> H w) ->
  Forall (settles (fun _ => True) is_unhandled H) (layers L cfg).
Proof.
  intros HH HB.
  layer_by_layer
    ltac:(intros req Hreq; split;
          [ apply ends_resolveAuthMiddleware; auto
          | apply logged_resolveAuthMiddleware;
            [ reflexivity
            | intros l t; cbn [is_unhandled];
              destruct (String.eqb_spec l "error") as [->|];
              [ destruct (String.eqb_spec t "Unhandled error") as [->|];
                [ now right | now left ]
              | now left ] ] ])
    ltac:(intros req Hreq; split;
          [ apply ends_authorize_layer; auto | apply unhandled_authorize ])
    is_unhandled_uploadHandler is_unhandled_downloadHandler
    is_unhandled_listHandler is_unhandled_deleteHandler.
Qed.

Lemma layers_name_no_file cfg :
  Forall (settles (fun req => params_id req = None) names_file (fun _ => True))
         (layers L cfg).
Proof.
  layer_by_layer
    ltac:(intros req Hreq; split;
          [ apply ends_resolveAuthMiddleware; auto
          | apply logged_resolveAuthMiddleware;
            [ reflexivity | intros l t; now left ] ])
    ltac:(intros req Hreq; split;
          [ apply ends_authorize_layer; auto
          | now apply names_file_authorize ])
    names_file_uploadHandler names_file_downloadHandler
    names_file_listHandler names_file_deleteHandler.
Qed.

Lemma body_stalls_stalls w : body_stalls w -> stalls w.
Proof. intros (n & url & status & Hn). exists n, url. right. eauto. Qed.

(** X27.  Every request is answered unless the network stalls, and by the
    layer that took it: a run of the stack never throws; it ends with a
    reply unless a call of [fetch] never settles or the body of a response
    never arrives.  In static-key mode and without authentication
    configured, only an oracle's response whose body never arrives can
    leave a request unanswered (an oracle call that does not resolve is
    aborted by the timer), and without an oracle every request is answered.
    None of the repository's middlewares and handlers lets an error escape,
    so the error handler registered last is never reached from them. *)
Theorem every_request_is_answered cfg req w s :
  let r := run (createFilesServer L cfg req) w s in
  ((exists reply, fst r = Return reply) \/ (fst r = Hang /\ stalls w))
  /\ (authServers cfg = None -> nonempty (jwksUrl_ cfg) = None ->
      (exists reply, fst r = Return reply)
      \/ (fst r = Hang /\ nonempty (authorizationUrl cfg) <> None
          /\ body_stalls w))
  /\ (authServers cfg = None -> nonempty (jwksUrl_ cfg) = None ->
      nonempty (authorizationUrl cfg) = None ->
      exists reply, fst r = Return reply)
  /\ logged is_unhandled (snd r) = logged is_unhandled s.
Proof.
  intros r. subst r. unfold run, createFilesServer.
  split; [|split; [|split]].
  - destruct (handle_settles _ _ stalls (layers L cfg)
                (layers_answer stalls cfg (fun _ w Hw => Hw)
                   (fun _ w Hw => body_stalls_stalls w Hw)) req I) as [He _].
    specialize (He w s).
    destruct (fst _) as [reply|e|]; [left; eauto | contradiction | right; auto].
  - intros Ha Hj.
    set (H := fun w => nonempty (authorizationUrl cfg) <> None /\ body_stalls w).
    assert (HH : authServers cfg <> None \/ nonempty (jwksUrl_ cfg) <> None ->
                 forall w, stalls w -> H w).
    { intros [Hx|Hx]; contradiction. }
    assert (HB : nonempty (authorizationUrl cfg) <> None ->
                 forall w, body_stalls w -> H w).
    { intros Hu w' Hw. split; assumption. }
    destruct (handle_settles _ _ H (layers L cfg) (layers_answer H cfg HH HB)
                req I) as [He _].
    specialize (He w s).
    destruct (fst _) as [reply|e|]; [left; eauto | contradiction | right; auto].
  - intros Ha Hj Hu.
    assert (HH : authServers cfg <> None \/ nonempty (jwksUrl_ cfg) <> None ->
                 forall w, stalls w -> never w).
    { intros [Hx|Hx]; contradiction. }
    assert (HB : nonempty (authorizationUrl cfg) <> None ->
                 forall w, body_stalls w -> never w).
    { intros Hx; contradiction. }
    destruct (handle_settles _ _ never (layers L cfg)
                (layers_answer never cfg HH HB) req I) as [He _].
    specialize (He w s).
    destruct (fst _) as [reply|e|]; [eauto | contradiction | contradiction].
  - destruct (handle_settles _ _ stalls (layers L cfg)
                (layers_answer stalls cfg (fun _ w Hw => Hw)
                   (fun _ w Hw => body_stalls_stalls w Hw)) req I) as [_ Hp].
    apply Hp.
Qed.

(** X28.  The oracle is not told which file: the authorization layer runs
    before a route has bound [:id], so for a request as Express hands it
    to the stack, with [req.params.id] not set, no decision request the
    server sends carries a [file_id], whatever the path; the builder of
    the decision request would add one for a download or a delete as soon
    as [req.params.id] were a non-empty string. *)
Theorem oracle_is_not_told_the_file cfg req w s :
  params_id req = None ->
  logged names_file (snd (run (createFilesServer L cfg req) w s))
  = logged names_file s
  /\ forall action fid,
       action = "download" \/ action = "delete" -> fid <> "" ->
       Authorization.requestBody L action (set_params_id (Some fid) req)
         !! "file_id" = Some (VStr fid).
Proof.
  intros Hp. split.
  - unfold run, createFilesServer.
    destruct (handle_settles _ _ _ (layers L cfg) (layers_name_no_file cfg) req Hp)
      as [_ Hq].
    apply Hq.
  - intros action fid Ha Hf. unfold Authorization.requestBody.
    cbn [params_id set_params_id from_option].
    rewrite (proj2 (truthy_str fid) Hf).
    destruct Ha as [-> | ->]; cbn; now rewrite lookup_insert_eq.
Qed.

End Assembled.

Lemma health_is_open_witness :
  method (requestOf "GET" "/health" None) = "GET"
  /\ route_match (demoLibs []) "/health" (path (requestOf "GET" "/health" None))
     = Some None
  /\ reply_status (run (Server.createFilesServer (demoLibs []) bareConfig
                          (requestOf "GET" "/health" None)) stillWorld fresh_state)
     = Some 200.
Proof.
  assert (h1 : method (requestOf "GET" "/health" None) = "GET") by reflexivity.
  assert (h2 : route_match (demoLibs []) "/health"
                 (path (requestOf "GET" "/health" None)) = Some None)
    by reflexivity.
  split; [exact h1 | split; [exact h2 |]].
  rewrite (health_is_open (demoLibs []) bareConfig (requestOf "GET" "/health" None)
             None stillWorld fresh_state h1 h2).
  reflexivity.
Defined.

Lemma unconfigured_authentication_is_503_witness :
  Server.authServers bareConfig = None
  /\ Server.nonempty (Server.jwksUrl_ bareConfig) = None
  /\ Server.nonempty (Server.jwtPublicKey bareConfig) = None
  /\ past_health (demoLibs []) (requestOf "GET" "/files" (Some "Bearer t256"))
  /\ reply_status (run (Server.createFilesServer (demoLibs []) bareConfig
                          (requestOf "GET" "/files" (Some "Bearer t256")))
                     stillWorld fresh_state)
     = Some 503.
Proof.
  assert (h1 : Server.authServers bareConfig = None) by reflexivity.
  assert (h2 : Server.nonempty (Server.jwksUrl_ bareConfig) = None) by reflexivity.
  assert (h3 : Server.nonempty (Server.jwtPublicKey bareConfig) = None)
    by reflexivity.
  assert (h4 : past_health (demoLibs [])
                 (requestOf "GET" "/files" (Some "Bearer t256")))
    by (split; [discriminate | right; reflexivity]).
  split; [exact h1 | split; [exact h2 | split; [exact h3 | split; [exact h4 |]]]].
  rewrite (unconfigured_authentication_is_503 (demoLibs []) bareConfig
             (requestOf "GET" "/files" (Some "Bearer t256")) stillWorld fresh_state
             h1 h2 h3 h4).
  reflexivity.
Defined.

Lemma missing_bearer_is_401_witness :
  past_health (demoLibs issuedTokens) (requestOf "DELETE" "/nowhere" None)
  /\ Auth.badHeader (authorization (requestOf "DELETE" "/nowhere" None)) = true
  /\ reply_status (run (Server.createFilesServer (demoLibs issuedTokens)
                          gatewayConfig (requestOf "DELETE" "/nowhere" None))
                     gatewayWorld fresh_state)
     = Some 401.
Proof.
  assert (h1 : Server.authServers gatewayConfig <> None
               \/ Server.nonempty (Server.jwksUrl_ gatewayConfig) <> None
               \/ Server.nonempty (Server.jwtPublicKey gatewayConfig) <> None)
    by (left; discriminate).
  assert (h2 : past_health (demoLibs issuedTokens)
                 (requestOf "DELETE" "/nowhere" None))
    by (split; [discriminate | left; reflexivity]).
  assert (h3 : Auth.badHeader (authorization (requestOf "DELETE" "/nowhere" None))
               = true) by reflexivity.
  split; [exact h2 | split; [exact h3 |]].
  rewrite (missing_bearer_is_401 (demoLibs issuedTokens) gatewayConfig
             (requestOf "DELETE" "/nowhere" None) gatewayWorld fresh_state
             h1 h2 h3).
  reflexivity.
Defined.

Lemma own_cacheTtl_is_overridden_witness :
  map issuer [exactA] = map issuer [exactA60]
  /\ map jwksUrl [exactA] = map jwksUrl [exactA60]
  /\ forall req w s,
       run (Server.createFilesServer (demoLibs issuedTokens)
              (Server.MkConfig (Some [exactA]) None None None None None None) req) w s
       = run (Server.createFilesServer (demoLibs issuedTokens)
                (Server.MkConfig (Some [exactA60]) None None None None None None)
                req) w s.
Proof.
  assert (h1 : map issuer [exactA] = map issuer [exactA60]) by reflexivity.
  assert (h2 : map jwksUrl [exactA] = map jwksUrl [exactA60]) by reflexivity.
  split; [exact h1 | split; [exact h2 |]].
  exact (proj1 (own_cacheTtl_is_overridden (demoLibs issuedTokens) bareConfig
                  [exactA] [exactA60] h1 h2)).
Defined.

Lemma oracle_is_not_told_the_file_witness :
  params_id (requestOf "DELETE" "/files/0b0e7a2c" (Some "Bearer t256")) = None
  /\ logged names_file
       (snd (run (Server.createFilesServer (demoLibs issuedTokens) gatewayConfig
                    (requestOf "DELETE" "/files/0b0e7a2c" (Some "Bearer t256")))
               gatewayWorld fresh_state))
     = [].
Proof.
  assert (h : params_id (requestOf "DELETE" "/files/0b0e7a2c" (Some "Bearer t256"))
              = None) by reflexivity.
  split; [exact h|].
  exact (proj1 (oracle_is_not_told_the_file (demoLibs issuedTokens) gatewayConfig
                  (requestOf "DELETE" "/files/0b0e7a2c" (Some "Bearer t256"))
                  gatewayWorld fresh_state h)).
Defined.
